(** * Text Styler: the style-toggling engine of [StyleManager]

    A shallow embedding of the TypeScript class [StyleManager]
    (styleManager.ts, the variant that reads the thickness settings from the
    plugin instance) together with the regex-based [removeAllStyling] of the
    earliest variant of the same file.

    Strings.  A JavaScript string is a sequence of UTF-16 code units.  The
    embedding uses [string], whose characters are the code units 0..255
    (Latin-1); [toLowerCase], [trim] and the regex class [\s] are given their
    ECMAScript meaning on that range.

    Further code.  The two text-decoration helpers of the earliest variant,
    the slot settings of main.ts with what statusBar.ts and settingsTab.ts
    do to them, and the color conversions of utils.ts are embedded in
    modules of their own, after the style manager.

    Editor.  The host editor is only reached through [getRange],
    [replaceRange], [setCursor] and [Notice]; a call of the engine is modelled
    as a function from the selected text to the list of editor effects it
    issues, in order. *)

From Stdlib Require Import String Ascii List Bool Arith Lia ZArith.
From Stdlib Require DecimalString HexadecimalString.
Import ListNotations.

Open Scope list_scope.
Open Scope string_scope.

(* ===================================================================== *)
(** ** JavaScript string and array primitives *)
(* ===================================================================== *)

Module JS.

(** The double quote character and the one-character string holding it. *)
Definition dquote : ascii := "034"%char.
Definition DQ : string := String dquote "".

(** [WhiteSpace] and [LineTerminator] code units below 256: TAB, LF, VT, FF,
    CR, SP and NBSP.  This is what [String.prototype.trim] strips and what the
    regex class [\s] matches. *)
Definition isWhiteSpace (c : ascii) : bool :=
  match c with
  | "009" | "010" | "011" | "012" | "013" | " " | "160" => true
  | _ => false
  end%char.

Fixpoint trimStart (s : string) : string :=
  match s with
  | String c s' => if isWhiteSpace c then trimStart s' else s
  | EmptyString => EmptyString
  end.

Fixpoint trimEnd (s : string) : string :=
  match s with
  | String c s' =>
      match trimEnd s' with
      | EmptyString => if isWhiteSpace c then EmptyString else String c EmptyString
      | t => String c t
      end
  | EmptyString => EmptyString
  end.

(** [s.trim()] *)
Definition trim (s : string) : string := trimEnd (trimStart s).

(** [toLowerCase] on one code unit: A-Z, and the Latin-1 capitals
    U+00C0..U+00DE except the multiplication sign U+00D7. *)
Definition toLowerChar (c : ascii) : ascii :=
  let n := N_of_ascii c in
  if ((65 <=? n) && (n <=? 90) || (192 <=? n) && (n <=? 214)
      || (216 <=? n) && (n <=? 222))%N
  then ascii_of_N (n + 32) else c.

(** [s.toLowerCase()] *)
Fixpoint toLowerCase (s : string) : string :=
  match s with
  | String c s' => String (toLowerChar c) (toLowerCase s')
  | EmptyString => EmptyString
  end.

(** Case folding of a regex with the [i] flag and without the [u] flag: a
    code unit of 128 or more never folds to an ASCII one, so only a-z and A-Z
    are identified. *)
Definition canonicalize (c : ascii) : ascii :=
  let n := N_of_ascii c in
  if ((97 <=? n) && (n <=? 122))%N then ascii_of_N (n - 32) else c.

Definition eqb_ci (c p : ascii) : bool :=
  Ascii.eqb (canonicalize c) (canonicalize p).

(** [s.startsWith(p)] *)
Fixpoint startsWith (p s : string) : bool :=
  match p with
  | EmptyString => true
  | String a p' =>
      match s with
      | String b s' => Ascii.eqb a b && startsWith p' s'
      | EmptyString => false
      end
  end.

(** The literal [p] matched at the start of [s] under the [i] flag. *)
Fixpoint startsWith_ci (p s : string) : bool :=
  match p with
  | EmptyString => true
  | String a p' =>
      match s with
      | String b s' => eqb_ci b a && startsWith_ci p' s'
      | EmptyString => false
      end
  end.

(** [s.substring(n)] *)
Fixpoint substringFrom (n : nat) (s : string) : string :=
  match n, s with
  | O, _ => s
  | S n', String _ s' => substringFrom n' s'
  | S _, EmptyString => EmptyString
  end.

(** [s.substring(0, n)] *)
Fixpoint substringTo (n : nat) (s : string) : string :=
  match n, s with
  | O, _ => EmptyString
  | S n', String c s' => String c (substringTo n' s')
  | S _, EmptyString => EmptyString
  end.

(** [s.split(sep)] for a one-character separator; the result is never
    empty: splitting the empty string gives one empty piece. *)
Fixpoint split (sep : ascii) (s : string) : list string :=
  match s with
  | EmptyString => [EmptyString]
  | String c s' =>
      if Ascii.eqb c sep then EmptyString :: split sep s'
      else match split sep s' with
           | x :: xs => String c x :: xs
           | [] => [String c EmptyString]
           end
  end.

(** [xs.join(sep)] *)
Fixpoint join (sep : string) (xs : list string) : string :=
  match xs with
  | [] => EmptyString
  | [x] => x
  | x :: rest => x ++ sep ++ join sep rest
  end.

(** [s.indexOf(c)], -1 when [c] does not occur. *)
Fixpoint indexOf (c : ascii) (s : string) : Z :=
  match s with
  | EmptyString => (-1)%Z
  | String a s' =>
      if Ascii.eqb a c then 0%Z
      else let i := indexOf c s' in
           if (i <? 0)%Z then (-1)%Z else (i + 1)%Z
  end.

(** Truthiness of a string: [Boolean(s)]. *)
Definition nonEmpty (s : string) : bool :=
  match s with EmptyString => false | _ => true end.

(** Truthiness of a [string | null]. *)
Definition truthy (v : option string) : bool :=
  match v with Some s => nonEmpty s | None => false end.

(** [xs.includes(x)] on an array of strings. *)
Definition includes (x : string) (xs : list string) : bool :=
  existsb (String.eqb x) xs.

(** [xs.filter(cls => cls !== x)] *)
Definition without (x : string) (xs : list string) : list string :=
  filter (fun cls => negb (String.eqb cls x)) xs.

(** [[...new Set(xs)]]: the first occurrence of every element, in order. *)
Fixpoint dedupFrom (seen xs : list string) : list string :=
  match xs with
  | [] => []
  | x :: rest =>
      if includes x seen then dedupFrom seen rest
      else x :: dedupFrom (x :: seen) rest
  end.

Definition dedup (xs : list string) : list string := dedupFrom [] xs.

(** *** Regular expressions

    A regex is embedded as a function that tries to match at the start of a
    string; [search] is the leftmost-match loop of [RegExp.prototype.exec]
    (from index 0) and returns the match index with what the attempt
    returned. *)

Fixpoint search {A : Type} (matchAt : string -> option A) (s : string)
  : option (nat * A) :=
  match matchAt s with
  | Some a => Some (O, a)
  | None =>
      match s with
      | EmptyString => None
      | String _ s' =>
          match search matchAt s' with
          | Some (i, a) => Some (S i, a)
          | None => None
          end
      end
  end.

(** The longest prefix of [s] made of characters other than [c], provided
    [c] follows it: what [[^c]*c] consumes, the closing [c] excluded. *)
Fixpoint upTo (c : ascii) (s : string) : option string :=
  match s with
  | EmptyString => None
  | String a s' =>
      if Ascii.eqb a c then Some EmptyString
      else match upTo c s' with
           | Some t => Some (String a t)
           | None => None
           end
  end.

(** The longest prefix of [s] made of characters other than [c]: [[^c]*]. *)
Fixpoint takeUntil (c : ascii) (s : string) : string :=
  match s with
  | EmptyString => EmptyString
  | String a s' => if Ascii.eqb a c then EmptyString else String a (takeUntil c s')
  end.

(** The last character of the leading white space of [s], if any. *)
Fixpoint lastLeadingSpace (s : string) : option ascii :=
  match s with
  | String c s' =>
      if isWhiteSpace c then
        match lastLeadingSpace s' with
        | Some d => Some d
        | None => Some c
        end
      else None
  | EmptyString => None
  end.

End JS.

(* ===================================================================== *)
(** ** constants.ts and types.ts *)
(* ===================================================================== *)

Definition CLASS_PREFIX : string := "styler-".

Module StyleClasses.
Definition BOLD : string := "bold".
Definition ITALIC : string := "italic".
Definition UNDERLINE : string := "underline".
Definition STRIKE : string := "strike".
Definition COLORED : string := "colored".
Definition HIGHLIGHTED : string := "highlighted".
Definition COLORED_UNDERLINE : string := "colored-underline".
Definition CIRCLED : string := "circled".
End StyleClasses.

(** [type StyleType = 'bold' | 'italic' | 'underline' | 'strike' | 'color'
    | 'highlight' | 'colored-underline' | 'circled'] *)
Inductive StyleType : Type :=
  | Bold | Italic | Underline | Strike
  | Color | Highlight | ColoredUnderline | Circled.

(** The two plugin settings the style manager reads through
    [this.plugin.settings].  The interface that declares them is not in
    types.ts as it stands, so they are parameters of the embedding.  They
    are JavaScript numbers that only ever appear inside a template literal:
    each field holds the text the number is rendered as. *)
Record PluginSettings : Type := {
  coloredUnderlineThickness : string;
  circleThickness : string
}.

(** [SelectionSegment['span']] without its [style] field, which
    [extractStyles] fills and nothing in this variant reads. *)
Record SpanInfo : Type := {
  startTag : string;
  startTagOffset : nat;
  endTagOffset : Z;
  classList : list string
}.

Record SelectionSegment : Type := {
  text : string;
  start : nat;
  finish : nat;
  span : option SpanInfo
}.

(** What a call does to the editor, in order. *)
Inductive EditorEffect : Type :=
  | ReplaceRange (newText : string)   (* editor.replaceRange(newText, from, to) *)
  | SetCursor (chOffset : Z)          (* editor.setCursor({line: from.line, ch: from.ch + chOffset}) *)
  | ShowNotice (message : string).    (* console.warn(...); new Notice(message) *)

(** The text of the selected range once the effects have been carried out. *)
Fixpoint rangeAfter (selectedText : string) (effects : list EditorEffect) : string :=
  match effects with
  | [] => selectedText
  | ReplaceRange t :: rest => rangeAfter t rest
  | _ :: rest => rangeAfter selectedText rest
  end.

(** [currentCssVariables]: a JavaScript object used as a map from
    declaration keys to values.  Its keys all begin with [--styler-], so
    [Object.entries] lists them in insertion order: an association list in
    which assignment to a present key keeps the key's place. *)
Module Vars.

Definition t : Type := list (string * string).

Fixpoint get (k : string) (m : t) : option string :=
  match m with
  | [] => None
  | (k', v) :: rest => if String.eqb k' k then Some v else get k rest
  end.

(** [m[k] = v] *)
Fixpoint set (k v : string) (m : t) : t :=
  match m with
  | [] => [(k, v)]
  | (k', v') :: rest =>
      if String.eqb k' k then (k', v) :: rest else (k', v') :: set k v rest
  end.

(** [delete m[k]] *)
Definition delete (k : string) (m : t) : t :=
  filter (fun kv => negb (String.eqb (fst kv) k)) m.

(** [!m[k]]: the key is absent or bound to the empty string. *)
Definition falsy (k : string) (m : t) : bool :=
  match get k m with Some v => negb (JS.nonEmpty v) | None => true end.

End Vars.

(* ===================================================================== *)
(** ** styleManager.ts *)
(* ===================================================================== *)

Module StyleManager.

Import JS.

(** [classMap]: every style kind has an entry. *)
Definition classMap (styleType : StyleType) : option string :=
  match styleType with
  | Bold => Some StyleClasses.BOLD
  | Italic => Some StyleClasses.ITALIC
  | Underline => Some StyleClasses.UNDERLINE
  | Strike => Some StyleClasses.STRIKE
  | Circled => Some StyleClasses.CIRCLED
  | Color => Some StyleClasses.COLORED
  | Highlight => Some StyleClasses.HIGHLIGHTED
  | ColoredUnderline => Some StyleClasses.COLORED_UNDERLINE
  end.

(** [(styleType in this.classMap) ? `${CLASS_PREFIX}${this.classMap[styleType]}` : null] *)
Definition targetClassOf (styleType : StyleType) : option string :=
  match classMap styleType with
  | Some c => Some (CLASS_PREFIX ++ c)
  | None => None
  end.

Definition cls (c : string) : string := CLASS_PREFIX ++ c.

(** *** The regular expressions *)

(** [/<\/?span[^>]*>/gi] tried at the start of [s]; returns [match[0]].
    The optional slash is greedy: the attempt with the slash comes first,
    then the one without it (at most one of the two can succeed). *)
Definition tagRegexAt (s : string) : option string :=
  let head :=
    if startsWith_ci "</span" s then Some 6
    else if startsWith_ci "<span" s then Some 5
    else None in
  match head with
  | Some n =>
      match upTo ">"%char (substringFrom n s) with
      | Some body => Some (substringTo n s ++ body ++ ">")
      | None => None
      end
  | None => None
  end.

(** [tagRegex.lastIndex = 0; tagRegex.exec(remainingText)]: the pair of
    [match.index] and [match[0]]. *)
Definition tagRegexExec (remainingText : string) : option (nat * string) :=
  search tagRegexAt remainingText.

(** The regex literal of the [style] attribute, flag [i]: the text
    [style=], a double quote, group 1 holding the longest run of characters
    other than a double quote, and a double quote.  Tried at the start of
    [s]; returns group 1. *)
Definition styleRegexAt (s : string) : option string :=
  if startsWith_ci ("style=" ++ DQ) s then upTo dquote (substringFrom 7 s)
  else None.

(** The same for the [class] attribute. *)
Definition classRegexAt (s : string) : option string :=
  if startsWith_ci ("class=" ++ DQ) s then upTo dquote (substringFrom 7 s)
  else None.

(** [startTag.match(styleRegex)?.[1]], or the empty string when there is
    no match or the group is empty. *)
Definition styleAttrOf (tag : string) : string :=
  match search styleRegexAt tag with
  | Some (_, captured) => captured
  | None => EmptyString
  end.

(** [new RegExp(`${varName}\\s*:\\s*([^;]+)`)] tried at the start of [s];
    returns group 1.  The variable names hold no regex operator.  After the
    colon the greedy [\s*] takes all the white space; when nothing but a
    semicolon or the end follows, it gives its last character back to
    [[^;]+], which then captures that one white-space character. *)
Definition valueRegexAt (varName s : string) : option string :=
  if startsWith varName s then
    match trimStart (substringFrom (String.length varName) s) with
    | String ":"%char r =>
        match takeUntil ";"%char (trimStart r) with
        | EmptyString =>
            match lastLeadingSpace r with
            | Some c => Some (String c EmptyString)
            | None => None
            end
        | captured => Some captured
        end
    | _ => None
    end
  else None.

(** [\s*${varName}\s*:] at the start of [s]. *)
Definition declHeadAt (varName s : string) : bool :=
  let r := trimStart s in
  startsWith varName r &&
  match trimStart (substringFrom (String.length varName) r) with
  | String ":"%char _ => true
  | _ => false
  end.

(** Some semicolon of [s] is followed by [\s*${varName}\s*:]. *)
Fixpoint declAfterSemicolon (varName s : string) : bool :=
  match s with
  | EmptyString => false
  | String c s' =>
      (Ascii.eqb c ";"%char && declHeadAt varName s')
      || declAfterSemicolon varName s'
  end.

(** *** Helpers *)

(** [hasCssVariable]: [new RegExp(`(^|;)\\s*${varName}\\s*:`).test(styleAttr)] *)
Definition hasCssVariable (spanInfo : option SpanInfo) (varName : string) : bool :=
  match spanInfo with
  | None => false
  | Some sp =>
      if nonEmpty (startTag sp) then
        let styleAttr := styleAttrOf (startTag sp) in
        declHeadAt varName styleAttr || declAfterSemicolon varName styleAttr
      else false
  end.

(** [getCssVariableValue]: [match && match[1] ? match[1].trim() : null] *)
Definition getCssVariableValue (spanInfo : option SpanInfo) (varName : string)
  : option string :=
  match spanInfo with
  | None => None
  | Some sp =>
      if nonEmpty (startTag sp) then
        match search (valueRegexAt varName) (styleAttrOf (startTag sp)) with
        | Some (_, captured) =>
            if nonEmpty captured then Some (trim captured) else None
        | None => None
        end
      else None
  end.

(** [extractClasses] *)
Definition extractClasses (tag : string) : list string :=
  match search classRegexAt tag with
  | Some (_, captured) =>
      if nonEmpty captured then filter nonEmpty (split " "%char captured) else []
  | None => []
  end.

(** *** parseSelection *)

(** One turn of the [while (currentIndex < len)] loop per unit of [fuel];
    [remainingText] is [selectedText.substring(currentIndex)]. *)
Fixpoint parseLoop (fuel : nat) (currentIndex : nat) (remainingText : string)
    (currentSpanInfo : option SpanInfo) : list SelectionSegment :=
  match fuel with
  | O => []
  | S fuel' =>
      match remainingText with
      | EmptyString => []
      | _ =>
          match tagRegexExec remainingText with
          | None =>
              [ {| text := remainingText; start := currentIndex;
                   finish := currentIndex + String.length remainingText;
                   span := currentSpanInfo |} ]
          | Some (tagStart, tagText) =>
              let textEnd := currentIndex + tagStart in
              let flushed :=
                if (currentIndex <? textEnd)%nat
                then [ {| text := substringTo tagStart remainingText;
                          start := currentIndex; finish := textEnd;
                          span := currentSpanInfo |} ]
                else [] in
              let tagActualStart := currentIndex + tagStart in
              let tagActualEnd := tagActualStart + String.length tagText in
              let nextSpanInfo :=
                if startsWith "</span" tagText then None
                else Some {| startTag := tagText;
                             startTagOffset := tagActualStart;
                             endTagOffset := (-1)%Z;
                             classList := extractClasses tagText |} in
              (flushed ++
               parseLoop fuel' tagActualEnd
                 (substringFrom (tagStart + String.length tagText) remainingText)
                 nextSpanInfo)%list
          end
      end
  end.

Definition parseSelection (selectedText : string) : list SelectionSegment :=
  let segments := parseLoop (String.length selectedText) 0 selectedText None in
  match segments with
  | [] =>
      if (0 <? String.length selectedText)%nat
      then [ {| text := selectedText; start := 0;
                finish := String.length selectedText; span := None |} ]
      else []
  | _ => segments
  end.

(** *** applyModificationToSegment *)

Definition TEXT_COLOR : string := "--styler-text-color".
Definition HIGHLIGHT_COLOR : string := "--styler-highlight-color".
Definition UNDERLINE_COLOR : string := "--styler-underline-color".
Definition UNDERLINE_THICKNESS : string := "--styler-underline-thickness".
Definition CIRCLE_COLOR : string := "--styler-circle-color".
Definition CIRCLE_THICKNESS : string := "--styler-circle-thickness".

(** The two locals the function edits: [currentClasses] and
    [currentCssVariables]. *)
Record Attributes : Type := {
  currentClasses : list string;
  currentCssVariables : Vars.t
}.

(** The body of [styleAttr.split(';').forEach(part => ...)]. *)
Definition readDeclaration (vars : Vars.t) (part : string) : Vars.t :=
  match split ":"%char part with
  | key :: rest =>
      let trimmedKey := trim key in
      if startsWith "--styler-" trimmedKey then
        Vars.set trimmedKey
          (match rest with val :: _ => trim val | [] => EmptyString end) vars
      else vars
  | [] => vars
  end.

(** The state before the style is applied or removed. *)
Definition readAttributes (spanInfo : option SpanInfo) : Attributes :=
  match spanInfo with
  | Some sp =>
      {| currentClasses := classList sp;
         currentCssVariables :=
           if nonEmpty (startTag sp) then
             fold_left readDeclaration
               (split ";"%char (styleAttrOf (startTag sp))) []
           else [] |}
  | None => {| currentClasses := []; currentCssVariables := [] |}
  end.

(** A value that passes the test [&& value]. *)
Definition truthyValue (value : option string) : option string :=
  match value with
  | Some v => if nonEmpty v then Some v else None
  | None => None
  end.

(** The branch [if (shouldApply)]. *)
Definition applyStyle (settings : PluginSettings) (styleType : StyleType)
    (value : option string) (a : Attributes) : Attributes :=
  let classes :=
    match targetClassOf styleType with
    | Some targetClass =>
        if includes targetClass (currentClasses a) then currentClasses a
        else (currentClasses a ++ [targetClass])%list
    | None => currentClasses a
    end in
  let vars := currentCssVariables a in
  match styleType, truthyValue value with
  | Color, Some v =>
      {| currentClasses := classes;
         currentCssVariables := Vars.set TEXT_COLOR v vars |}
  | Highlight, Some v =>
      {| currentClasses := classes;
         currentCssVariables := Vars.set HIGHLIGHT_COLOR v vars |}
  | ColoredUnderline, Some v =>
      {| currentClasses := without (cls StyleClasses.UNDERLINE) classes;
         currentCssVariables :=
           Vars.set UNDERLINE_THICKNESS
             (coloredUnderlineThickness settings ++ "px")
             (Vars.set UNDERLINE_COLOR v vars) |}
  | Underline, _ =>
      {| currentClasses := without (cls StyleClasses.COLORED_UNDERLINE) classes;
         currentCssVariables :=
           Vars.delete UNDERLINE_THICKNESS (Vars.delete UNDERLINE_COLOR vars) |}
  | Circled, Some v =>
      {| currentClasses := classes;
         currentCssVariables :=
           Vars.set CIRCLE_THICKNESS (circleThickness settings ++ "px")
             (Vars.set CIRCLE_COLOR v vars) |}
  | _, _ => {| currentClasses := classes; currentCssVariables := vars |}
  end.

(** The branch [else] of [if (shouldApply)]. *)
Definition removeStyle (styleType : StyleType) (a : Attributes) : Attributes :=
  let classes :=
    match targetClassOf styleType with
    | Some targetClass => without targetClass (currentClasses a)
    | None => currentClasses a
    end in
  let vars := currentCssVariables a in
  {| currentClasses := classes;
     currentCssVariables :=
       match styleType with
       | Color => Vars.delete TEXT_COLOR vars
       | Highlight => Vars.delete HIGHLIGHT_COLOR vars
       | ColoredUnderline | Underline =>
           Vars.delete UNDERLINE_THICKNESS (Vars.delete UNDERLINE_COLOR vars)
       | Circled =>
           Vars.delete CIRCLE_THICKNESS (Vars.delete CIRCLE_COLOR vars)
       | _ => vars
       end |}.

(** The first half of the cleanup: the underline variables. *)
Definition cleanupUnderline (a : Attributes) : Attributes :=
  let classes := currentClasses a in
  let vars := currentCssVariables a in
  let hasAnyUnderlineClass :=
    includes (cls StyleClasses.UNDERLINE) classes
    || includes (cls StyleClasses.COLORED_UNDERLINE) classes in
  let vars1 :=
    if negb hasAnyUnderlineClass
    then Vars.delete UNDERLINE_THICKNESS (Vars.delete UNDERLINE_COLOR vars)
    else vars in
  let vars2 :=
    if includes (cls StyleClasses.UNDERLINE) classes
       || negb (includes (cls StyleClasses.COLORED_UNDERLINE) classes)
    then Vars.delete UNDERLINE_THICKNESS (Vars.delete UNDERLINE_COLOR vars1)
    else vars1 in
  {| currentClasses := classes; currentCssVariables := vars2 |}.

(** The second half: marker classes whose variable is gone. *)
Definition cleanupMarkers (a : Attributes) : Attributes :=
  let a1 :=
    if Vars.falsy TEXT_COLOR (currentCssVariables a)
    then {| currentClasses := without (cls StyleClasses.COLORED) (currentClasses a);
            currentCssVariables := currentCssVariables a |}
    else a in
  let a2 :=
    if Vars.falsy HIGHLIGHT_COLOR (currentCssVariables a1)
    then {| currentClasses := without (cls StyleClasses.HIGHLIGHTED) (currentClasses a1);
            currentCssVariables := currentCssVariables a1 |}
    else a1 in
  let a3 :=
    if Vars.falsy UNDERLINE_COLOR (currentCssVariables a2)
    then {| currentClasses :=
              without (cls StyleClasses.COLORED_UNDERLINE) (currentClasses a2);
            currentCssVariables :=
              Vars.delete UNDERLINE_THICKNESS (currentCssVariables a2) |}
    else a2 in
  if Vars.falsy CIRCLE_COLOR (currentCssVariables a3)
  then {| currentClasses := without (cls StyleClasses.CIRCLED) (currentClasses a3);
          currentCssVariables :=
            Vars.delete CIRCLE_THICKNESS (currentCssVariables a3) |}
  else a3.

(** Everything up to the comment [--- Reconstruct Span ---]. *)
Definition reconcile (settings : PluginSettings) (spanInfo : option SpanInfo)
    (styleType : StyleType) (value : option string) (shouldApply : bool)
  : Attributes :=
  let a := readAttributes spanInfo in
  let a' := if shouldApply then applyStyle settings styleType value a
            else removeStyle styleType a in
  cleanupMarkers (cleanupUnderline a').

(** [[...new Set(currentClasses)].filter(Boolean)] *)
Definition uniqueClasses (classes : list string) : list string :=
  filter nonEmpty (dedup classes).

(** [Object.entries(currentCssVariables).map(...).join(' ')], trimmed. *)
Definition styleAttrValue (vars : Vars.t) : string :=
  trim (join " " (map (fun kv => fst kv ++ ": " ++ snd kv ++ ";") vars)).

(** The part after the comment [--- Reconstruct Span ---]. *)
Definition reconstructSpan (text : string) (a : Attributes) : string :=
  let unique := uniqueClasses (currentClasses a) in
  let styles := styleAttrValue (currentCssVariables a) in
  let hasClasses := (0 <? List.length unique)%nat in
  let hasStyles := (0 <? String.length styles)%nat in
  if hasClasses || hasStyles then
    let openingTag :=
      "<span"
      ++ (if hasClasses then " class=" ++ DQ ++ join " " unique ++ DQ
          else EmptyString)
      ++ (if hasStyles then " style=" ++ DQ ++ styles ++ DQ else EmptyString)
      ++ ">" in
    openingTag ++ text ++ "</span>"
  else text.

Definition applyModificationToSegment (settings : PluginSettings)
    (text : string) (spanInfo : option SpanInfo) (styleType : StyleType)
    (value : option string) (shouldApply : bool) : string :=
  reconstructSpan text (reconcile settings spanInfo styleType value shouldApply).

(** [createStyledSpan]: its [existingSpanInfo] argument is ignored. *)
Definition createStyledSpan (settings : PluginSettings) (text : string)
    (styleType : StyleType) (value : option string)
    (existingSpanInfo : option SpanInfo) : string :=
  applyModificationToSegment settings text None styleType value true.

(** *** isStyleActiveInSegments *)

(** [varChecks] *)
Definition varChecks (styleType : StyleType) : option string :=
  match styleType with
  | Color => Some TEXT_COLOR
  | Highlight => Some HIGHLIGHT_COLOR
  | ColoredUnderline => Some UNDERLINE_COLOR
  | Circled => Some CIRCLE_COLOR
  | _ => None
  end.

(** [value === null] *)
Definition isNull (value : option string) : bool :=
  match value with None => true | Some _ => false end.

(** The body of the loop for a segment that has a span: [true] when the
    body executes [return true]. *)
Definition isStyleActiveInSpan (sp : SpanInfo) (styleType : StyleType)
    (value : option string) : bool :=
  let isClassActive :=
    match targetClassOf styleType with
    | Some targetClass => includes targetClass (classList sp)
    | None => false
    end in
  let isVarActive :=
    match varChecks styleType with
    | Some targetVar =>
        match getCssVariableValue (Some sp) targetVar with
        | Some varValue =>
            match truthyValue value with
            | Some v => String.eqb (toLowerCase varValue) (toLowerCase v)
            | None => true
            end
        | None => false
        end
    | None => false
    end in
  match styleType with
  | Bold | Italic | Strike => isClassActive
  | Underline =>
      let isColoredActive :=
        hasCssVariable (Some sp) UNDERLINE_COLOR
        || includes (cls StyleClasses.COLORED_UNDERLINE) (classList sp) in
      isClassActive && negb isColoredActive
  | Circled => isClassActive || (isVarActive && isNull value)
  | Color | Highlight | ColoredUnderline =>
      isVarActive || (isClassActive && isNull value)
  end.

Fixpoint isStyleActiveInSegments (segments : list SelectionSegment)
    (styleType : StyleType) (value : option string) : bool :=
  match segments with
  | [] => false
  | segment :: rest =>
      match span segment with
      | Some sp =>
          if isStyleActiveInSpan sp styleType value then true
          else isStyleActiveInSegments rest styleType value
      | None => isStyleActiveInSegments rest styleType value
      end
  end.

(** *** toggleStyle *)

(** The three flags of the nuanced check. *)
Record Flags : Type := {
  isCurrentlyActive : bool;
  hasDifferentValue : bool;
  isSameValueActive : bool
}.

(** [styleType] is one of colored-underline, color, highlight, circled. *)
Definition isValueStyle (styleType : StyleType) : bool :=
  match styleType with
  | ColoredUnderline | Color | Highlight | Circled => true
  | _ => false
  end.

Definition varToCheck (styleType : StyleType) : string :=
  match styleType with
  | ColoredUnderline => UNDERLINE_COLOR
  | Color => TEXT_COLOR
  | Highlight => HIGHLIGHT_COLOR
  | _ => CIRCLE_COLOR
  end.

(** [this.classMap[styleType] ? `${CLASS_PREFIX}${this.classMap[styleType]}` : null] *)
Definition markerClassOf (styleType : StyleType) : option string :=
  match classMap styleType with
  | Some c => if nonEmpty c then Some (CLASS_PREFIX ++ c) else None
  | None => None
  end.

(** [segment.span?.classList.includes(markerClass)] *)
Definition spanIncludes (spanInfo : option SpanInfo) (c : string) : bool :=
  match spanInfo with
  | Some sp => includes c (classList sp)
  | None => false
  end.

(** The body of [for (const segment of segments)] in the nuanced check;
    [v] is the truthy [value]. *)
Definition checkSegment (styleType : StyleType) (v : string) (f : Flags)
    (segment : SelectionSegment) : Flags :=
  match getCssVariableValue (span segment) (varToCheck styleType) with
  | Some currentVarValue =>
      if String.eqb (toLowerCase currentVarValue) (toLowerCase v)
      then {| isCurrentlyActive := true;
              hasDifferentValue := hasDifferentValue f;
              isSameValueActive := true |}
      else {| isCurrentlyActive := true;
              hasDifferentValue := true;
              isSameValueActive := isSameValueActive f |}
  | None =>
      match markerClassOf styleType with
      | Some markerClass =>
          if spanIncludes (span segment) markerClass
          then {| isCurrentlyActive := true;
                  hasDifferentValue := true;
                  isSameValueActive := isSameValueActive f |}
          else f
      | None => f
      end
  end.

Definition noFlags : Flags :=
  {| isCurrentlyActive := false; hasDifferentValue := false;
     isSameValueActive := false |}.

(** The value of [shouldApply] after the nuanced check. *)
Definition decideShouldApply (segments : list SelectionSegment)
    (styleType : StyleType) (value : option string) : bool :=
  match (if isValueStyle styleType then truthyValue value else None) with
  | Some v =>
      let f := fold_left (checkSegment styleType v) segments noFlags in
      if isSameValueActive f && negb (hasDifferentValue f) then false else true
  | None => negb (isStyleActiveInSegments segments styleType value)
  end.

Definition selectionRequired : string :=
  "Text Styler: Selection required for this style.".

Definition isColorOrHighlight (styleType : StyleType) : bool :=
  match styleType with Color | Highlight => true | _ => false end.

(** [toggleStyle] once [selectedText = editor.getRange(from, to)] is known. *)
Definition toggleStyleOn (settings : PluginSettings) (selectedText : string)
    (styleType : StyleType) (value : option string) : list EditorEffect :=
  if (String.length selectedText =? 0)%nat && isColorOrHighlight styleType
     && truthy value
  then
    let styledEmptySpan := createStyledSpan settings "" styleType value None in
    [ ReplaceRange styledEmptySpan;
      SetCursor (indexOf ">"%char styledEmptySpan + 1)%Z ]
  else if (String.length selectedText =? 0)%nat
          && negb (isColorOrHighlight styleType)
  then [ ShowNotice selectionRequired ]
  else
    let segments := parseSelection selectedText in
    let shouldApply := decideShouldApply segments styleType value in
    let modifiedContent :=
      fold_left
        (fun acc segment =>
           acc ++ applyModificationToSegment settings (text segment)
                    (span segment) styleType value shouldApply)
        segments EmptyString in
    [ ReplaceRange modifiedContent ].

(** [toggleStyle]; [selection] is [None] when [editor.listSelections()] is
    empty, otherwise the text of the first selection. *)
Definition toggleStyle (settings : PluginSettings) (selection : option string)
    (styleType : StyleType) (value : option string) : list EditorEffect :=
  match selection with
  | None => []
  | Some selectedText => toggleStyleOn settings selectedText styleType value
  end.

(** *** removeAllStyling *)

Definition removeAllStylingOn (originalContent : string) : string :=
  fold_left (fun acc segment => acc ++ text segment)
    (parseSelection originalContent) EmptyString.

Definition removeAllStyling (selection : option string) : list EditorEffect :=
  match selection with
  | None => []
  | Some originalContent => [ ReplaceRange (removeAllStylingOn originalContent) ]
  end.

End StyleManager.

(* ===================================================================== *)
(** ** The earliest styleManager.ts: removeAllStyling by regex *)
(* ===================================================================== *)

Module RegexStyleManager.

Import JS.

(** [/<span[^>]*>|<\/span>/gi] tried at the start of [s]: the first
    alternative, and the second when the first fails; returns [match[0]]. *)
Definition spanRegexAt (s : string) : option string :=
  match
    (if startsWith_ci "<span" s then upTo ">"%char (substringFrom 5 s)
     else None)
  with
  | Some body => Some (substringTo 5 s ++ body ++ ">")
  | None =>
      if startsWith_ci "</span>" s then Some (substringTo 7 s) else None
  end.

(** [s.replace(regex, '')] for the global regex above: every match,
    found from the end of the previous one, is dropped.  One match per unit
    of [fuel]. *)
Fixpoint replaceLoop (fuel : nat) (s : string) : string :=
  match fuel with
  | O => s
  | S fuel' =>
      match search spanRegexAt s with
      | None => s
      | Some (index, matched) =>
          substringTo index s
          ++ replaceLoop fuel' (substringFrom (index + String.length matched) s)
      end
  end.

Definition removeAllStylingOn (originalContent : string) : string :=
  replaceLoop (String.length originalContent) originalContent.

Definition removeAllStyling (selection : option string) : list EditorEffect :=
  match selection with
  | None => []
  | Some originalContent => [ ReplaceRange (removeAllStylingOn originalContent) ]
  end.

End RegexStyleManager.

(* ===================================================================== *)
(** ** JavaScript numbers as far as the plugin uses them *)
(* ===================================================================== *)

Module JSNumber.

Import JS.

(** A Number that is an integer, an infinity or [NaN].  The integer of
    [Finite] is one that a double holds exactly.  The sign of a zero is not
    kept: nothing the plugin does with a number tells [-0] from [0]. *)
Inductive number : Type :=
  | NaN
  | Finite (z : Z)
  | Infinite (negative : bool).

(** The Number for an integer: the integer itself below 2^53 in size; from
    there on its 53 leading bits, the rest rounded to nearest with ties to
    the even neighbour, and an infinity when that gives 2^1024 or more. *)
Definition ofInteger (z : Z) : number :=
  let a := Z.abs z in
  if (a <? 2 ^ 53)%Z then Finite z
  else
    let e := (Z.log2 a - 52)%Z in
    let q := Z.shiftr a e in
    let r := (a - Z.shiftl q e)%Z in
    let half := Z.shiftl 1 (e - 1) in
    let q' := if (half <? r)%Z || ((half =? r)%Z && Z.odd q)
              then (q + 1)%Z else q in
    let m := Z.shiftl q' e in
    if (2 ^ 1024 <=? m)%Z then Infinite (z <? 0)%Z
    else Finite (Z.sgn z * m)%Z.

(** The value of a digit in the radix, if it is one. *)
Definition digitValue (radix : Z) (c : ascii) : option Z :=
  let n := Z.of_N (N_of_ascii c) in
  let d :=
    if ((48 <=? n) && (n <=? 57))%Z then Some (n - 48)%Z
    else if ((97 <=? n) && (n <=? 122))%Z then Some (n - 87)%Z
    else if ((65 <=? n) && (n <=? 90))%Z then Some (n - 55)%Z
    else None in
  match d with
  | Some x => if (x <? radix)%Z then Some x else None
  | None => None
  end.

(** The longest prefix of digits, read in the radix: [acc] when the first
    character is not a digit. *)
Fixpoint digitsFrom (radix : Z) (acc : option Z) (s : string) : option Z :=
  match s with
  | EmptyString => acc
  | String c s' =>
      match digitValue radix c with
      | Some d =>
          digitsFrom radix
            (Some (match acc with Some a => a * radix + d | None => d end)%Z) s'
      | None => acc
      end
  end.

(** [parseInt(value, radix)], radix 0 standing for a missing radix: leading
    white space, a sign, the prefix [0x] or [0X] when the radix is missing
    or 16, then the digits.  The result is the Number for the integer the
    digits denote, rounded as the engine of the host rounds it (the
    standard leaves room for another approximation after the twentieth
    significant decimal digit), and [NaN] without a digit. *)
Definition parseIntRadix (value : string) (radix : Z) : number :=
  let s := trimStart value in
  let '(sign, s) :=
    match s with
    | String "-" r => ((-1)%Z, r)
    | String "+" r => (1%Z, r)
    | _ => (1%Z, s)
    end in
  if (negb (radix =? 0) && ((radix <? 2) || (36 <? radix)))%Z then NaN
  else
    let stripPrefix := ((radix =? 0) || (radix =? 16))%Z in
    let R := if (radix =? 0)%Z then 10%Z else radix in
    let '(R, s) :=
      match stripPrefix, s with
      | true, String "0" (String "x" r)
      | true, String "0" (String "X" r) => (16%Z, r)
      | _, _ => (R, s)
      end in
    match digitsFrom R None s with
    | Some n => ofInteger (sign * n)%Z
    | None => NaN
    end.

(** [parseInt(value)] *)
Definition parseInt (value : string) : number := parseIntRadix value 0.

(** The decimal digits of an integer, with its sign. *)
Definition decimal (z : Z) : string :=
  DecimalString.NilZero.string_of_int (Z.to_int z).

(** The integer [v] is read as the double [a]. *)
Definition readsAs (v a : Z) : bool :=
  match ofInteger v with
  | Finite b => (a =? b)%Z
  | _ => false
  end.

(** The integer with the fewest significant decimal digits that is read as
    the positive double [a]: with the digits below the power of ten [p] at
    zero the two neighbours of [a] are tried, the nearer one first and the
    one with the even last digit on a tie; one more digit is kept per unit
    of [steps]. *)
Fixpoint shortestFrom (steps : nat) (a p : Z) : Z :=
  match steps with
  | O => a
  | S steps' =>
      let lo := (a / p * p)%Z in
      let hi := (lo + p)%Z in
      match readsAs lo a, readsAs hi a with
      | true, true =>
          if (a - lo <? hi - a)%Z then lo
          else if (hi - a <? a - lo)%Z then hi
          else if Z.even (a / p) then lo else hi
      | true, false => lo
      | false, true => hi
      | false, false => shortestFrom steps' a (p / 10)%Z
      end
  end.

Definition shortest (a : Z) : Z :=
  let digits := String.length (decimal a) in
  shortestFrom digits a (10 ^ Z.of_nat (digits - 1))%Z.

(** The text without the zeros at its end. *)
Fixpoint dropZeros (s : string) : string :=
  match s with
  | EmptyString => EmptyString
  | String c s' =>
      match dropZeros s' with
      | EmptyString =>
          if Ascii.eqb c "0" then EmptyString else String c EmptyString
      | t => String c t
      end
  end.

(** [Number::toString] in radix 10 for a positive integer: the digits of
    [shortest], all of them up to 21 digits and in exponent notation
    beyond. *)
Definition positiveToString (a : Z) : string :=
  let d := decimal (shortest a) in
  let n := String.length d in
  if (n <=? 21)%nat then d
  else
    match dropZeros d with
    | String c EmptyString => String c ("e+" ++ decimal (Z.of_nat (n - 1)))
    | String c rest =>
        String c ("." ++ rest ++ "e+" ++ decimal (Z.of_nat (n - 1)))
    | EmptyString => d
    end.

(** [String(n)] and [`${n}`] *)
Definition toString (n : number) : string :=
  match n with
  | NaN => "NaN"
  | Infinite negative => if negative then "-Infinity" else "Infinity"
  | Finite z =>
      if (z =? 0)%Z then "0"
      else if (z <? 0)%Z then "-" ++ positiveToString (- z)
      else positiveToString z
  end.

(** [n.toString(16)]: the hex digits of the integer, which are exact for
    every double. *)
Definition toString16 (n : number) : string :=
  match n with
  | NaN => "NaN"
  | Infinite negative => if negative then "-Infinity" else "Infinity"
  | Finite z => HexadecimalString.NilZero.string_of_int (Z.to_hex_int z)
  end.

End JSNumber.

(* ===================================================================== *)
(** ** The earliest styleManager.ts: the text-decoration helpers *)
(* ===================================================================== *)

Module TextDecoration.

Import JS.

(** [!existing || existing.trim() === '' || existing === 'none'] *)
Definition unset (existing : option string) : bool :=
  match existing with
  | None => true
  | Some e =>
      negb (nonEmpty e) || String.eqb (trim e) "" || String.eqb e "none"
  end.

(** [addDecoration] *)
Definition addDecoration (existing : option string) (add : string) : string :=
  match existing with
  | None => add
  | Some e =>
      if unset existing then add
      else
        let parts :=
          filter (fun p => negb (String.eqb (trim p) "")) (split " " e) in
        let parts := if includes add parts then parts
                     else (parts ++ [add])%list in
        join " " parts
  end.

(** [removeDecoration] *)
Definition removeDecoration (existing : option string) (remove : string)
  : string :=
  match existing with
  | None => "none"
  | Some e =>
      if unset existing then "none"
      else
        let parts :=
          filter (fun p => negb (String.eqb (trim p) "")
                           && negb (String.eqb p remove))
            (split " " e) in
        if (0 <? List.length parts)%nat then join " " parts else "none"
  end.

End TextDecoration.

(* ===================================================================== *)
(** ** main.ts, statusBar.ts and settingsTab.ts: slots and colors *)
(* ===================================================================== *)

Module TextStyler.

Import JS.

Definition MAX_COLOR_SLOTS : Z := 20.
Definition DEFAULT_COLOR_SLOTS : Z := 5.
Definition DEFAULT_TEXT_COLOR : string := "#000000".
Definition DEFAULT_HIGHLIGHT_COLOR : string := "#ffff00".

(** [this.settings] as types.ts declares it, with the two thickness
    settings; the two palettes of favorite colors are left out, no function
    below reads or writes them.  Numbers are integers; a thickness is held
    as the text it is rendered as. *)
Record Settings : Type := {
  textColorSlots : Z;
  textColors : list string;
  selectedTextColorIndex : Z;
  highlightColorSlots : Z;
  highlightColors : list string;
  selectedHighlightColorIndex : Z;
  coloredUnderlineThickness : string;
  circleThickness : string
}.

(** The same record as [loadData] may leave it: a color list that is not
    an array, an index that is [undefined] or [null], a thickness that is
    not a number. *)
Module Stored.
Record t : Type := {
  textColorSlots : Z;
  textColors : option (list string);
  selectedTextColorIndex : option Z;
  highlightColorSlots : Z;
  highlightColors : option (list string);
  selectedHighlightColorIndex : option Z;
  coloredUnderlineThickness : option string;
  circleThickness : option string
}.
End Stored.

(** Well-typed settings seen as stored ones. *)
Definition store (s : Settings) : Stored.t :=
  {| Stored.textColorSlots := textColorSlots s;
     Stored.textColors := Some (textColors s);
     Stored.selectedTextColorIndex := Some (selectedTextColorIndex s);
     Stored.highlightColorSlots := highlightColorSlots s;
     Stored.highlightColors := Some (highlightColors s);
     Stored.selectedHighlightColorIndex := Some (selectedHighlightColorIndex s);
     Stored.coloredUnderlineThickness := Some (coloredUnderlineThickness s);
     Stored.circleThickness := Some (circleThickness s) |}.

(** What the style manager reads of the settings. *)
Definition managerSettings (s : Settings) : PluginSettings :=
  Build_PluginSettings (coloredUnderlineThickness s) (circleThickness s).

(** What the functions below read of the object [DEFAULT_SETTINGS], as it
    is at the time of a call.  Its two color lists are ordinary arrays:
    [this.settings] can hold the very same arrays (see [Plugin] below), and
    a color written through [this.settings] is then written here.  The two
    thickness defaults are not defined in constants.ts as it stands. *)
Record Defaults : Type := {
  defaultTextColors : list string;
  defaultHighlightColors : list string;
  defaultColoredUnderlineThickness : string;
  defaultCircleThickness : string
}.

(** [DEFAULT_SETTINGS] as constants.ts creates it, for the two thickness
    defaults given. *)
Definition DEFAULT_SETTINGS (underlineThickness circleThickness : string)
  : Defaults :=
  {| defaultTextColors :=
       repeat DEFAULT_TEXT_COLOR (Z.to_nat DEFAULT_COLOR_SLOTS);
     defaultHighlightColors :=
       repeat DEFAULT_HIGHLIGHT_COLOR (Z.to_nat DEFAULT_COLOR_SLOTS);
     defaultColoredUnderlineThickness := underlineThickness;
     defaultCircleThickness := circleThickness |}.

(** [xs[i]]: [None] is [undefined]. *)
Definition elementAt (xs : list string) (i : Z) : option string :=
  if (i <? 0)%Z then None else nth_error xs (Z.to_nat i).

(** [x || fallback] *)
Definition orElse (x : option string) (fallback : string) : string :=
  match x with
  | Some c => if nonEmpty c then c else fallback
  | None => fallback
  end.

(** *** ensureColorArraysMatchSlots *)

(** [Array(n).fill(x)]; [None] stands for the [RangeError] that [Array(n)]
    throws when [n] is negative or not below 2^32. *)
Definition arrayFill (n : Z) (x : string) : option (list string) :=
  if ((0 <=? n) && (n <? 2 ^ 32))%Z then Some (repeat x (Z.to_nat n))
  else None.

(** [xs[i] = x] for an index below the length. *)
Fixpoint assign (i : nat) (x : string) (xs : list string) : list string :=
  match xs, i with
  | [], _ => []
  | _ :: rest, O => x :: rest
  | y :: rest, S i' => y :: assign i' x rest
  end.

(** [for (; i < bound; i++) fresh[i] = old[i]], with [count] turns left;
    the bound is at most the length of both arrays. *)
Fixpoint copyLoop (count i : nat) (old fresh : list string) : list string :=
  match count with
  | O => fresh
  | S count' => copyLoop count' (S i) old (assign i (nth i old "") fresh)
  end.

(** One of the two [Resize/Initialize] blocks. *)
Definition resize (slots : Z) (colors : option (list string))
    (defaultColor : string) : option (list string) :=
  match colors with
  | Some old =>
      if (Z.of_nat (List.length old) =? slots)%Z then Some old
      else
        match arrayFill slots defaultColor with
        | Some fresh =>
            Some (copyLoop (Z.to_nat (Z.min (Z.of_nat (List.length old)) slots))
                    0 old fresh)
        | None => None
        end
  | None => arrayFill slots defaultColor
  end.

(** [x ?? 0] *)
Definition orZero (x : option Z) : Z :=
  match x with Some z => z | None => 0%Z end.

(** [this.settings] after the call, from [DEFAULT_SETTINGS] as it is when
    the function is called and [this.settings] before the call. *)
Definition ensureColorArraysMatchSlots (defaults : Defaults) (st : Stored.t)
  : option Settings :=
  let defaultTextColor :=
    orElse (elementAt (defaultTextColors defaults) 0) "#000000" in
  let defaultHighlightColor :=
    orElse (elementAt (defaultHighlightColors defaults) 0) "#ffff00" in
  match resize (Stored.textColorSlots st) (Stored.textColors st)
          defaultTextColor with
  | None => None
  | Some newTextColors =>
      match resize (Stored.highlightColorSlots st) (Stored.highlightColors st)
              defaultHighlightColor with
      | None => None
      | Some newHighlightColors =>
          Some
            {| textColorSlots := Stored.textColorSlots st;
               textColors := newTextColors;
               selectedTextColorIndex :=
                 Z.max 0 (Z.min (orZero (Stored.selectedTextColorIndex st))
                            (Stored.textColorSlots st - 1));
               highlightColorSlots := Stored.highlightColorSlots st;
               highlightColors := newHighlightColors;
               selectedHighlightColorIndex :=
                 Z.max 0 (Z.min (orZero (Stored.selectedHighlightColorIndex st))
                            (Stored.highlightColorSlots st - 1));
               coloredUnderlineThickness :=
                 match Stored.coloredUnderlineThickness st with
                 | Some t => t
                 | None => defaultColoredUnderlineThickness defaults
                 end;
               circleThickness :=
                 match Stored.circleThickness st with
                 | Some t => t
                 | None => defaultCircleThickness defaults
                 end |}
      end
  end.

(** *** cycleColorSlot *)

Inductive ColorType : Type := OfText | OfHighlight.
Inductive Direction : Type := Forward | Backward.

(** The [%] of JavaScript on integers truncates: [Z.rem]. *)
Definition nextIndex (direction : Direction) (currentIdx slotCount : Z) : Z :=
  match direction with
  | Forward => Z.rem (currentIdx + 1) slotCount
  | Backward => Z.rem (currentIdx - 1 + slotCount) slotCount
  end.

Definition cycleColorSlot (type : ColorType) (direction : Direction)
    (s : Settings) : Settings :=
  match type with
  | OfText =>
      let currentIdx := selectedTextColorIndex s in
      let slotCount := textColorSlots s in
      if (slotCount <=? 0)%Z then s
      else
        {| textColorSlots := textColorSlots s;
           textColors := textColors s;
           selectedTextColorIndex := nextIndex direction currentIdx slotCount;
           highlightColorSlots := highlightColorSlots s;
           highlightColors := highlightColors s;
           selectedHighlightColorIndex := selectedHighlightColorIndex s;
           coloredUnderlineThickness := coloredUnderlineThickness s;
           circleThickness := circleThickness s |}
  | OfHighlight =>
      let currentIdx := selectedHighlightColorIndex s in
      let slotCount := highlightColorSlots s in
      if (slotCount <=? 0)%Z then s
      else
        {| textColorSlots := textColorSlots s;
           textColors := textColors s;
           selectedTextColorIndex := selectedTextColorIndex s;
           highlightColorSlots := highlightColorSlots s;
           highlightColors := highlightColors s;
           selectedHighlightColorIndex :=
             nextIndex direction currentIdx slotCount;
           coloredUnderlineThickness := coloredUnderlineThickness s;
           circleThickness := circleThickness s |}
  end.

(** *** statusBar.ts *)

Definition getCurrentTextColor (s : Settings) : string :=
  orElse (elementAt (textColors s) (selectedTextColorIndex s)) "#000000".

Definition getCurrentHighlightColor (s : Settings) : string :=
  orElse (elementAt (highlightColors s) (selectedHighlightColorIndex s))
    "#ffff00".

(** *** The commands that take their value from the status bar *)

(** What an editor callback does: it calls the style manager, or it only
    shows a notice. *)
Inductive CommandOutcome : Type :=
  | Styled (effects : list EditorEffect)
  | Noticed (message : string).

Inductive ColorCommand : Type :=
  | ToggleCircled | ToggleColoredUnderline | ApplyTextColor
  | ApplyHighlightColor.

Definition commandStyle (command : ColorCommand) : StyleType :=
  match command with
  | ToggleCircled => Circled
  | ToggleColoredUnderline => ColoredUnderline
  | ApplyTextColor => Color
  | ApplyHighlightColor => Highlight
  end.

Definition commandNotice (command : ColorCommand) : string :=
  match command with
  | ToggleCircled =>
      "Text Styler: Select a text color first to use for the circle."
  | ToggleColoredUnderline =>
      "Text Styler: No text color selected for underline."
  | ApplyTextColor => "Text Styler: No text color selected."
  | ApplyHighlightColor => "Text Styler: No highlight color selected."
  end.

(** [this.statusBar?.getCurrentTextColor()], or the highlight color for
    the highlight command; [hasStatusBar] is [this.statusBar !== null]. *)
Definition commandColor (command : ColorCommand) (hasStatusBar : bool)
    (s : Settings) : option string :=
  if hasStatusBar then
    Some (match command with
          | ApplyHighlightColor => getCurrentHighlightColor s
          | _ => getCurrentTextColor s
          end)
  else None.

(** The [editorCallback] of the four commands. *)
Definition runColorCommand (command : ColorCommand) (hasStatusBar : bool)
    (s : Settings) (selection : option string) : CommandOutcome :=
  let color := commandColor command hasStatusBar s in
  if truthy color
  then Styled (StyleManager.toggleStyle (managerSettings s) selection
                 (commandStyle command) color)
  else Noticed (commandNotice command).

(** *** The plugin instance: [this.settings] next to [DEFAULT_SETTINGS]

    [loadSettings] makes [this.settings] with
    [Object.assign({}, DEFAULT_SETTINGS, data)], which copies references: a
    color list that the stored data does not hold is the array of
    [DEFAULT_SETTINGS] itself, and stays so until a [Resize/Initialize]
    block puts a new array in its place.  The two flags say which of the
    two lists of [settings] is the array of [defaultSettings]; a write to
    such a list is a write to both. *)
Record Plugin : Type := {
  defaultSettings : Defaults;
  settings : Settings;
  sharesTextColors : bool;
  sharesHighlightColors : bool
}.

(** What [loadData] resolves to: the stored object, [None] standing for a
    key that is not stored (for an index also [null], for a thickness also
    a value that is not a number); a stored color list may be something
    other than an array. *)
Module Data.
Record t : Type := {
  textColorSlots : option Z;
  textColors : option (option (list string));
  selectedTextColorIndex : option Z;
  highlightColorSlots : option Z;
  highlightColors : option (option (list string));
  selectedHighlightColorIndex : option Z;
  coloredUnderlineThickness : option string;
  circleThickness : option string
}.

(** Nothing is stored: the first start of the plugin. *)
Definition nothing : t :=
  {| textColorSlots := None; textColors := None;
     selectedTextColorIndex := None;
     highlightColorSlots := None; highlightColors := None;
     selectedHighlightColorIndex := None;
     coloredUnderlineThickness := None; circleThickness := None |}.
End Data.

(** [Object.assign({}, DEFAULT_SETTINGS, data)] *)
Definition assignDefaults (defaults : Defaults) (data : Data.t) : Stored.t :=
  {| Stored.textColorSlots :=
       match Data.textColorSlots data with
       | Some n => n
       | None => DEFAULT_COLOR_SLOTS
       end;
     Stored.textColors :=
       match Data.textColors data with
       | Some stored => stored
       | None => Some (defaultTextColors defaults)
       end;
     Stored.selectedTextColorIndex :=
       match Data.selectedTextColorIndex data with
       | Some i => Some i
       | None => Some 0%Z
       end;
     Stored.highlightColorSlots :=
       match Data.highlightColorSlots data with
       | Some n => n
       | None => DEFAULT_COLOR_SLOTS
       end;
     Stored.highlightColors :=
       match Data.highlightColors data with
       | Some stored => stored
       | None => Some (defaultHighlightColors defaults)
       end;
     Stored.selectedHighlightColorIndex :=
       match Data.selectedHighlightColorIndex data with
       | Some i => Some i
       | None => Some 0%Z
       end;
     Stored.coloredUnderlineThickness :=
       match Data.coloredUnderlineThickness data with
       | Some t => Some t
       | None => Some (defaultColoredUnderlineThickness defaults)
       end;
     Stored.circleThickness :=
       match Data.circleThickness data with
       | Some t => Some t
       | None => Some (defaultCircleThickness defaults)
       end |}.

(** A [Resize/Initialize] block leaves the array it finds in place: the
    first branch of [resize]. *)
Definition keepsArray (slots : Z) (colors : option (list string)) : bool :=
  match colors with
  | Some old => (Z.of_nat (List.length old) =? slots)%Z
  | None => false
  end.

(** [this.ensureColorArraysMatchSlots()] on the instance whose settings are
    [st]: a list that was shared is still shared when its array was left in
    place. *)
Definition ensureOn (defaults : Defaults) (st : Stored.t)
    (sharedText sharedHighlight : bool) : option Plugin :=
  match ensureColorArraysMatchSlots defaults st with
  | None => None
  | Some s =>
      Some
        {| defaultSettings := defaults;
           settings := s;
           sharesTextColors :=
             sharedText
             && keepsArray (Stored.textColorSlots st) (Stored.textColors st);
           sharesHighlightColors :=
             sharedHighlight
             && keepsArray (Stored.highlightColorSlots st)
                  (Stored.highlightColors st) |}
  end.

Definition isMissing {A : Type} (x : option A) : bool :=
  match x with Some _ => false | None => true end.

(** [loadSettings], for what [loadData] resolves to. *)
Definition loadSettings (defaults : Defaults) (data : Data.t)
  : option Plugin :=
  ensureOn defaults (assignDefaults defaults data)
    (isMissing (Data.textColors data)) (isMissing (Data.highlightColors data)).

(** [saveSettings(resizeArrays)]: the instance whose settings are
    written. *)
Definition saveSettings (resizeArrays : bool) (p : Plugin) : option Plugin :=
  if resizeArrays
  then ensureOn (defaultSettings p) (store (settings p))
         (sharesTextColors p) (sharesHighlightColors p)
  else Some p.

(** [openColorChangeModal(type)] with the modal submitted for
    [newColorHex] before anything else touches the settings: the opening
    reads the selected index and the array, [onSubmit] writes into that
    array and saves. *)
Definition openColorChangeModal (type : ColorType) (newColorHex : string)
    (p : Plugin) : Plugin :=
  let s := settings p in
  let d := defaultSettings p in
  match type with
  | OfText =>
      let colors := textColors s in
      let safeIndex :=
        Z.max 0 (Z.min (selectedTextColorIndex s)
                   (Z.of_nat (List.length colors) - 1)) in
      if (safeIndex <? Z.of_nat (List.length colors))%Z then
        let written := assign (Z.to_nat safeIndex) newColorHex colors in
        {| defaultSettings :=
             if sharesTextColors p then
               {| defaultTextColors := written;
                  defaultHighlightColors := defaultHighlightColors d;
                  defaultColoredUnderlineThickness :=
                    defaultColoredUnderlineThickness d;
                  defaultCircleThickness := defaultCircleThickness d |}
             else d;
           settings :=
             {| textColorSlots := textColorSlots s;
                textColors := written;
                selectedTextColorIndex := selectedTextColorIndex s;
                highlightColorSlots := highlightColorSlots s;
                highlightColors := highlightColors s;
                selectedHighlightColorIndex := selectedHighlightColorIndex s;
                coloredUnderlineThickness := coloredUnderlineThickness s;
                circleThickness := circleThickness s |};
           sharesTextColors := sharesTextColors p;
           sharesHighlightColors := sharesHighlightColors p |}
      else p
  | OfHighlight =>
      let colors := highlightColors s in
      let safeIndex :=
        Z.max 0 (Z.min (selectedHighlightColorIndex s)
                   (Z.of_nat (List.length colors) - 1)) in
      if (safeIndex <? Z.of_nat (List.length colors))%Z then
        let written := assign (Z.to_nat safeIndex) newColorHex colors in
        {| defaultSettings :=
             if sharesHighlightColors p then
               {| defaultTextColors := defaultTextColors d;
                  defaultHighlightColors := written;
                  defaultColoredUnderlineThickness :=
                    defaultColoredUnderlineThickness d;
                  defaultCircleThickness := defaultCircleThickness d |}
             else d;
           settings :=
             {| textColorSlots := textColorSlots s;
                textColors := textColors s;
                selectedTextColorIndex := selectedTextColorIndex s;
                highlightColorSlots := highlightColorSlots s;
                highlightColors := written;
                selectedHighlightColorIndex := selectedHighlightColorIndex s;
                coloredUnderlineThickness := coloredUnderlineThickness s;
                circleThickness := circleThickness s |};
           sharesTextColors := sharesTextColors p;
           sharesHighlightColors := sharesHighlightColors p |}
      else p
  end.

(** *** settingsTab.ts: the number of slots *)

(** [if (isNaN(num) || num < 1) num = 1; if (num > MAX_COLOR_SLOTS) num =
    MAX_COLOR_SLOTS] *)
Definition clampSlots (parsed : JSNumber.number) : Z :=
  match parsed with
  | JSNumber.NaN => 1%Z
  | JSNumber.Infinite negative => if negative then 1%Z else MAX_COLOR_SLOTS
  | JSNumber.Finite n =>
      let num := if (n <? 1)%Z then 1%Z else n in
      if (MAX_COLOR_SLOTS <? num)%Z then MAX_COLOR_SLOTS else num
  end.

(** The [onChange] of the two slot-count fields: the instance whose
    settings are saved. *)
Definition onSlotCountChange (type : ColorType) (value : string) (p : Plugin)
  : option Plugin :=
  let num := clampSlots (JSNumber.parseInt value) in
  let s := settings p in
  saveSettings true
    {| defaultSettings := defaultSettings p;
       settings :=
         match type with
         | OfText =>
             {| textColorSlots := num;
                textColors := textColors s;
                selectedTextColorIndex := selectedTextColorIndex s;
                highlightColorSlots := highlightColorSlots s;
                highlightColors := highlightColors s;
                selectedHighlightColorIndex := selectedHighlightColorIndex s;
                coloredUnderlineThickness := coloredUnderlineThickness s;
                circleThickness := circleThickness s |}
         | OfHighlight =>
             {| textColorSlots := textColorSlots s;
                textColors := textColors s;
                selectedTextColorIndex := selectedTextColorIndex s;
                highlightColorSlots := num;
                highlightColors := highlightColors s;
                selectedHighlightColorIndex := selectedHighlightColorIndex s;
                coloredUnderlineThickness := coloredUnderlineThickness s;
                circleThickness := circleThickness s |}
         end;
       sharesTextColors := sharesTextColors p;
       sharesHighlightColors := sharesHighlightColors p |}.

End TextStyler.

(* ===================================================================== *)
(** ** utils.ts *)
(* ===================================================================== *)

Module Utils.

Import JS.

(** The regex class [\d]. *)
Definition isDigit (c : ascii) : bool :=
  let n := N_of_ascii c in ((48 <=? n) && (n <=? 57))%N.

(** The regex class [[a-f\d]] under the [i] flag. *)
Definition isHexDigit (c : ascii) : bool :=
  let n := N_of_ascii c in
  ((48 <=? n) && (n <=? 57) || (97 <=? n) && (n <=? 102)
   || (65 <=? n) && (n <=? 70))%N.

(** The longest prefix of digits, and what follows it. *)
Fixpoint takeDigits (s : string) : string * string :=
  match s with
  | String c s' =>
      if isDigit c then let (d, r) := takeDigits s' in (String c d, r)
      else (EmptyString, s)
  | EmptyString => (EmptyString, EmptyString)
  end.

(** [(\d+)] at the start of [s]: the group and the rest. *)
Definition digitsAt (s : string) : option (string * string) :=
  match takeDigits s with
  | (EmptyString, _) => None
  | (d, r) => Some (d, r)
  end.

(** [rgb.match(...)] for the pattern of [rgbToHex]: the text [rgb(], three
    groups of digits separated by a comma and any white space, the closing
    parenthesis, the end.  Returns the three groups. *)
Definition rgbMatch (rgb : string) : option (string * string * string) :=
  if startsWith "rgb(" rgb then
    match digitsAt (substringFrom 4 rgb) with
    | Some (r, String "," rest) =>
        match digitsAt (trimStart rest) with
        | Some (g, String "," rest) =>
            match digitsAt (trimStart rest) with
            | Some (b, String ")" EmptyString) => Some (r, g, b)
            | _ => None
            end
        | _ => None
        end
    | _ => None
    end
  else None.

Definition componentToHex (c : JSNumber.number) : string :=
  let hex := JSNumber.toString16 c in
  if (String.length hex =? 1)%nat then "0" ++ hex else hex.

Definition rgbToHex (rgb : string) : string :=
  match rgbMatch rgb with
  | None => "#000000"
  | Some (r, g, b) =>
      let r := JSNumber.parseInt r in
      let g := JSNumber.parseInt g in
      let b := JSNumber.parseInt b in
      "#" ++ componentToHex r ++ componentToHex g ++ componentToHex b
  end.

(** The optional [#] at the start of the two patterns of [hexToRgb]. *)
Definition afterHash (hex : string) : string :=
  match hex with
  | String "#" rest => rest
  | _ => hex
  end.

(** [hex.replace(shorthandRegex, (m, r, g, b) => r + r + g + g + b + b)] *)
Definition expandShorthand (hex : string) : string :=
  match afterHash hex with
  | String r (String g (String b EmptyString)) =>
      if isHexDigit r && isHexDigit g && isHexDigit b
      then String r (String r (String g (String g (String b (String b "")))))
      else hex
  | _ => hex
  end.

(** The second pattern: three groups of two hex digits. *)
Definition hexMatch (hex : string) : option (string * string * string) :=
  match afterHash hex with
  | String r1 (String r2 (String g1 (String g2 (String b1 (String b2
      EmptyString))))) =>
      if isHexDigit r1 && isHexDigit r2 && isHexDigit g1 && isHexDigit g2
         && isHexDigit b1 && isHexDigit b2
      then Some (String r1 (String r2 ""), String g1 (String g2 ""),
                 String b1 (String b2 ""))
      else None
  | _ => None
  end.

Definition hexToRgb (hex : string) : string :=
  let hex := expandShorthand hex in
  match hexMatch hex with
  | None => "rgb(0, 0, 0)"
  | Some (r, g, b) =>
      let r := JSNumber.parseIntRadix r 16 in
      let g := JSNumber.parseIntRadix g 16 in
      let b := JSNumber.parseIntRadix b 16 in
      "rgb(" ++ JSNumber.toString r ++ ", " ++ JSNumber.toString g ++ ", "
      ++ JSNumber.toString b ++ ")"
  end.

End Utils.

(* ===================================================================== *)
(** ** Vocabulary of the statements *)
(* ===================================================================== *)

Import JS StyleManager.

Definition isSome {A : Type} (o : option A) : bool :=
  match o with Some _ => true | None => false end.

(** [needle] occurs in [hay]. *)
Definition occursIn (needle hay : string) : bool :=
  isSome (String.index 0 needle hay).

(** *** What a reconciled run carries *)

(** The class tokens written into the wrapper. *)
Definition emittedClasses (a : Attributes) : list string :=
  uniqueClasses (currentClasses a).

(** The wrapper has the class [styler-c]. *)
Definition carriesClass (c : string) (a : Attributes) : bool :=
  includes (cls c) (emittedClasses a).

(** The wrapper has a declaration of key [k]. *)
Definition declares (k : string) (a : Attributes) : bool :=
  isSome (Vars.get k (currentCssVariables a)).


(** The cleanup on its own. *)
Definition cleaned (a : Attributes) : Attributes :=
  cleanupMarkers (cleanupUnderline a).

Definition underlineKey (k : string) : bool :=
  String.eqb UNDERLINE_COLOR k || String.eqb UNDERLINE_THICKNESS k.

(** The wrapper does not have the plain underline class together with the
    colored-underline class or one of its two declarations. *)
Definition underlineExclusive (a : Attributes) : bool :=
  negb (carriesClass StyleClasses.UNDERLINE a
        && (carriesClass StyleClasses.COLORED_UNDERLINE a
            || declares UNDERLINE_COLOR a
            || declares UNDERLINE_THICKNESS a)).

(** The class tokens and declaration keys the engine knows. *)
Definition recognizedClasses : list string :=
  [ cls StyleClasses.BOLD; cls StyleClasses.ITALIC; cls StyleClasses.UNDERLINE;
    cls StyleClasses.STRIKE; cls StyleClasses.COLORED;
    cls StyleClasses.HIGHLIGHTED; cls StyleClasses.COLORED_UNDERLINE;
    cls StyleClasses.CIRCLED ].

Definition recognizedKeys : list string :=
  [ TEXT_COLOR; HIGHLIGHT_COLOR; UNDERLINE_COLOR; UNDERLINE_THICKNESS;
    CIRCLE_COLOR; CIRCLE_THICKNESS ].

Definition foreignClass (c : string) : bool :=
  negb (includes c recognizedClasses).

Definition foreignKey (kv : string * string) : bool :=
  negb (includes (fst kv) recognizedKeys).

Definition stylerKey (kv : string * string) : bool :=
  startsWith "--styler-" (fst kv).

(** *** The runs behind a toggle *)

(** Each segment of the selection with the attributes the reconciler
    leaves on it. *)
Definition reconciledRuns (settings : PluginSettings) (selectedText : string)
    (styleType : StyleType) (value : option string)
  : list (string * Attributes) :=
  let segments := parseSelection selectedText in
  let shouldApply := decideShouldApply segments styleType value in
  map (fun segment =>
         (text segment,
          reconcile settings (span segment) styleType value shouldApply))
    segments.

Definition renderRuns (runs : list (string * Attributes)) : string :=
  String.concat "" (map (fun r => reconstructSpan (fst r) (snd r)) runs).

(** *** The activation decision *)

(** The loop of [isStyleActiveInSegments] returns at this segment. *)
Definition activeOn (styleType : StyleType) (value : option string)
    (segment : SelectionSegment) : bool :=
  match span segment with
  | Some sp => isStyleActiveInSpan sp styleType value
  | None => false
  end.

(** The value slot of a run for a value-bearing kind. *)
Definition slotOf (styleType : StyleType) (segment : SelectionSegment)
  : option string :=
  getCssVariableValue (span segment) (varToCheck styleType).

(** The slot holds the requested value, letter case apart. *)
Definition sameValueOn (styleType : StyleType) (v : string)
    (segment : SelectionSegment) : bool :=
  match slotOf styleType segment with
  | Some w => String.eqb (toLowerCase w) (toLowerCase v)
  | None => false
  end.

(** The slot holds another value, or it is missing under a marker class. *)
Definition conflictsOn (styleType : StyleType) (v : string)
    (segment : SelectionSegment) : bool :=
  match slotOf styleType segment with
  | Some w => negb (String.eqb (toLowerCase w) (toLowerCase v))
  | None =>
      match classMap styleType with
      | Some c => spanIncludes (span segment) (cls c)
      | None => false
      end
  end.

Definition isBooleanStyle (styleType : StyleType) : bool :=
  match styleType with Bold | Italic | Strike => true | _ => false end.

Definition classNameOf (styleType : StyleType) : string :=
  match classMap styleType with Some c => c | None => EmptyString end.

(** *** Wrappers as text *)

(** [text] inside a wrapper whose only attribute is the class [styler-c]. *)
Definition wrapWithClass (c text : string) : string :=
  "<span class=" ++ DQ ++ cls c ++ DQ ++ ">" ++ text ++ "</span>".

(** The opening tag of the empty wrapper created for a value, up to the
    value. *)
Definition emptyWrapperHead (marker key : string) : string :=
  "<span class=" ++ DQ ++ cls marker ++ DQ ++ " style=" ++ DQ ++ key ++ ": ".

Definition emptyWrapperOpening (marker key value : string) : string :=
  emptyWrapperHead marker key ++ value ++ ";" ++ DQ ++ ">".

(** One past the first [>] of the empty wrapper: inside the value when the
    value holds a [>], else right after the opening tag. *)
Definition insertionCursor (marker key value : string) : Z :=
  if (0 <=? indexOf ">"%char value)%Z
  then Z.of_nat (String.length (emptyWrapperHead marker key))
       + indexOf ">"%char value + 1
  else Z.of_nat (String.length (emptyWrapperOpening marker key value)).

(** *** Shapes of a selection *)

(** No place of the text begins with [<span] or [</span], in any letter
    case. *)
Fixpoint noTagHead (s : string) : bool :=
  negb (startsWith_ci "<span" s || startsWith_ci "</span" s)
  && match s with
     | EmptyString => true
     | String _ s' => noTagHead s'
     end.

(** Every place where [</span] begins, in any letter case, goes on with
    [>]. *)
Fixpoint closingTagsExact (s : string) : bool :=
  (negb (startsWith_ci "</span" s) || startsWith_ci "</span>" s)
  && match s with
     | EmptyString => true
     | String _ s' => closingTagsExact s'
     end.

(** The scanning loop flushes no segment although the selection is not
    empty: the selection is made of tags only. *)
Definition tagsOnly (s : string) : bool :=
  nonEmpty s
  && match parseLoop (String.length s) 0 s None with
     | [] => true
     | _ => false
     end.

(** The whole of [t] is one match of the tag pattern. *)
Definition isTag (t : string) : bool :=
  match tagRegexAt t with
  | Some matched => String.eqb matched t
  | None => false
  end.

(** A selection put together from its parts: stretches of text, each
    followed by a tag, and a last stretch of text. *)
Fixpoint assemble (parts : list (string * string)) (last : string) : string :=
  match parts with
  | [] => last
  | (stretch, tag) :: rest => stretch ++ tag ++ assemble rest last
  end.

(** The stretches of text alone, joined. *)
Fixpoint bareText (parts : list (string * string)) (last : string) : string :=
  match parts with
  | [] => last
  | (stretch, _) :: rest => stretch ++ bareText rest last
  end.

(** *** Wrappers as the segmenter reads them and as the engine writes them *)

(** The span information the segmenter builds for the opening tag [tag]
    found at [offset]. *)
Definition wrapperOf (tag : string) (offset : nat) : SpanInfo :=
  {| startTag := tag; startTagOffset := offset; endTagOffset := (-1)%Z;
     classList := extractClasses tag |}.

(** The key of a part of a style attribute, the text before its first
    colon, and its value, the text between its first and its second colon,
    both trimmed. *)
Definition keyOfPart (part : string) : string :=
  trim (nth 0 (split ":" part) "").

Definition valueOfPart (part : string) : string :=
  trim (nth 1 (split ":" part) "").

(** The declarations a style attribute holds for the engine: one for every
    key that begins with [--styler-] among the parts between semicolons,
    in the order in which the keys first come, each with the value of the
    last part that has the key. *)
Definition declarationsOf (styleAttr : string) : Vars.t :=
  fold_left
    (fun declarations part =>
       if startsWith "--styler-" (keyOfPart part)
       then Vars.set (keyOfPart part) (valueOfPart part) declarations
       else declarations)
    (split ";" styleAttr) [].

(** The text of a wrapper with the class tokens and the declarations
    around [text]; without a token and without a declaration it is the
    text alone. *)
Definition wrapperText (classes : list string) (declarations : Vars.t)
    (text : string) : string :=
  match classes, declarations with
  | [], [] => text
  | _, _ =>
      ("<span"
       ++ match classes with
          | [] => ""
          | _ => " class=" ++ DQ ++ join " " classes ++ DQ
          end
       ++ match declarations with
          | [] => ""
          | _ =>
              " style=" ++ DQ
              ++ join " " (map (fun kv => fst kv ++ ": " ++ snd kv ++ ";")
                             declarations)
              ++ DQ
          end
       ++ ">")
      ++ text ++ "</span>"
  end.

(** The class tokens and the declarations hold what the opening tag has
    of foreign class tokens and of foreign declarations, and no
    declaration with a key that does not begin with [--styler-]. *)
Definition keepsForeign (tag : string) (classes : list string)
    (declarations : Vars.t) : Prop :=
  filter foreignClass classes = dedup (filter foreignClass (extractClasses tag))
  /\ filter foreignKey declarations
     = filter foreignKey (declarationsOf (styleAttrOf tag))
  /\ forallb stylerKey declarations = true.
(** *** Sample inputs *)

Definition settings0 : PluginSettings :=
  {| coloredUnderlineThickness := "3"; circleThickness := "2" |}.

(** A, then B inside a bold wrapper. *)
Definition halfBold : string :=
  "A<span class=" ++ DQ ++ "styler-bold" ++ DQ ++ ">B</span>".

(** X inside a wrapper that declares the text color #ff0000. *)
Definition redX : string :=
  "<span style=" ++ DQ ++ "--styler-text-color: #ff0000;" ++ DQ ++ ">X</span>".

(** X inside a wrapper with a foreign class and a foreign declaration. *)
Definition fontSized : string :=
  "<span class=" ++ DQ ++ "foo" ++ DQ ++ " style=" ++ DQ ++ "font-size: 12px;"
  ++ DQ ++ ">X</span>".

Definition nestedSpans : string :=
  "a<SPAN class=" ++ DQ ++ "x" ++ DQ ++ ">b</span>c<span>d</Span>".

(* ===================================================================== *)
(** ** Vocabulary of the further properties *)
(* ===================================================================== *)

(** *** Runs and tags *)

(** [s.substring(a, b)] for [a <= b]. *)
Definition slice (a b : nat) (s : string) : string :=
  substringTo (b - a) (substringFrom a s).

(** The runs follow one another from position [from] on: each begins at or
    after the end of the one before it and is not empty. *)
Fixpoint inOrderFrom (from : nat) (segments : list SelectionSegment) : bool :=
  match segments with
  | [] => true
  | segment :: rest =>
      (from <=? start segment)%nat && (start segment <? finish segment)%nat
      && inOrderFrom (finish segment) rest
  end.

(** The two offsets of the run lie inside the selection and its text is
    the part of the selection between them. *)
Definition isSliceOf (s : string) (segment : SelectionSegment) : Prop :=
  finish segment <= String.length s
  /\ text segment = slice (start segment) (finish segment) s.

(** The text holds no match of the tag pattern. *)
Definition tagFree (s : string) : bool := negb (isSome (tagRegexExec s)).

(** The character [c] does not occur in [s]. *)
Definition lacks (c : ascii) (s : string) : bool := (indexOf c s <? 0)%Z.

(** A class token as the class attribute can carry it: not empty, and
    without a space or a double quote. *)
Definition cleanToken (c : string) : bool :=
  nonEmpty c && lacks " " c && lacks dquote c.

(** *** Requests and what they leave *)

(** The declaration keys a request of the kind writes when it is applied
    with a value. *)
Definition ownKeys (styleType : StyleType) : list string :=
  match styleType with
  | Color => [TEXT_COLOR]
  | Highlight => [HIGHLIGHT_COLOR]
  | ColoredUnderline => [UNDERLINE_COLOR; UNDERLINE_THICKNESS]
  | Circled => [CIRCLE_COLOR; CIRCLE_THICKNESS]
  | _ => []
  end.

(** The run has a wrapper. *)
Definition wrapped (segment : SelectionSegment) : bool := isSome (span segment).

(** The run has no wrapper or its wrapper has the colored-underline
    class. *)
Definition plainOrColoredUnderline (segment : SelectionSegment) : bool :=
  match span segment with
  | Some sp => includes (cls StyleClasses.COLORED_UNDERLINE) (classList sp)
  | None => true
  end.

(** The wrapper has the plain underline class and nothing of a colored
    underline. *)
Definition plainlyUnderlined (a : Attributes) : bool :=
  carriesClass StyleClasses.UNDERLINE a
  && negb (carriesClass StyleClasses.COLORED_UNDERLINE a)
  && negb (declares UNDERLINE_COLOR a)
  && negb (declares UNDERLINE_THICKNESS a).

(** Two optional strings are the same. *)
Definition sameOption (x y : option string) : bool :=
  match x, y with
  | Some a, Some b => String.eqb a b
  | None, None => true
  | _, _ => false
  end.

(** The run shows the style exactly when the toggle applied it: the class
    of the style is there or not, and for a value-bearing kind the value
    slot holds the requested value or no declaration at all. *)
Definition settledAs (styleType : StyleType) (value : option string)
    (shouldApply : bool) (a : Attributes) : bool :=
  Bool.eqb (carriesClass (classNameOf styleType) a) shouldApply
  && match varChecks styleType with
     | Some k =>
         sameOption (Vars.get k (currentCssVariables a))
           (if shouldApply then truthyValue value else None)
     | None => true
     end.

(** *** The style attribute *)

(** A declaration the style attribute can carry and the reader takes: a
    key beginning with [--styler-], key and value without a colon or a
    semicolon and without white space at either end. *)
Definition cleanDeclaration (kv : string * string) : bool :=
  startsWith "--styler-" (fst kv)
  && String.eqb (trim (fst kv)) (fst kv)
  && lacks ":" (fst kv) && lacks ";" (fst kv)
  && String.eqb (trim (snd kv)) (snd kv)
  && lacks ":" (snd kv) && lacks ";" (snd kv).

(** No key is bound twice. *)
Fixpoint distinctKeys (m : Vars.t) : bool :=
  match m with
  | [] => true
  | (k, _) :: rest => negb (isSome (Vars.get k rest)) && distinctKeys rest
  end.

(** The declarations read from the value of a style attribute: the loop
    [styleAttr.split(';').forEach(...)] of [applyModificationToSegment]. *)
Definition readStyleAttr (styleAttr : string) : Vars.t :=
  fold_left readDeclaration (split ";" styleAttr) [].

(** One declaration as the span reconstruction writes it. *)
Definition enc (kv : string * string) : string :=
  fst kv ++ ": " ++ snd kv ++ ";".

(** A value that survives the way through the style attribute of a
    wrapper: not empty, without white space at either end, and without a
    semicolon, a double quote or a closing angle bracket. *)
Definition writableValue (v : string) : bool :=
  nonEmpty v && String.eqb (trim v) v
  && lacks ";" v && lacks dquote v && lacks ">" v.

(** The two kinds that write a thickness next to their color. *)
Definition isThicknessStyle (styleType : StyleType) : bool :=
  match styleType with ColoredUnderline | Circled => true | _ => false end.

(** The key of the thickness of the kind. *)
Definition thicknessKey (styleType : StyleType) : string :=
  match styleType with
  | ColoredUnderline => UNDERLINE_THICKNESS
  | _ => CIRCLE_THICKNESS
  end.

(** The thickness setting the kind reads. *)
Definition thicknessOf (settings : PluginSettings) (styleType : StyleType)
  : string :=
  match styleType with
  | ColoredUnderline => coloredUnderlineThickness settings
  | _ => circleThickness settings
  end.

(** The opening tag of the wrapper a colored-underline or circled request
    with the value puts around a text. *)
Definition thickWrapperOpening (settings : PluginSettings)
    (styleType : StyleType) (value : string) : string :=
  "<span class=" ++ DQ ++ cls (classNameOf styleType) ++ DQ ++ " style=" ++ DQ
  ++ varToCheck styleType ++ ": " ++ value ++ "; "
  ++ thicknessKey styleType ++ ": " ++ thicknessOf settings styleType ++ "px;"
  ++ DQ ++ ">".

(** A rendered thickness that survives the way through the style
    attribute: every rendered number does. *)
Definition writableThickness (t : string) : bool :=
  lacks ";" t && lacks dquote t && lacks ">" t.

(** *** Wrappers written with plain tokens and plain declarations *)

(** The opening tag of the wrapper with the class tokens and the
    declarations. *)
Definition openingTag (classes : list string) (declarations : Vars.t)
  : string :=
  "<span"
  ++ match classes with
     | [] => ""
     | _ => " class=" ++ DQ ++ join " " classes ++ DQ
     end
  ++ match declarations with
     | [] => ""
     | _ => " style=" ++ DQ ++ join " " (map enc declarations) ++ DQ
     end
  ++ ">".

(** A class token that a class attribute carries as it is: not empty and
    without a space, a double quote, an equals sign or a closing angle
    bracket. *)
Definition plainToken (c : string) : bool :=
  cleanToken c && lacks "=" c && lacks ">" c.

(** A declaration that a style attribute carries as it is: key and value
    without a colon, a semicolon, a double quote or a closing angle bracket
    and without white space at either end.  The key need not begin with
    [--styler-]. *)
Definition plainDeclaration (kv : string * string) : bool :=
  String.eqb (trim (fst kv)) (fst kv)
  && lacks ":" (fst kv) && lacks ";" (fst kv) && lacks dquote (fst kv)
  && lacks ">" (fst kv)
  && String.eqb (trim (snd kv)) (snd kv)
  && lacks ":" (snd kv) && lacks ";" (snd kv) && lacks dquote (snd kv)
  && lacks ">" (snd kv).

(** Tokens and declarations that make a wrapper which is read as it is
    written: plain tokens, plain declarations with distinct keys, and at
    least one of either. *)
Definition plainWrapper (classes : list string) (declarations : Vars.t)
  : bool :=
  forallb plainToken classes && forallb plainDeclaration declarations
  && distinctKeys declarations
  && match classes, declarations with [], [] => false | _, _ => true end.

(** What follows the class attribute, or [<span] when there is none. *)
Definition styleTail (ds : Vars.t) : string :=
  match ds with
  | [] => ">"
  | _ => " style=" ++ String dquote (join " " (map enc ds) ++ String dquote ">")
  end.

(** *** Text decorations *)

(** The words of a [text-decoration-line] value as the two helpers read
    it. *)
Definition decorationWords (s : string) : list string :=
  filter (fun p => negb (String.eqb (trim p) "")) (split " " s).

(** A word the helpers can add: it holds a character that is not white
    space, and no space. *)
Definition decorationWord (x : string) : bool :=
  negb (String.eqb (trim x) "") && lacks " " x.

(** Every character of the string is white space. *)
Fixpoint allWhite (s : string) : bool :=
  match s with
  | EmptyString => true
  | String c s' => isWhiteSpace c && allWhite s'
  end.

(** *** Slots *)

(** [old] cut or padded with [d] to [n] entries. *)
Definition fitTo (n : nat) (d : string) (old : list string) : list string :=
  firstn n (old ++ repeat d (n - List.length old)).

(** The slot count, the color list and the selected index of the text
    colors or of the highlight colors. *)
Definition slotsOf (type : TextStyler.ColorType) (s : TextStyler.Settings) : Z :=
  match type with
  | TextStyler.OfText => TextStyler.textColorSlots s
  | TextStyler.OfHighlight => TextStyler.highlightColorSlots s
  end.

Definition colorsOf (type : TextStyler.ColorType) (s : TextStyler.Settings)
  : list string :=
  match type with
  | TextStyler.OfText => TextStyler.textColors s
  | TextStyler.OfHighlight => TextStyler.highlightColors s
  end.

Definition selectedOf (type : TextStyler.ColorType) (s : TextStyler.Settings)
  : Z :=
  match type with
  | TextStyler.OfText => TextStyler.selectedTextColorIndex s
  | TextStyler.OfHighlight => TextStyler.selectedHighlightColorIndex s
  end.

(** Each color list has as many entries as its slot count says. *)
Definition slotsMatch (s : TextStyler.Settings) : bool :=
  (Z.of_nat (List.length (TextStyler.textColors s))
   =? TextStyler.textColorSlots s)%Z
  && (Z.of_nat (List.length (TextStyler.highlightColors s))
      =? TextStyler.highlightColorSlots s)%Z.

(** A slot count [Array] accepts. *)
Definition arrayLength (n : Z) : bool := ((0 <=? n) && (n <? 2 ^ 32))%Z.

(** The stored color list, empty when none is stored. *)
Definition storedColors (colors : option (list string)) : list string :=
  match colors with Some old => old | None => [] end.

(** The color new slots are filled with: the first color of the list of
    [DEFAULT_SETTINGS] as it is at the time of the call, and the fallback
    when that color is missing or empty. *)
Definition fillColor (type : TextStyler.ColorType)
    (defaults : TextStyler.Defaults) : string :=
  match type with
  | TextStyler.OfText =>
      TextStyler.orElse
        (TextStyler.elementAt (TextStyler.defaultTextColors defaults) 0)
        "#000000"
  | TextStyler.OfHighlight =>
      TextStyler.orElse
        (TextStyler.elementAt (TextStyler.defaultHighlightColors defaults) 0)
        "#ffff00"
  end.

(** The list of the kind is the array of [DEFAULT_SETTINGS] itself. *)
Definition sharesColors (type : TextStyler.ColorType) (p : TextStyler.Plugin)
  : bool :=
  match type with
  | TextStyler.OfText => TextStyler.sharesTextColors p
  | TextStyler.OfHighlight => TextStyler.sharesHighlightColors p
  end.

(** The class of the style a color command asks for. *)
Definition commandMarker (command : TextStyler.ColorCommand) : string :=
  classNameOf (TextStyler.commandStyle command).

(** *** Colors as text *)

(** A color component: an integer from 0 to 255. *)
Definition isComponent (n : Z) : bool := ((0 <=? n) && (n <=? 255))%Z.

(** Two numbers are the same integer. *)
Definition sameNumber (x y : JSNumber.number) : bool :=
  match x, y with
  | JSNumber.Finite a, JSNumber.Finite b => (a =? b)%Z
  | _, _ => false
  end.

(** The color [rgb(r, g, b)] with the white space [w1] and [w2] after the
    commas. *)
Definition rgbText (r g b : Z) (w1 w2 : string) : string :=
  "rgb(" ++ JSNumber.toString (JSNumber.Finite r) ++ "," ++ w1
  ++ JSNumber.toString (JSNumber.Finite g) ++ "," ++ w2
  ++ JSNumber.toString (JSNumber.Finite b) ++ ")".

(** The text is made of digits only. *)
Definition allDigits (s : string) : bool :=
  match Utils.takeDigits s with (_, EmptyString) => true | _ => false end.

(** What the conversions do with one component: its decimal text is made
    of digits, is not empty and is parsed back to the component; its hex
    text has two hex digits that are parsed back to the component. *)
Definition componentFacts (n : Z) : bool :=
  let d := JSNumber.toString (JSNumber.Finite n) in
  allDigits d && nonEmpty d
  && sameNumber (JSNumber.parseInt d) (JSNumber.Finite n)
  && match Utils.componentToHex (JSNumber.Finite n) with
     | String a (String b EmptyString) =>
         Utils.isHexDigit a && Utils.isHexDigit b
         && sameNumber (JSNumber.parseIntRadix (String a (String b "")) 16)
              (JSNumber.Finite n)
     | _ => false
     end.

(** What the conversions do with two hex digits: they denote a component,
    whose hex text is the two digits in lower case. *)
Definition pairFacts (a b : ascii) : bool :=
  negb (Utils.isHexDigit a && Utils.isHexDigit b)
  || match JSNumber.parseIntRadix (String a (String b "")) 16 with
     | JSNumber.Finite n =>
         isComponent n
         && String.eqb (Utils.componentToHex (JSNumber.Finite n))
              (String (toLowerChar a) (String (toLowerChar b) ""))
     | _ => false
     end.

(* ===================================================================== *)
(** ** Arrays of class names and the variable map *)
(* ===================================================================== *)

Lemma includes_without (x y : string) (l : list string) :
    includes x (without y l) = includes x l && negb (String.eqb x y).
  Proof.
    unfold includes, without.
    induction l as [|a l IH]; simpl; [reflexivity|].
    destruct (String.eqb a y) eqn:Eay; simpl.
    - rewrite IH. apply String.eqb_eq in Eay. subst a.
      destruct (String.eqb x y); simpl; [now rewrite andb_false_r|reflexivity].
    - rewrite IH. destruct (String.eqb x a) eqn:Exa; simpl; [|reflexivity].
      apply String.eqb_eq in Exa. subst a. now rewrite Eay.
  Qed.

Lemma includes_push (x y : string) (l : list string) :
    includes x (l ++ [y])%list = includes x l || String.eqb x y.
  Proof.
    unfold includes. rewrite existsb_app. simpl. now rewrite orb_false_r.
  Qed.

Lemma includes_filter_nonEmpty (x : string) (l : list string) :
    includes x (filter nonEmpty l) = includes x l && nonEmpty x.
  Proof.
    unfold includes.
    induction l as [|a l IH]; simpl; [reflexivity|].
    destruct (nonEmpty a) eqn:Ea; simpl; rewrite IH.
    - destruct (String.eqb x a) eqn:Exa; simpl; [|reflexivity].
      apply String.eqb_eq in Exa. subst a. now rewrite Ea.
    - destruct (String.eqb x a) eqn:Exa; simpl; [|reflexivity].
      apply String.eqb_eq in Exa. subst a. rewrite Ea. now rewrite andb_false_r.
  Qed.

Lemma includes_dedupFrom (x : string) (seen l : list string) :
    includes x (dedupFrom seen l) = includes x l && negb (includes x seen).
  Proof.
    revert seen.
    induction l as [|a l IH]; intros seen; simpl; [reflexivity|].
    destruct (includes a seen) eqn:Ea.
    - rewrite IH. destruct (String.eqb x a) eqn:Exa; simpl; [|reflexivity].
      apply String.eqb_eq in Exa. subst a. rewrite Ea. simpl.
      now rewrite andb_false_r.
    - change (includes x (a :: dedupFrom (a :: seen) l))
        with (String.eqb x a || includes x (dedupFrom (a :: seen) l)).
      rewrite IH.
      change (includes x (a :: seen)) with (String.eqb x a || includes x seen).
      change (includes x (a :: l)) with (String.eqb x a || includes x l).
      destruct (String.eqb x a) eqn:Exa; simpl.
      + apply String.eqb_eq in Exa. subst a. now rewrite Ea.
      + reflexivity.
  Qed.

Lemma includes_dedup (x : string) (l : list string) :
    includes x (dedup l) = includes x l.
  Proof.
    unfold dedup. rewrite includes_dedupFrom. simpl. apply andb_true_r.
  Qed.

Lemma includes_uniqueClasses (x : string) (l : list string) :
    includes x (StyleManager.uniqueClasses l) = includes x l && nonEmpty x.
  Proof.
    unfold StyleManager.uniqueClasses.
    now rewrite includes_filter_nonEmpty, includes_dedup.
  Qed.

Lemma get_set (k k' v : string) (m : Vars.t) :
    Vars.get k (Vars.set k' v m) =
    if String.eqb k' k then Some v else Vars.get k m.
  Proof.
    induction m as [|[k0 v0] m IH]; simpl.
    - reflexivity.
    - destruct (String.eqb k0 k') eqn:E0; simpl.
      + apply String.eqb_eq in E0. subst k0.
        now destruct (String.eqb k' k).
      + destruct (String.eqb k0 k) eqn:E1.
        * apply String.eqb_eq in E1. subst k0.
          rewrite String.eqb_sym, E0. reflexivity.
        * exact IH.
  Qed.

Lemma get_delete (k k' : string) (m : Vars.t) :
    Vars.get k (Vars.delete k' m) =
    if String.eqb k' k then None else Vars.get k m.
  Proof.
    unfold Vars.delete.
    induction m as [|[k0 v0] m IH]; simpl.
    - now destruct (String.eqb k' k).
    - destruct (String.eqb k0 k') eqn:E0; simpl.
      + rewrite IH. apply String.eqb_eq in E0. subst k0.
        now destruct (String.eqb k' k).
      + rewrite IH. destruct (String.eqb k0 k) eqn:E1; [|reflexivity].
        apply String.eqb_eq in E1. subst k0.
        rewrite String.eqb_sym, E0. reflexivity.
  Qed.

Create Rewrite HintDb attrs.
#[local] Hint Rewrite includes_without includes_push includes_uniqueClasses
  get_set get_delete : attrs.

(* ===================================================================== *)
(** ** The reconciler, stage by stage *)
(* ===================================================================== *)

Lemma cleanupUnderline_classes a :
  currentClasses (cleanupUnderline a) = currentClasses a.
Proof. reflexivity. Qed.

Lemma get_delete_underline k m :
  Vars.get k (Vars.delete UNDERLINE_THICKNESS (Vars.delete UNDERLINE_COLOR m)) =
  if underlineKey k then None else Vars.get k m.
Proof.
  rewrite !get_delete. unfold underlineKey.
  destruct (String.eqb UNDERLINE_COLOR k), (String.eqb UNDERLINE_THICKNESS k); reflexivity.
Qed.

Lemma cleanupUnderline_get k a :
  Vars.get k (currentCssVariables (cleanupUnderline a)) =
  if (includes (cls StyleClasses.UNDERLINE) (currentClasses a)
      || negb (includes (cls StyleClasses.COLORED_UNDERLINE) (currentClasses a)))
     && underlineKey k
  then None else Vars.get k (currentCssVariables a).
Proof.
  unfold cleanupUnderline. cbn [currentCssVariables currentClasses].
  destruct (includes (cls StyleClasses.UNDERLINE) (currentClasses a));
  destruct (includes (cls StyleClasses.COLORED_UNDERLINE) (currentClasses a));
  cbn [negb orb andb]; rewrite ?get_delete_underline;
  destruct (underlineKey k); reflexivity.
Qed.

Lemma cleanupMarkers_get k a :
  Vars.get k (currentCssVariables (cleanupMarkers a)) =
  if (String.eqb UNDERLINE_THICKNESS k && Vars.falsy UNDERLINE_COLOR (currentCssVariables a))
     || (String.eqb CIRCLE_THICKNESS k && Vars.falsy CIRCLE_COLOR (currentCssVariables a))
  then None else Vars.get k (currentCssVariables a).
Proof.
  unfold cleanupMarkers.
  destruct (Vars.falsy TEXT_COLOR (currentCssVariables a));
  cbn [currentCssVariables currentClasses];
  destruct (Vars.falsy HIGHLIGHT_COLOR (currentCssVariables a));
  cbn [currentCssVariables currentClasses];
  destruct (Vars.falsy UNDERLINE_COLOR (currentCssVariables a)) eqn:Eu;
  cbn [currentCssVariables currentClasses];
  unfold Vars.falsy at 1; rewrite ?get_delete;
  change (String.eqb UNDERLINE_THICKNESS CIRCLE_COLOR) with false; cbv iota;
  fold (Vars.falsy CIRCLE_COLOR (currentCssVariables a));
  destruct (Vars.falsy CIRCLE_COLOR (currentCssVariables a));
  cbn [currentCssVariables currentClasses]; rewrite ?get_delete;
  destruct (String.eqb UNDERLINE_THICKNESS k), (String.eqb CIRCLE_THICKNESS k); reflexivity.
Qed.

Lemma cleanupMarkers_includes c a :
  includes c (currentClasses (cleanupMarkers a)) =
  includes c (currentClasses a)
  && negb (String.eqb c (cls StyleClasses.COLORED) && Vars.falsy TEXT_COLOR (currentCssVariables a))
  && negb (String.eqb c (cls StyleClasses.HIGHLIGHTED) && Vars.falsy HIGHLIGHT_COLOR (currentCssVariables a))
  && negb (String.eqb c (cls StyleClasses.COLORED_UNDERLINE) && Vars.falsy UNDERLINE_COLOR (currentCssVariables a))
  && negb (String.eqb c (cls StyleClasses.CIRCLED) && Vars.falsy CIRCLE_COLOR (currentCssVariables a)).
Proof.
  unfold cleanupMarkers.
  destruct (Vars.falsy TEXT_COLOR (currentCssVariables a));
  cbn [currentCssVariables currentClasses];
  destruct (Vars.falsy HIGHLIGHT_COLOR (currentCssVariables a));
  cbn [currentCssVariables currentClasses];
  destruct (Vars.falsy UNDERLINE_COLOR (currentCssVariables a)) eqn:Eu;
  cbn [currentCssVariables currentClasses];
  unfold Vars.falsy at 1; rewrite ?get_delete;
  change (String.eqb UNDERLINE_THICKNESS CIRCLE_COLOR) with false; cbv iota;
  fold (Vars.falsy CIRCLE_COLOR (currentCssVariables a));
  destruct (Vars.falsy CIRCLE_COLOR (currentCssVariables a));
  cbn [currentCssVariables currentClasses]; rewrite ?includes_without;
  rewrite ?andb_true_r, ?andb_false_r; cbn [negb]; rewrite ?andb_true_r; reflexivity.
Qed.

(** *** Foreign classes and declarations *)

Lemma filter_without (p : string -> bool) y l :
  p y = false -> filter p (without y l) = filter p l.
Proof.
  intros Hy. unfold without. induction l as [|a l IH]; simpl; [reflexivity|].
  destruct (String.eqb a y) eqn:E; simpl.
  - apply String.eqb_eq in E. subst a. now rewrite Hy.
  - now rewrite IH.
Qed.

Lemma filter_push (p : string -> bool) y l :
  p y = false -> filter p (l ++ [y])%list = filter p l.
Proof.
  intros Hy. rewrite filter_app. simpl. rewrite Hy. apply app_nil_r.
Qed.

Lemma filter_dedupFrom (p : string -> bool) seen l :
  filter p (dedupFrom seen l) = dedupFrom (filter p seen) (filter p l).
Proof.
  revert seen. induction l as [|a l IH]; intros seen; simpl; [reflexivity|].
  destruct (p a) eqn:Pa.
  - simpl.
    assert (includes a (filter p seen) = includes a seen) as ->.
    { unfold includes. clear -Pa. induction seen as [|b seen IH]; simpl; [reflexivity|].
      destruct (p b) eqn:Pb; simpl.
      - now rewrite IH.
      - rewrite IH. destruct (String.eqb a b) eqn:E; [|reflexivity].
        apply String.eqb_eq in E. subst b. congruence. }
    destruct (includes a seen).
    + apply IH.
    + simpl. rewrite Pa. rewrite IH. simpl. now rewrite Pa.
  - destruct (includes a seen).
    + apply IH.
    + simpl. rewrite Pa. rewrite IH. simpl. now rewrite Pa.
Qed.

Lemma filter_comm {A} (p q : A -> bool) l :
  filter p (filter q l) = filter q (filter p l).
Proof.
  induction l as [|a l IH]; simpl; [reflexivity|].
  destruct (q a) eqn:Q, (p a) eqn:P; simpl; rewrite ?Q, ?P, ?IH; reflexivity.
Qed.

Lemma filter_uniqueClasses (p : string -> bool) l :
  filter p (uniqueClasses l) = uniqueClasses (filter p l).
Proof.
  unfold uniqueClasses, dedup. rewrite filter_comm, filter_dedupFrom. reflexivity.
Qed.

Lemma filter_set (p : string * string -> bool) k v m :
  (forall w, p (k, w) = false) -> filter p (Vars.set k v m) = filter p m.
Proof.
  intros Hk. induction m as [|[k0 v0] m IH]; simpl.
  - now rewrite Hk.
  - destruct (String.eqb k0 k) eqn:E; simpl.
    + apply String.eqb_eq in E. subst k0. now rewrite !Hk.
    + now rewrite IH.
Qed.

Lemma filter_delete (p : string * string -> bool) k m :
  (forall w, p (k, w) = false) -> filter p (Vars.delete k m) = filter p m.
Proof.
  intros Hk. unfold Vars.delete. induction m as [|[k0 v0] m IH]; simpl; [reflexivity|].
  destruct (String.eqb k0 k) eqn:E; simpl.
  - apply String.eqb_eq in E. subst k0. now rewrite Hk.
  - now rewrite IH.
Qed.

Lemma forallb_set (p : string * string -> bool) k v m :
  p (k, v) = true -> forallb p m = true -> forallb p (Vars.set k v m) = true.
Proof.
  intros Hk Hm. induction m as [|[k0 v0] m IH]; simpl in *.
  - now rewrite Hk.
  - apply andb_true_iff in Hm as [H0 Hm].
    destruct (String.eqb k0 k) eqn:E; simpl.
    + apply String.eqb_eq in E. subst k0. now rewrite Hk, Hm.
    + rewrite H0. now apply IH.
Qed.

Lemma forallb_delete (p : string * string -> bool) k m :
  forallb p m = true -> forallb p (Vars.delete k m) = true.
Proof.
  intros Hm. unfold Vars.delete. induction m as [|[k0 v0] m IH]; simpl in *; [reflexivity|].
  apply andb_true_iff in Hm as [H0 Hm].
  destruct (String.eqb k0 k); simpl; [now apply IH|].
  rewrite H0. now apply IH.
Qed.

Ltac foreign_side := intros; reflexivity.

Lemma applyStyle_foreignClasses settings styleType value a :
  filter foreignClass (currentClasses (applyStyle settings styleType value a)) =
  filter foreignClass (currentClasses a).
Proof.
  unfold applyStyle.
  destruct styleType; cbn [targetClassOf classMap];
  destruct (truthyValue value); cbn [currentClasses];
  rewrite ?filter_without by reflexivity;
  match goal with
  | |- context [if ?b then _ else _] => destruct b
  end; rewrite ?filter_push by reflexivity; reflexivity.
Qed.

Lemma applyStyle_foreignKeys settings styleType value a :
  filter foreignKey (currentCssVariables (applyStyle settings styleType value a)) =
  filter foreignKey (currentCssVariables a).
Proof.
  unfold applyStyle.
  destruct styleType; cbn [targetClassOf classMap];
  destruct (truthyValue value); cbn [currentCssVariables];
  rewrite ?filter_set, ?filter_delete by foreign_side; reflexivity.
Qed.

Lemma removeStyle_foreignClasses styleType a :
  filter foreignClass (currentClasses (removeStyle styleType a)) =
  filter foreignClass (currentClasses a).
Proof.
  unfold removeStyle.
  destruct styleType; cbn [targetClassOf classMap currentClasses];
  now rewrite filter_without by reflexivity.
Qed.

Lemma removeStyle_foreignKeys styleType a :
  filter foreignKey (currentCssVariables (removeStyle styleType a)) =
  filter foreignKey (currentCssVariables a).
Proof.
  unfold removeStyle.
  destruct styleType; cbn [currentCssVariables];
  rewrite ?filter_delete by foreign_side; reflexivity.
Qed.

Lemma cleanupUnderline_foreignKeys a :
  filter foreignKey (currentCssVariables (cleanupUnderline a)) =
  filter foreignKey (currentCssVariables a).
Proof.
  unfold cleanupUnderline. cbn [currentCssVariables].
  repeat match goal with
  | |- context [if ?b then _ else _] => destruct b
  end; rewrite ?filter_delete by foreign_side; reflexivity.
Qed.

Lemma cleanupMarkers_foreignClasses a :
  filter foreignClass (currentClasses (cleanupMarkers a)) =
  filter foreignClass (currentClasses a).
Proof.
  unfold cleanupMarkers.
  repeat match goal with
  | |- context [if ?b then _ else _] => destruct b; cbn [currentClasses currentCssVariables]
  end; rewrite ?filter_without by reflexivity; reflexivity.
Qed.

Lemma cleanupMarkers_foreignKeys a :
  filter foreignKey (currentCssVariables (cleanupMarkers a)) =
  filter foreignKey (currentCssVariables a).
Proof.
  unfold cleanupMarkers.
  repeat match goal with
  | |- context [if ?b then _ else _] => destruct b; cbn [currentClasses currentCssVariables]
  end; rewrite ?filter_delete by foreign_side; reflexivity.
Qed.

(** Only keys that begin with the prefix are ever stored. *)

Lemma readDeclaration_stylerKeys vars part :
  forallb stylerKey vars = true -> forallb stylerKey (readDeclaration vars part) = true.
Proof.
  intros H. unfold readDeclaration.
  destruct (split ":" part) as [|key rest]; [exact H|].
  destruct (startsWith "--styler-" (trim key)) eqn:E; [|exact H].
  apply forallb_set; [exact E|exact H].
Qed.

Lemma readAttributes_stylerKeys spanInfo :
  forallb stylerKey (currentCssVariables (readAttributes spanInfo)) = true.
Proof.
  destruct spanInfo as [sp|]; [|reflexivity].
  cbn [readAttributes currentCssVariables].
  destruct (nonEmpty (startTag sp)); [|reflexivity].
  assert (forall parts vars, forallb stylerKey vars = true ->
            forallb stylerKey (fold_left readDeclaration parts vars) = true) as H.
  { induction parts as [|p parts IH]; intros vars Hv; [exact Hv|].
    simpl. apply IH. now apply readDeclaration_stylerKeys. }
  now apply H.
Qed.

Lemma applyStyle_stylerKeys settings styleType value a :
  forallb stylerKey (currentCssVariables a) = true ->
  forallb stylerKey (currentCssVariables (applyStyle settings styleType value a)) = true.
Proof.
  intros H. unfold applyStyle.
  destruct styleType; destruct (truthyValue value); cbn [currentCssVariables];
  repeat first [ exact H | apply forallb_set; [reflexivity|] | apply forallb_delete ].
Qed.

Lemma removeStyle_stylerKeys styleType a :
  forallb stylerKey (currentCssVariables a) = true ->
  forallb stylerKey (currentCssVariables (removeStyle styleType a)) = true.
Proof.
  intros H. unfold removeStyle.
  destruct styleType; cbn [currentCssVariables];
  repeat first [ exact H | apply forallb_delete ].
Qed.

Lemma cleanupUnderline_stylerKeys a :
  forallb stylerKey (currentCssVariables a) = true ->
  forallb stylerKey (currentCssVariables (cleanupUnderline a)) = true.
Proof.
  intros H. unfold cleanupUnderline. cbn [currentCssVariables].
  repeat match goal with
  | |- context [if ?b then _ else _] => destruct b
  end; repeat first [ exact H | apply forallb_delete ].
Qed.

Lemma cleanupMarkers_stylerKeys a :
  forallb stylerKey (currentCssVariables a) = true ->
  forallb stylerKey (currentCssVariables (cleanupMarkers a)) = true.
Proof.
  intros H. unfold cleanupMarkers.
  repeat match goal with
  | |- context [if ?b then _ else _] => destruct b; cbn [currentClasses currentCssVariables]
  end; repeat first [ exact H | apply forallb_delete ].
Qed.

(** *** The cleanup *)

Lemma carriesClass_includes c a :
  carriesClass c a = includes (cls c) (currentClasses a).
Proof.
  unfold carriesClass, emittedClasses. rewrite includes_uniqueClasses.
  unfold cls. simpl. apply andb_true_r.
Qed.

Lemma falsy_cleanupUnderline_color a :
  Vars.falsy UNDERLINE_COLOR (currentCssVariables (cleanupUnderline a)) =
  includes (cls StyleClasses.UNDERLINE) (currentClasses a)
  || negb (includes (cls StyleClasses.COLORED_UNDERLINE) (currentClasses a))
  || Vars.falsy UNDERLINE_COLOR (currentCssVariables a).
Proof.
  unfold Vars.falsy. rewrite cleanupUnderline_get.
  change (underlineKey UNDERLINE_COLOR) with true. rewrite andb_true_r.
  destruct (includes (cls StyleClasses.UNDERLINE) (currentClasses a)
            || negb (includes (cls StyleClasses.COLORED_UNDERLINE) (currentClasses a)));
    reflexivity.
Qed.

Lemma falsy_cleanupUnderline_other k a :
  underlineKey k = false ->
  Vars.falsy k (currentCssVariables (cleanupUnderline a)) =
  Vars.falsy k (currentCssVariables a).
Proof.
  intros H. unfold Vars.falsy. rewrite cleanupUnderline_get, H.
  now rewrite andb_false_r.
Qed.


(** What the cleanup alone guarantees, whatever it is given. *)

Section Cleaned.

Variable a : Attributes.

Lemma cleaned_underline :
  carriesClass StyleClasses.UNDERLINE (cleaned a)
  = includes (cls StyleClasses.UNDERLINE) (currentClasses a).
Proof.
  unfold cleaned. rewrite carriesClass_includes, cleanupMarkers_includes.
  cbn [String.eqb cls]. 
  change (String.eqb (cls StyleClasses.UNDERLINE) (cls StyleClasses.COLORED)) with false.
  change (String.eqb (cls StyleClasses.UNDERLINE) (cls StyleClasses.HIGHLIGHTED)) with false.
  change (String.eqb (cls StyleClasses.UNDERLINE) (cls StyleClasses.COLORED_UNDERLINE)) with false.
  change (String.eqb (cls StyleClasses.UNDERLINE) (cls StyleClasses.CIRCLED)) with false.
  cbn [andb negb]. now rewrite !andb_true_r.
Qed.

Lemma cleaned_colored_underline :
  carriesClass StyleClasses.COLORED_UNDERLINE (cleaned a)
  = includes (cls StyleClasses.COLORED_UNDERLINE) (currentClasses a)
    && negb (includes (cls StyleClasses.UNDERLINE) (currentClasses a))
    && negb (Vars.falsy UNDERLINE_COLOR (currentCssVariables a)).
Proof.
  unfold cleaned. rewrite carriesClass_includes, cleanupMarkers_includes.
  change (String.eqb (cls StyleClasses.COLORED_UNDERLINE) (cls StyleClasses.COLORED)) with false.
  change (String.eqb (cls StyleClasses.COLORED_UNDERLINE) (cls StyleClasses.HIGHLIGHTED)) with false.
  change (String.eqb (cls StyleClasses.COLORED_UNDERLINE) (cls StyleClasses.COLORED_UNDERLINE)) with true.
  change (String.eqb (cls StyleClasses.COLORED_UNDERLINE) (cls StyleClasses.CIRCLED)) with false.
  rewrite falsy_cleanupUnderline_color, cleanupUnderline_classes.
  destruct (includes (cls StyleClasses.COLORED_UNDERLINE) (currentClasses a)),
           (includes (cls StyleClasses.UNDERLINE) (currentClasses a)),
           (Vars.falsy UNDERLINE_COLOR (currentCssVariables a)); reflexivity.
Qed.

Lemma cleaned_underline_color :
  Vars.get UNDERLINE_COLOR (currentCssVariables (cleaned a))
  = if includes (cls StyleClasses.UNDERLINE) (currentClasses a)
       || negb (includes (cls StyleClasses.COLORED_UNDERLINE) (currentClasses a))
    then None else Vars.get UNDERLINE_COLOR (currentCssVariables a).
Proof.
  unfold cleaned. rewrite cleanupMarkers_get, cleanupUnderline_get.
  change (String.eqb UNDERLINE_THICKNESS UNDERLINE_COLOR) with false.
  change (String.eqb CIRCLE_THICKNESS UNDERLINE_COLOR) with false.
  change (underlineKey UNDERLINE_COLOR) with true.
  cbn [andb orb]. now rewrite andb_true_r.
Qed.

Lemma cleaned_underline_thickness :
  Vars.get UNDERLINE_THICKNESS (currentCssVariables (cleaned a))
  = if includes (cls StyleClasses.UNDERLINE) (currentClasses a)
       || negb (includes (cls StyleClasses.COLORED_UNDERLINE) (currentClasses a))
       || Vars.falsy UNDERLINE_COLOR (currentCssVariables a)
    then None else Vars.get UNDERLINE_THICKNESS (currentCssVariables a).
Proof.
  unfold cleaned. rewrite cleanupMarkers_get, falsy_cleanupUnderline_color.
  rewrite cleanupUnderline_get.
  change (String.eqb UNDERLINE_THICKNESS UNDERLINE_THICKNESS) with true.
  change (String.eqb CIRCLE_THICKNESS UNDERLINE_THICKNESS) with false.
  change (underlineKey UNDERLINE_THICKNESS) with true.
  cbn [andb orb]. rewrite orb_false_r, andb_true_r.
  destruct (includes (cls StyleClasses.UNDERLINE) (currentClasses a)
            || negb (includes (cls StyleClasses.COLORED_UNDERLINE) (currentClasses a)));
    cbn [orb]; [reflexivity|].
  destruct (Vars.falsy UNDERLINE_COLOR (currentCssVariables a)); reflexivity.
Qed.

Lemma cleaned_colored :
  carriesClass StyleClasses.COLORED (cleaned a)
  = includes (cls StyleClasses.COLORED) (currentClasses a)
    && negb (Vars.falsy TEXT_COLOR (currentCssVariables a)).
Proof.
  unfold cleaned. rewrite carriesClass_includes, cleanupMarkers_includes.
  change (String.eqb (cls StyleClasses.COLORED) (cls StyleClasses.COLORED)) with true.
  change (String.eqb (cls StyleClasses.COLORED) (cls StyleClasses.HIGHLIGHTED)) with false.
  change (String.eqb (cls StyleClasses.COLORED) (cls StyleClasses.COLORED_UNDERLINE)) with false.
  change (String.eqb (cls StyleClasses.COLORED) (cls StyleClasses.CIRCLED)) with false.
  cbn [andb negb]. rewrite !andb_true_r.
  rewrite (falsy_cleanupUnderline_other TEXT_COLOR) by reflexivity.
  now rewrite cleanupUnderline_classes.
Qed.

Lemma cleaned_highlighted :
  carriesClass StyleClasses.HIGHLIGHTED (cleaned a)
  = includes (cls StyleClasses.HIGHLIGHTED) (currentClasses a)
    && negb (Vars.falsy HIGHLIGHT_COLOR (currentCssVariables a)).
Proof.
  unfold cleaned. rewrite carriesClass_includes, cleanupMarkers_includes.
  change (String.eqb (cls StyleClasses.HIGHLIGHTED) (cls StyleClasses.COLORED)) with false.
  change (String.eqb (cls StyleClasses.HIGHLIGHTED) (cls StyleClasses.HIGHLIGHTED)) with true.
  change (String.eqb (cls StyleClasses.HIGHLIGHTED) (cls StyleClasses.COLORED_UNDERLINE)) with false.
  change (String.eqb (cls StyleClasses.HIGHLIGHTED) (cls StyleClasses.CIRCLED)) with false.
  cbn [andb negb]. rewrite !andb_true_r.
  rewrite (falsy_cleanupUnderline_other HIGHLIGHT_COLOR) by reflexivity.
  now rewrite cleanupUnderline_classes.
Qed.

Lemma cleaned_circled :
  carriesClass StyleClasses.CIRCLED (cleaned a)
  = includes (cls StyleClasses.CIRCLED) (currentClasses a)
    && negb (Vars.falsy CIRCLE_COLOR (currentCssVariables a)).
Proof.
  unfold cleaned. rewrite carriesClass_includes, cleanupMarkers_includes.
  change (String.eqb (cls StyleClasses.CIRCLED) (cls StyleClasses.COLORED)) with false.
  change (String.eqb (cls StyleClasses.CIRCLED) (cls StyleClasses.HIGHLIGHTED)) with false.
  change (String.eqb (cls StyleClasses.CIRCLED) (cls StyleClasses.COLORED_UNDERLINE)) with false.
  change (String.eqb (cls StyleClasses.CIRCLED) (cls StyleClasses.CIRCLED)) with true.
  cbn [andb negb]. rewrite !andb_true_r.
  rewrite (falsy_cleanupUnderline_other CIRCLE_COLOR) by reflexivity.
  now rewrite cleanupUnderline_classes.
Qed.




End Cleaned.

Lemma includes_pushed x l :
  includes x (if includes x l then l else (l ++ [x])%list) = true.
Proof.
  destruct (includes x l) eqn:E; [exact E|].
  rewrite includes_push, String.eqb_refl. apply orb_true_r.
Qed.

Lemma applyStyle_underline_classes settings value a :
  currentClasses (applyStyle settings Underline value a)
  = without (cls StyleClasses.COLORED_UNDERLINE)
      (if includes (cls StyleClasses.UNDERLINE) (currentClasses a)
       then currentClasses a
       else (currentClasses a ++ [cls StyleClasses.UNDERLINE])%list).
Proof. unfold applyStyle. now destruct (truthyValue value). Qed.

(** *** The activation decision *)

Lemma isStyleActiveInSegments_existsb segments styleType value :
  isStyleActiveInSegments segments styleType value
  = existsb (activeOn styleType value) segments.
Proof.
  induction segments as [|seg rest IH]; [reflexivity|].
  simpl. unfold activeOn at 1.
  destruct (span seg) as [sp|]; [|exact IH].
  destruct (isStyleActiveInSpan sp styleType value); [reflexivity|exact IH].
Qed.

Lemma checkSegment_flags styleType v f segment :
  isValueStyle styleType = true ->
  isSameValueActive (checkSegment styleType v f segment)
    = isSameValueActive f || sameValueOn styleType v segment
  /\ hasDifferentValue (checkSegment styleType v f segment)
    = hasDifferentValue f || conflictsOn styleType v segment.
Proof.
  intros Hk. unfold checkSegment, sameValueOn, conflictsOn, slotOf.
  destruct (getCssVariableValue (span segment) (varToCheck styleType)) as [w|].
  - destruct (String.eqb (toLowerCase w) (toLowerCase v)); cbn;
      rewrite ?orb_true_r, ?orb_false_r; split; reflexivity.
  - assert (markerClassOf styleType
            = match classMap styleType with Some c => Some (cls c) | None => None end) as ->.
    { now destruct styleType. }
    destruct (classMap styleType) as [c|]; cbv beta iota.
    + destruct (spanIncludes (span segment) (cls c)); cbn;
        rewrite ?orb_true_r, ?orb_false_r; split; reflexivity.
    + rewrite !orb_false_r. split; reflexivity.
Qed.

Lemma fold_checkSegment_flags styleType v segments :
  isValueStyle styleType = true ->
  forall f,
    isSameValueActive (fold_left (checkSegment styleType v) segments f)
      = isSameValueActive f || existsb (sameValueOn styleType v) segments
    /\ hasDifferentValue (fold_left (checkSegment styleType v) segments f)
      = hasDifferentValue f || existsb (conflictsOn styleType v) segments.
Proof.
  intros Hk. induction segments as [|seg rest IH]; intros f.
  - cbn. rewrite !orb_false_r. split; reflexivity.
  - cbn [fold_left existsb].
    destruct (IH (checkSegment styleType v f seg)) as [H1 H2].
    destruct (checkSegment_flags styleType v f seg Hk) as [H3 H4].
    rewrite H1, H2, H3, H4, !orb_assoc. split; reflexivity.
Qed.

(* ===================================================================== *)
(** ** Strings, the empty wrapper and the cursor *)
(* ===================================================================== *)

Lemma append_length (s t : string) :
  String.length (s ++ t) = String.length s + String.length t.
Proof. induction s as [|a s IH]; simpl; [reflexivity|now rewrite IH]. Qed.

Lemma append_assoc (s t u : string) : (s ++ t) ++ u = s ++ (t ++ u).
Proof. induction s as [|a s IH]; simpl; [reflexivity|now rewrite IH]. Qed.

Lemma append_nil_r (s : string) : s ++ "" = s.
Proof. induction s as [|a s IH]; simpl; [reflexivity|now rewrite IH]. Qed.

Lemma trimEnd_append (s t : string) :
  t <> "" -> trimEnd t = t -> trimEnd (s ++ t) = s ++ t.
Proof.
  intros Ht Hfix. induction s as [|a s IH]; simpl; [exact Hfix|].
  rewrite IH. destruct (s ++ t) eqn:E; [|reflexivity].
  destruct s; simpl in E; [contradiction|discriminate].
Qed.

Lemma indexOf_bounds c s :
  (-1 <= indexOf c s < Z.of_nat (String.length s))%Z.
Proof.
  induction s as [|a s IH]; simpl String.length; simpl indexOf; [lia|].
  destruct (Ascii.eqb a c); [lia|].
  destruct (indexOf c s <? 0)%Z eqn:E; lia.
Qed.

Lemma indexOf_append c s t :
  indexOf c (s ++ t)
  = if (0 <=? indexOf c s)%Z then indexOf c s
    else if (0 <=? indexOf c t)%Z
         then (Z.of_nat (String.length s) + indexOf c t)%Z
         else (-1)%Z.
Proof.
  induction s as [|a s IH].
  - simpl. pose proof (indexOf_bounds c t).
    destruct (0 <=? indexOf c t)%Z eqn:E; lia.
  - cbn [append indexOf String.length]. destruct (Ascii.eqb a c); [reflexivity|].
    rewrite IH. pose proof (indexOf_bounds c s). pose proof (indexOf_bounds c t).
    destruct (0 <=? indexOf c s)%Z eqn:E1;
    destruct (indexOf c s <? 0)%Z eqn:E2; try lia.
    + destruct (0 <=? indexOf c s + 1)%Z eqn:E3; lia.
    + destruct (0 <=? indexOf c t)%Z eqn:E3.
      * destruct (Z.of_nat (String.length s) + indexOf c t <? 0)%Z eqn:E4; try lia.
        destruct (0 <=? -1)%Z eqn:E5; lia.
      * cbn. destruct (0 <=? -1)%Z eqn:E5; [lia|reflexivity].
Qed.

Lemma trim_fixed a s b :
  isWhiteSpace a = false -> isWhiteSpace b = false ->
  trim (String a (s ++ String b "")) = String a (s ++ String b "").
Proof.
  intros Ha Hb. unfold trim. cbn [trimStart]. rewrite Ha.
  change (String a (s ++ String b "")) with (String a s ++ String b "").
  apply trimEnd_append; [discriminate|]. cbn. now rewrite Hb.
Qed.

Lemma trim_declaration k v :
  trim (String "-" k ++ ": " ++ v ++ ";") = String "-" k ++ ": " ++ v ++ ";".
Proof.
  replace (String "-" k ++ ": " ++ v ++ ";")
    with (String "-" ((k ++ ": " ++ v) ++ ";"))
    by (cbn [append]; now rewrite !append_assoc).
  now apply trim_fixed.
Qed.

Lemma reconstructSpan_single text marker k V :
  reconstructSpan text
    {| currentClasses := [cls marker];
       currentCssVariables := [(String "-" k, V)] |}
  = ("<span class=" ++ DQ ++ cls marker ++ DQ ++ " style=" ++ DQ
     ++ String "-" k ++ ": " ++ V ++ ";" ++ DQ ++ ">") ++ text ++ "</span>".
Proof.
  unfold reconstructSpan. cbn [currentClasses currentCssVariables].
  change (uniqueClasses [cls marker]) with [cls marker].
  unfold styleAttrValue. cbn [map join fst snd].
  rewrite trim_declaration.
  set (decl := String "-" k ++ ": " ++ V ++ ";").
  assert ((0 <? String.length decl)%nat = true) as -> by reflexivity.
  change (0 <? List.length [cls marker])%nat with true.
  cbv beta iota zeta. cbn [orb join].
  subst decl. rewrite !append_assoc. reflexivity.
Qed.

Lemma createStyledSpan_color settings c v :
  createStyledSpan settings "" Color (Some (String c v)) None
  = emptyWrapperOpening StyleClasses.COLORED TEXT_COLOR (String c v) ++ "</span>".
Proof.
  unfold createStyledSpan, applyModificationToSegment.
  change (reconcile settings None Color (Some (String c v)) true)
    with {| currentClasses := [cls StyleClasses.COLORED];
            currentCssVariables := [(String "-" "-styler-text-color", String c v)] |}.
  rewrite reconstructSpan_single.
  unfold emptyWrapperOpening, emptyWrapperHead.
  rewrite !append_assoc. reflexivity.
Qed.

Lemma createStyledSpan_highlight settings c v :
  createStyledSpan settings "" Highlight (Some (String c v)) None
  = emptyWrapperOpening StyleClasses.HIGHLIGHTED HIGHLIGHT_COLOR (String c v)
    ++ "</span>".
Proof.
  unfold createStyledSpan, applyModificationToSegment.
  change (reconcile settings None Highlight (Some (String c v)) true)
    with {| currentClasses := [cls StyleClasses.HIGHLIGHTED];
            currentCssVariables :=
              [(String "-" "-styler-highlight-color", String c v)] |}.
  rewrite reconstructSpan_single.
  unfold emptyWrapperOpening, emptyWrapperHead.
  rewrite !append_assoc. reflexivity.
Qed.

(** The cursor offset: one past the first [>] of the emitted wrapper. *)
Lemma cursor_in_empty_wrapper marker key value :
  indexOf ">"%char (emptyWrapperHead marker key) = (-1)%Z ->
  let opening := emptyWrapperOpening marker key value in
  let offset := (indexOf ">"%char (opening ++ "</span>") + 1)%Z in
  offset
  = (if (0 <=? indexOf ">"%char value)%Z
     then Z.of_nat (String.length (emptyWrapperHead marker key))
          + indexOf ">"%char value + 1
     else Z.of_nat (String.length opening))%Z
  /\ (0 < offset <= Z.of_nat (String.length opening))%Z.
Proof.
  intros Hhead opening offset. subst offset opening.
  unfold emptyWrapperOpening.
  set (head := emptyWrapperHead marker key) in *.
  pose proof (indexOf_bounds ">"%char value) as Hb.
  assert (indexOf ">"%char ((head ++ value ++ ";" ++ DQ ++ ">") ++ "</span>")
          = if (0 <=? indexOf ">"%char value)%Z
            then (Z.of_nat (String.length head) + indexOf ">"%char value)%Z
            else (Z.of_nat (String.length head)
                  + Z.of_nat (String.length value) + 2)%Z) as ->.
  { rewrite !append_assoc.
    rewrite (indexOf_append _ head), Hhead.
    change (0 <=? -1)%Z with false. cbv iota.
    rewrite (indexOf_append _ value).
    destruct (0 <=? indexOf ">"%char value)%Z eqn:E.
    - rewrite E. reflexivity.
    - change (indexOf ">"%char (";" ++ DQ ++ ">" ++ "</span>")) with 2%Z.
      change (0 <=? 2)%Z with true. cbv iota.
      destruct (Z.leb_spec 0 (Z.of_nat (String.length value) + 2)); lia. }
  rewrite !append_length. cbn [String.length DQ].
  destruct (Z.leb_spec 0 (indexOf ">"%char value)); split; lia.
Qed.

(* ===================================================================== *)
(** ** The segmenter *)
(* ===================================================================== *)

(** *** String slices *)

Lemma substringFrom_length n s :
  String.length (substringFrom n s) = String.length s - n.
Proof.
  revert s. induction n as [|n IH]; intros s; simpl.
  - lia.
  - destruct s as [|a s]; simpl; [reflexivity|apply IH].
Qed.

Lemma substringTo_append s t : substringTo (String.length s) (s ++ t) = s.
Proof. induction s as [|a s IH]; simpl; [now destruct t|now rewrite IH]. Qed.

Lemma substringFrom_append s t : substringFrom (String.length s) (s ++ t) = t.
Proof. induction s as [|a s IH]; simpl; [reflexivity|exact IH]. Qed.

Lemma substringFrom_plus n m s :
  substringFrom (n + m) s = substringFrom m (substringFrom n s).
Proof.
  revert s. induction n as [|n IH]; intros s; simpl; [reflexivity|].
  destruct s as [|a s]; [now destruct m|apply IH].
Qed.

Lemma substring_split n s : substringTo n s ++ substringFrom n s = s.
Proof.
  revert s. induction n as [|n IH]; intros s; simpl; [reflexivity|].
  destruct s as [|a s]; simpl; [reflexivity|now rewrite IH].
Qed.

(** *** Leftmost search *)

Lemma search_Some_bound {A} (f : string -> option A) s i a :
  search f s = Some (i, a) ->
  i <= String.length s /\ f (substringFrom i s) = Some a.
Proof.
  revert i. induction s as [|c s IH]; intros i; simpl.
  - destruct (f "") eqn:E; [|discriminate]. intros [= <- <-]. auto.
  - destruct (f (String c s)) eqn:E.
    + intros [= <- <-]. split; [lia|exact E].
    + destruct (search f s) as [[j b]|] eqn:Es; [|discriminate].
      intros [= <- <-]. destruct (IH j eq_refl) as [H1 H2].
      split; [lia|exact H2].
Qed.

Lemma search_ext {A} (f g : string -> option A) s :
  (forall n, f (substringFrom n s) = g (substringFrom n s)) ->
  search f s = search g s.
Proof.
  induction s as [|c s IH]; intros H; pose proof (H 0) as H0;
    cbn [substringFrom] in H0; cbn [search]; rewrite H0.
  - reflexivity.
  - rewrite IH; [reflexivity|]. intros n. apply (H (S n)).
Qed.

(** *** The tag regex *)

Lemma upTo_split c s body :
  upTo c s = Some body ->
  s = body ++ String c (substringFrom (S (String.length body)) s).
Proof.
  revert body. induction s as [|a s IH]; intros body; simpl; [discriminate|].
  destruct (Ascii.eqb a c) eqn:E.
  - intros [= <-]. apply Ascii.eqb_eq in E. now subst a.
  - destruct (upTo c s) as [t|]; [|discriminate].
    intros [= <-]. simpl. f_equal. now apply IH.
Qed.

Lemma substringTo_length n s :
  String.length (substringTo n s) = Nat.min n (String.length s).
Proof.
  revert s. induction n as [|n IH]; intros s; simpl; [reflexivity|].
  destruct s as [|a s]; simpl; [reflexivity|now rewrite IH].
Qed.

Lemma startsWith_ci_length p s :
  startsWith_ci p s = true -> String.length p <= String.length s.
Proof.
  revert s. induction p as [|a p IH]; intros s; simpl; [lia|].
  destruct s as [|b s]; [discriminate|]. simpl.
  intros H. apply andb_true_iff in H as [_ H]. apply IH in H. lia.
Qed.

(** A match of the tag regex is a prefix of the text, at least six
    characters long. *)
Lemma tagRegexAt_prefix s tag :
  tagRegexAt s = Some tag ->
  s = tag ++ substringFrom (String.length tag) s /\ 6 <= String.length tag.
Proof.
  unfold tagRegexAt.
  assert (forall n, n <= String.length s -> 5 <= n ->
            match upTo ">"%char (substringFrom n s) with
            | Some body => Some (substringTo n s ++ body ++ ">")
            | None => None
            end = Some tag ->
            s = tag ++ substringFrom (String.length tag) s
            /\ 6 <= String.length tag) as H.
  { intros n Hn H5. destruct (upTo ">"%char (substringFrom n s)) as [body|] eqn:E;
      [|discriminate].
    intros [= <-]. pose proof (upTo_split _ _ _ E) as Hs.
    rewrite <- substringFrom_plus in Hs.
    rewrite !append_length, substringTo_length. simpl String.length.
    rewrite Nat.min_l by exact Hn.
    split.
    - replace (n + (String.length body + 1))
        with (n + S (String.length body)) by lia.
      rewrite append_assoc.
      change ((body ++ ">") ++ substringFrom (n + S (String.length body)) s)
        with ((body ++ ">") ++ substringFrom (n + S (String.length body)) s).
      rewrite append_assoc. cbn [append].
      rewrite <- Hs. symmetry. apply substring_split.
    - lia. }
  destruct (startsWith_ci "</span" s) eqn:E1.
  - apply H; [now apply startsWith_ci_length in E1|lia].
  - destruct (startsWith_ci "<span" s) eqn:E2; [|discriminate].
    apply H; [now apply startsWith_ci_length in E2|lia].
Qed.

Lemma tagRegexExec_Some s i tag :
  tagRegexExec s = Some (i, tag) ->
  6 <= String.length tag /\ i + String.length tag <= String.length s.
Proof.
  intros H. apply search_Some_bound in H as [Hi H].
  apply tagRegexAt_prefix in H as [Hs H6]. split; [exact H6|].
  apply (f_equal String.length) in Hs.
  rewrite append_length, !substringFrom_length in Hs. lia.
Qed.

(** *** The scanning loop never runs out of fuel

    With at least as much fuel as characters left, the loop ends on its
    own: more fuel gives the same segments. *)

Lemma parseLoop_fuel fuel currentIndex remainingText spanInfo :
  String.length remainingText <= fuel ->
  parseLoop fuel currentIndex remainingText spanInfo
  = parseLoop (String.length remainingText) currentIndex remainingText spanInfo.
Proof.
  remember (String.length remainingText) as n eqn:Hn.
  revert fuel currentIndex remainingText spanInfo Hn.
  induction n as [n IH] using lt_wf_ind.
  intros fuel currentIndex remainingText spanInfo Hn Hle.
  destruct remainingText as [|a rest].
  - subst n. now destruct fuel.
  - destruct n as [|n]; [discriminate|]. destruct fuel as [|fuel]; [lia|].
    cbn [parseLoop].
    destruct (tagRegexExec (String a rest)) as [[i tag]|] eqn:E; [|reflexivity].
    f_equal.
    destruct (tagRegexExec_Some _ _ _ E) as [H6 Hb].
    set (rest' := substringFrom (i + String.length tag) (String a rest)).
    assert (String.length rest' < S n) as Hlt.
    { subst rest'. rewrite substringFrom_length. simpl String.length in *. lia. }
    rewrite (IH (String.length rest') Hlt fuel) by (auto; lia).
    rewrite (IH (String.length rest') Hlt n) by (auto; lia).
    reflexivity.
Qed.

(** *** removeAllStyling as a concatenation *)

Lemma concat_cons (x : string) (xs : list string) :
  String.concat "" (x :: xs) = x ++ String.concat "" xs.
Proof. destruct xs; simpl; [now rewrite append_nil_r|reflexivity]. Qed.

Lemma concat_app (xs ys : list string) :
  String.concat "" (xs ++ ys)%list = String.concat "" xs ++ String.concat "" ys.
Proof.
  induction xs as [|x xs IH]; [reflexivity|].
  cbn [app]. now rewrite !concat_cons, IH, append_assoc.
Qed.

Lemma fold_left_texts (segments : list SelectionSegment) (acc : string) :
  fold_left (fun acc segment => acc ++ text segment) segments acc
  = acc ++ String.concat "" (map text segments).
Proof.
  revert acc. induction segments as [|seg rest IH]; intros acc.
  - simpl. now rewrite append_nil_r.
  - cbn [fold_left map]. rewrite IH, concat_cons. now rewrite append_assoc.
Qed.

Lemma removeAllStylingOn_concat s :
  removeAllStylingOn s = String.concat "" (map text (parseSelection s)).
Proof. unfold removeAllStylingOn. now rewrite fold_left_texts. Qed.

Lemma parseSelection_tag_free s :
  tagRegexExec s = None ->
  parseSelection s
  = match s with
    | EmptyString => []
    | _ => [ {| text := s; start := 0; finish := String.length s; span := None |} ]
    end.
Proof.
  intros H. unfold parseSelection.
  destruct s as [|a s]; [reflexivity|].
  cbn [String.length parseLoop]. now rewrite H.
Qed.

(** *** The two tag patterns *)

Lemma eqb_ci_gt c : eqb_ci c ">"%char = true -> c = ">"%char.
Proof.
  destruct c as [[] [] [] [] [] [] [] []]; vm_compute; intros H;
    solve [discriminate H | reflexivity].
Qed.

Lemma eqb_ci_slash_not_s c :
  eqb_ci c "/"%char = true -> eqb_ci c "s"%char = false.
Proof.
  unfold eqb_ci. intros H. apply Ascii.eqb_eq in H. now rewrite H.
Qed.

Lemma startsWith_ci_app p q s :
  startsWith_ci (p ++ q) s = true -> startsWith_ci p s = true.
Proof.
  revert s. induction p as [|a p IH]; intros s; [reflexivity|].
  cbn [append startsWith_ci]. destruct s as [|b s]; [discriminate|].
  intros H. apply andb_true_iff in H as [H1 H2].
  rewrite H1. now apply IH.
Qed.

Lemma closingTagsExact_suffix n s :
  closingTagsExact s = true -> closingTagsExact (substringFrom n s) = true.
Proof.
  revert s. induction n as [|n IH]; intros s H; [exact H|].
  destruct s as [|a s]; [exact H|].
  cbn [substringFrom]. apply IH.
  cbn [closingTagsExact] in H. now apply andb_true_iff in H as [_ H].
Qed.

Lemma closingTagsExact_head s :
  closingTagsExact s = true ->
  startsWith_ci "</span" s = true -> startsWith_ci "</span>" s = true.
Proof.
  intros H E. destruct s as [|a s]; [discriminate|].
  cbn [closingTagsExact] in H. apply andb_true_iff in H as [H _].
  rewrite E in H. exact H.
Qed.

Lemma tagRegexAt_spanRegexAt s :
  closingTagsExact s = true ->
  tagRegexAt s = RegexStyleManager.spanRegexAt s.
Proof.
  intros Hs. pose proof (closingTagsExact_head s Hs) as H.
  unfold tagRegexAt, RegexStyleManager.spanRegexAt.
  destruct (startsWith_ci "</span" s) eqn:E1.
  - specialize (H eq_refl). rewrite H.
    pose proof (startsWith_ci_length _ _ H) as Hlen.
    destruct s as [|c1 [|c2 [|c3 [|c4 [|c5 [|c6 [|c7 rest]]]]]]];
      try (simpl in Hlen; lia).
    clear Hlen E1. cbn [startsWith_ci] in H.
    repeat (apply andb_true_iff in H as [? H]).
    match goal with Hc : eqb_ci c7 _ = true |- _ =>
      apply eqb_ci_gt in Hc; subst c7 end.
    match goal with Hc : eqb_ci c2 _ = true |- _ =>
      apply eqb_ci_slash_not_s in Hc as Hc' end.
    cbn [startsWith_ci]. rewrite Hc'.
    rewrite andb_false_r. cbn [andb substringFrom upTo Ascii.eqb Bool.eqb substringTo append].
    reflexivity.
  - assert (startsWith_ci "</span>" s = false) as E3.
    { destruct (startsWith_ci "</span>" s) eqn:E; [|reflexivity].
      apply (startsWith_ci_app "</span" ">") in E. congruence. }
    rewrite E3.
    destruct (startsWith_ci "<span" s); [|reflexivity].
    now destruct (upTo ">"%char (substringFrom 5 s)).
Qed.

Lemma tagRegexExec_spanRegex s :
  closingTagsExact s = true ->
  tagRegexExec s = search RegexStyleManager.spanRegexAt s.
Proof.
  intros H. apply search_ext. intros n.
  apply tagRegexAt_spanRegexAt. now apply closingTagsExact_suffix.
Qed.

Lemma concat_parseLoop fuel currentIndex rest spanInfo :
  closingTagsExact rest = true ->
  String.length rest <= fuel ->
  String.concat "" (map text (parseLoop fuel currentIndex rest spanInfo))
  = RegexStyleManager.replaceLoop fuel rest.
Proof.
  revert currentIndex rest spanInfo.
  induction fuel as [|fuel IH]; intros currentIndex rest spanInfo Hc Hle.
  - destruct rest; [reflexivity|simpl in Hle; lia].
  - cbn [parseLoop RegexStyleManager.replaceLoop].
    rewrite <- (tagRegexExec_spanRegex rest Hc).
    destruct rest as [|a rest]; [reflexivity|].
    destruct (tagRegexExec (String a rest)) as [[i tag]|] eqn:E.
    + destruct (tagRegexExec_Some _ _ _ E) as [H6 Hb].
      rewrite map_app, concat_app.
      rewrite IH.
      * f_equal.
        destruct (currentIndex <? currentIndex + i)%nat eqn:Ei.
        -- cbn [map text]. now rewrite concat_cons, append_nil_r.
        -- apply Nat.ltb_ge in Ei. assert (i = 0) as -> by lia. reflexivity.
      * now apply closingTagsExact_suffix.
      * rewrite substringFrom_length. simpl String.length in *. lia.
    + reflexivity.
Qed.

(** *** Text that holds no beginning of a tag *)

Lemma noTagHead_tagRegexAt s : noTagHead s = true -> tagRegexAt s = None.
Proof.
  intros H. unfold tagRegexAt.
  destruct s; cbn [noTagHead] in H; apply andb_true_iff in H as [H _];
    apply negb_true_iff, orb_false_iff in H as [H1 H2]; now rewrite H1, H2.
Qed.

Lemma noTagHead_exec s : noTagHead s = true -> tagRegexExec s = None.
Proof.
  unfold tagRegexExec. induction s as [|a s IH]; intros H.
  - cbn [search]. now rewrite (noTagHead_tagRegexAt "" H).
  - cbn [search]. rewrite (noTagHead_tagRegexAt _ H).
    cbn [noTagHead] in H. apply andb_true_iff in H as [_ H].
    now rewrite (IH H).
Qed.

Lemma startsWith_ci_append_long p s u :
  String.length p <= String.length s ->
  startsWith_ci p (s ++ u) = startsWith_ci p s.
Proof.
  revert s. induction p as [|a p IH]; intros s Hle; [reflexivity|].
  destruct s as [|b s]; [simpl in Hle; lia|].
  cbn [append startsWith_ci]. rewrite IH; [reflexivity|simpl in Hle; lia].
Qed.

Lemma startsWith_ci_append_short p s u :
  startsWith_ci p (s ++ u) = true ->
  startsWith_ci (substringFrom (String.length s) p) u = true.
Proof.
  revert p. induction s as [|b s IH]; intros p H; [exact H|].
  destruct p as [|a p]; [reflexivity|].
  cbn [append startsWith_ci] in H. apply andb_true_iff in H as [_ H].
  cbn [String.length substringFrom]. now apply IH.
Qed.

Lemma head_before_closing_tag a s :
  startsWith_ci "<span" (String a s) = false ->
  startsWith_ci "</span" (String a s) = false ->
  startsWith_ci "<span" (String a s ++ "</span>") = false
  /\ startsWith_ci "</span" (String a s ++ "</span>") = false.
Proof.
  intros H1 H2. split.
  - destruct (startsWith_ci "<span" (String a s ++ "</span>")) eqn:E;
      [|reflexivity].
    destruct (Nat.le_gt_cases (String.length "<span") (String.length (String a s)))
      as [Hle|Hgt].
    + rewrite startsWith_ci_append_long in E by exact Hle. congruence.
    + apply startsWith_ci_append_short in E.
      destruct s as [|? [|? [|? [|? s]]]];
        solve [discriminate E | simpl in Hgt; lia].
  - destruct (startsWith_ci "</span" (String a s ++ "</span>")) eqn:E;
      [|reflexivity].
    destruct (Nat.le_gt_cases (String.length "</span") (String.length (String a s)))
      as [Hle|Hgt].
    + rewrite startsWith_ci_append_long in E by exact Hle. congruence.
    + apply startsWith_ci_append_short in E.
      destruct s as [|? [|? [|? [|? [|? s]]]]];
        solve [discriminate E | simpl in Hgt; lia].
Qed.

Lemma exec_before_closing_tag s :
  noTagHead s = true ->
  tagRegexExec (s ++ "</span>") = Some (String.length s, "</span>").
Proof.
  unfold tagRegexExec. induction s as [|a s IH]; intros H; [reflexivity|].
  cbn [noTagHead] in H. apply andb_true_iff in H as [Hh H].
  apply negb_true_iff, orb_false_iff in Hh as [H1 H2].
  destruct (head_before_closing_tag a s H1 H2) as [H3 H4].
  change (String a s ++ "</span>") with (String a (s ++ "</span>")) in *.
  cbn [search]. unfold tagRegexAt at 1. rewrite H3, H4.
  now rewrite (IH H).
Qed.

Lemma parseLoop_empty fuel currentIndex spanInfo :
  parseLoop fuel currentIndex "" spanInfo = [].
Proof. now destruct fuel. Qed.

Lemma parseLoop_text_then_close fuel currentIndex a s spanInfo :
  noTagHead (String a s) = true ->
  parseLoop (S fuel) currentIndex (String a s ++ "</span>") spanInfo
  = [ {| text := String a s; start := currentIndex;
         finish := currentIndex + String.length (String a s);
         span := spanInfo |} ].
Proof.
  intros H. set (T := String a s) in *.
  cbn [parseLoop].
  assert (T ++ "</span>" = String a (s ++ "</span>")) as Hshape by reflexivity.
  rewrite Hshape at 1. cbv iota. 
  rewrite (exec_before_closing_tag T H).
  assert ((currentIndex <? currentIndex + String.length T)%nat = true) as ->.
  { apply Nat.ltb_lt. subst T. simpl String.length. lia. }
  rewrite substringTo_append.
  rewrite substringFrom_plus, substringFrom_append.
  change (substringFrom (String.length "</span>") "</span>") with "".
  rewrite parseLoop_empty. reflexivity.
Qed.

Lemma parseLoop_opening_tag fuel tagText rest :
  tagRegexAt (tagText ++ rest) = Some tagText ->
  startsWith "</span" tagText = false ->
  parseLoop (S fuel) 0 (tagText ++ rest) None
  = parseLoop fuel (String.length tagText) rest
      (Some {| startTag := tagText; startTagOffset := 0;
               endTagOffset := (-1)%Z;
               classList := extractClasses tagText |}).
Proof.
  intros Hm Hs.
  assert (tagRegexExec (tagText ++ rest) = Some (0, tagText)) as He.
  { unfold tagRegexExec. destruct (tagText ++ rest); cbn [search]; now rewrite Hm. }
  cbn [parseLoop]. rewrite He, Hs.
  destruct (tagText ++ rest) eqn:E.
  - apply tagRegexAt_prefix in Hm as [_ H6].
    apply (f_equal String.length) in E. rewrite append_length in E.
    simpl in E. lia.
  - rewrite <- E. cbn [Nat.add]. rewrite Nat.ltb_irrefl. cbn [app].
    now rewrite substringFrom_append.
Qed.

Lemma parseSelection_wrapped c a s :
  tagRegexAt (wrapWithClass c (String a s))
    = Some ("<span class=" ++ DQ ++ cls c ++ DQ ++ ">") ->
  noTagHead (String a s) = true ->
  let opening := "<span class=" ++ DQ ++ cls c ++ DQ ++ ">" in
  parseSelection (wrapWithClass c (String a s))
  = [ {| text := String a s; start := String.length opening;
         finish := String.length opening + String.length (String a s);
         span := Some {| startTag := opening; startTagOffset := 0;
                         endTagOffset := (-1)%Z;
                         classList := extractClasses opening |} |} ].
Proof.
  intros Hm H opening.
  assert (wrapWithClass c (String a s) = opening ++ (String a s ++ "</span>")) as Hw.
  { unfold wrapWithClass, opening. now rewrite !append_assoc. }
  unfold parseSelection. rewrite Hw in *.
  assert (exists fuel, String.length (opening ++ String a s ++ "</span>") = S (S fuel))
    as [fuel ->].
  { rewrite append_length. unfold opening. rewrite append_length.
    cbn [String.length append]. eexists. rewrite Nat.add_succ_r. cbn [Nat.add].
    reflexivity. }
  rewrite parseLoop_opening_tag; [|exact Hm|reflexivity].
  now rewrite parseLoop_text_then_close.
Qed.

(** *** The regex-based variant never runs out of fuel

    Every match holds a character, so the replacement loop too ends within
    the fuel it is given. *)

Lemma spanRegexAt_nonEmpty s matched :
  RegexStyleManager.spanRegexAt s = Some matched -> 1 <= String.length matched.
Proof.
  unfold RegexStyleManager.spanRegexAt.
  destruct (startsWith_ci "<span" s) eqn:E1.
  - destruct (upTo ">"%char (substringFrom 5 s)) as [body|].
    + intros [= <-]. rewrite !append_length. simpl. lia.
    + destruct (startsWith_ci "</span>" s) eqn:E2; [|discriminate].
      intros [= <-]. apply startsWith_ci_length in E2.
      change (1 <= String.length (substringTo 7 s)).
      rewrite substringTo_length. simpl String.length in E2. lia.
  - destruct (startsWith_ci "</span>" s) eqn:E2; [|discriminate].
    intros [= <-]. apply startsWith_ci_length in E2.
    change (1 <= String.length (substringTo 7 s)).
    rewrite substringTo_length. simpl String.length in E2. lia.
Qed.

Lemma replaceLoop_fuel fuel s :
  String.length s <= fuel ->
  RegexStyleManager.replaceLoop fuel s
  = RegexStyleManager.replaceLoop (String.length s) s.
Proof.
  remember (String.length s) as n eqn:Hn.
  revert fuel s Hn. induction n as [n IH] using lt_wf_ind.
  intros fuel s Hn Hle.
  destruct s as [|a rest].
  - subst n. now destruct fuel.
  - destruct n as [|n]; [discriminate|]. destruct fuel as [|fuel]; [lia|].
    cbn [RegexStyleManager.replaceLoop].
    destruct (search RegexStyleManager.spanRegexAt (String a rest))
      as [[i matched]|] eqn:E; [|reflexivity].
    f_equal.
    pose proof (search_Some_bound _ _ _ _ E) as [_ Hm].
    apply spanRegexAt_nonEmpty in Hm.
    set (rest' := substringFrom (i + String.length matched) (String a rest)).
    assert (String.length rest' < S n) as Hlt.
    { subst rest'. rewrite substringFrom_length. simpl String.length in *. lia. }
    rewrite (IH (String.length rest') Hlt fuel) by (auto; lia).
    rewrite (IH (String.length rest') Hlt n) by (auto; lia).
    reflexivity.
Qed.

(** *** A toggle renders the reconciled runs *)

Lemma fold_left_append {A : Type} (f : A -> string) (xs : list A) (acc : string) :
  fold_left (fun acc x => acc ++ f x) xs acc
  = acc ++ String.concat "" (map f xs).
Proof.
  revert acc. induction xs as [|x rest IH]; intros acc.
  - simpl. now rewrite append_nil_r.
  - cbn [fold_left map]. rewrite IH, concat_cons. now rewrite append_assoc.
Qed.

Lemma toggleStyle_renders settings a s styleType value :
  toggleStyle settings (Some (String a s)) styleType value
  = [ ReplaceRange
        (renderRuns (reconciledRuns settings (String a s) styleType value)) ].
Proof.
  unfold toggleStyle, toggleStyleOn.
  cbn [String.length Nat.eqb andb].
  rewrite fold_left_append. cbn [append].
  unfold renderRuns, reconciledRuns. rewrite map_map. reflexivity.
Qed.

(** *** Run texts without an opening angle bracket *)

Lemma eqb_ci_lt c : eqb_ci c "<"%char = true -> c = "<"%char.
Proof.
  destruct c as [[] [] [] [] [] [] [] []]; vm_compute; intros H;
    solve [discriminate H | reflexivity].
Qed.

Lemma no_angle_noTagHead t :
  indexOf "<"%char t = (-1)%Z -> noTagHead t = true.
Proof.
  induction t as [|a t IH]; intros H; [reflexivity|].
  cbn [indexOf] in H.
  destruct (Ascii.eqb a "<"%char) eqn:Ea; [discriminate|].
  pose proof (indexOf_bounds "<"%char t) as Hb.
  destruct (indexOf "<"%char t <? 0)%Z eqn:El; [|lia].
  assert (indexOf "<"%char t = (-1)%Z) as Ht by lia.
  cbn [noTagHead startsWith_ci].
  destruct (eqb_ci a "<"%char) eqn:Ec.
  - apply eqb_ci_lt in Ec. subst a. discriminate.
  - cbn [andb orb negb]. now apply IH.
Qed.

Lemma indexOf_concat c (xs : list string) :
  forallb (fun x => (indexOf c x <? 0)%Z) xs = true ->
  indexOf c (String.concat "" xs) = (-1)%Z.
Proof.
  induction xs as [|x xs IH]; intros H; [reflexivity|].
  cbn [forallb] in H. apply andb_true_iff in H as [Hx Hxs].
  rewrite concat_cons, indexOf_append, (IH Hxs).
  pose proof (indexOf_bounds c x) as Hb.
  destruct (0 <=? indexOf c x)%Z eqn:E; [lia|reflexivity].
Qed.

(** When no run text holds a [<], the output of remove-all-styling holds no
    tag. *)
Lemma removeAllStylingOn_tag_free s :
  forallb (fun segment => (indexOf "<"%char (text segment) <? 0)%Z)
    (parseSelection s) = true ->
  tagRegexExec (removeAllStylingOn s) = None.
Proof.
  intros H. apply noTagHead_exec, no_angle_noTagHead.
  rewrite removeAllStylingOn_concat. apply indexOf_concat.
  induction (parseSelection s) as [|segment rest IH]; [reflexivity|].
  cbn [map forallb] in *. apply andb_true_iff in H as [H1 H2].
  now rewrite H1, IH.
Qed.

(** *** Selections given by their parts *)

Lemma startsWith_ci_extend p s q :
  startsWith_ci p s = true -> startsWith_ci p (s ++ q) = true.
Proof.
  revert s. induction p as [|a p IH]; intros s; [reflexivity|].
  destruct s as [|b s]; [discriminate|]. cbn [startsWith_ci append].
  intros H. apply andb_true_iff in H as [H1 H2]. now rewrite H1, IH.
Qed.

Lemma substringFrom_extend n s q :
  n <= String.length s ->
  substringFrom n (s ++ q) = substringFrom n s ++ q.
Proof.
  revert s. induction n as [|n IH]; intros s H; [reflexivity|].
  destruct s as [|b s]; [simpl in H; lia|]. cbn [substringFrom append].
  apply IH. simpl in H. lia.
Qed.

Lemma substringTo_extend n s q :
  n <= String.length s ->
  substringTo n (s ++ q) = substringTo n s.
Proof.
  revert s. induction n as [|n IH]; intros s H; [reflexivity|].
  destruct s as [|b s]; [simpl in H; lia|]. cbn [substringTo append].
  f_equal. apply IH. simpl in H. lia.
Qed.

Lemma upTo_extend c s q body :
  upTo c s = Some body -> upTo c (s ++ q) = Some body.
Proof.
  revert body. induction s as [|a s IH]; intros body; [discriminate|].
  cbn [upTo append]. destruct (Ascii.eqb a c); [auto|].
  destruct (upTo c s) as [t|]; [|discriminate].
  intros [= <-]. now rewrite (IH t eq_refl).
Qed.

(** A match of the tag pattern at the start of a text is a match at the
    start of every extension of the text. *)
Lemma tagRegexAt_extend s q tag :
  tagRegexAt s = Some tag -> tagRegexAt (s ++ q) = Some tag.
Proof.
  unfold tagRegexAt.
  destruct (startsWith_ci "</span" s) eqn:E1.
  - rewrite (startsWith_ci_extend _ _ q E1).
    pose proof (startsWith_ci_length _ _ E1) as Hl.
    destruct (upTo ">"%char (substringFrom 6 s)) as [body|] eqn:E; [|discriminate].
    intros [= <-].
    rewrite substringFrom_extend by exact Hl.
    rewrite (upTo_extend _ _ q _ E).
    now rewrite substringTo_extend by exact Hl.
  - destruct (startsWith_ci "<span" s) eqn:E2; [|discriminate].
    pose proof (startsWith_ci_length _ _ E2) as Hl.
    destruct (upTo ">"%char (substringFrom 5 s)) as [body|] eqn:E; [|discriminate].
    intros [= <-].
    assert (startsWith_ci "</span" (s ++ q) = false) as ->.
    { destruct s as [|c s]; [discriminate|].
      cbn [startsWith_ci append] in *.
      destruct (eqb_ci c "<"); [|reflexivity]. cbn [andb] in *.
      destruct s as [|c2 s]; [discriminate|].
      cbn [startsWith_ci append] in *.
      destruct (eqb_ci c2 "/") eqn:Ec; [|reflexivity].
      now rewrite (eqb_ci_slash_not_s _ Ec) in E2. }
    rewrite (startsWith_ci_extend _ _ q E2).
    rewrite substringFrom_extend by exact Hl.
    rewrite (upTo_extend _ _ q _ E).
    now rewrite substringTo_extend by exact Hl.
Qed.

Lemma isTag_match t : isTag t = true -> tagRegexAt t = Some t.
Proof.
  unfold isTag. destruct (tagRegexAt t) as [m|]; [|discriminate].
  intros H. apply String.eqb_eq in H. now subst.
Qed.

Lemma tagRegexAt_angle s tag :
  tagRegexAt s = Some tag -> exists s', s = String "<" s'.
Proof.
  unfold tagRegexAt. intros H.
  assert (startsWith_ci "<" s = true) as Hs.
  { destruct (startsWith_ci "</span" s) eqn:E1.
    - now apply (startsWith_ci_app "<" "/span") in E1.
    - destruct (startsWith_ci "<span" s) eqn:E2; [|discriminate].
      now apply (startsWith_ci_app "<" "span") in E2. }
  destruct s as [|c s]; [discriminate|]. cbn [startsWith_ci] in Hs.
  apply andb_true_iff in Hs as [Hc _]. apply eqb_ci_lt in Hc. subst c.
  now exists s.
Qed.



Lemma assemble_length parts last :
  String.length (bareText parts last) <= String.length (assemble parts last).
Proof.
  induction parts as [|[T tag] parts IH]; cbn [assemble bareText]; [lia|].
  rewrite !append_length. lia.
Qed.




(* ===================================================================== *)
(** ** The underline pair *)
(* ===================================================================== *)

Lemma cleaned_underlineExclusive a : underlineExclusive (cleaned a) = true.
Proof.
  unfold underlineExclusive, declares.
  rewrite cleaned_underline, cleaned_colored_underline,
    cleaned_underline_color, cleaned_underline_thickness.
  destruct (includes (cls StyleClasses.UNDERLINE) (currentClasses a));
    [|reflexivity].
  cbn [orb negb andb]. now rewrite andb_false_r.
Qed.

Lemma reconcile_underlineExclusive settings spanInfo styleType value shouldApply :
  underlineExclusive (reconcile settings spanInfo styleType value shouldApply)
  = true.
Proof. unfold reconcile. apply cleaned_underlineExclusive. Qed.

Lemma reconciledRuns_underlineExclusive settings selectedText styleType value :
  forallb (fun r => underlineExclusive (snd r))
    (reconciledRuns settings selectedText styleType value) = true.
Proof.
  unfold reconciledRuns.
  induction (parseSelection selectedText) as [|segment rest IH] at 2;
    [reflexivity|].
  cbn [map forallb snd]. now rewrite reconcile_underlineExclusive, IH.
Qed.

Lemma apply_colored_underline settings spanInfo c v :
  let r := reconcile settings spanInfo ColoredUnderline (Some (String c v)) true in
  carriesClass StyleClasses.UNDERLINE r = false
  /\ carriesClass StyleClasses.COLORED_UNDERLINE r = true
  /\ Vars.get UNDERLINE_COLOR (currentCssVariables r) = Some (String c v).
Proof.
  intros r. subst r. unfold reconcile.
  fold (cleaned (applyStyle settings ColoredUnderline (Some (String c v))
                   (readAttributes spanInfo))).
  rewrite cleaned_underline, cleaned_colored_underline, cleaned_underline_color.
  cbn [applyStyle truthyValue nonEmpty targetClassOf classMap currentClasses
       currentCssVariables].
  unfold Vars.falsy. autorewrite with attrs.
  change (String.eqb UNDERLINE_THICKNESS UNDERLINE_COLOR) with false.
  change (String.eqb UNDERLINE_COLOR UNDERLINE_COLOR) with true.
  change (String.eqb (cls StyleClasses.UNDERLINE) (cls StyleClasses.UNDERLINE))
    with true.
  change (String.eqb (cls StyleClasses.COLORED_UNDERLINE)
            (cls StyleClasses.UNDERLINE)) with false.
  cbn [negb andb orb nonEmpty]. rewrite !andb_false_r, !andb_true_r.
  rewrite includes_pushed. repeat split.
Qed.

Lemma apply_underline settings spanInfo value :
  let r := reconcile settings spanInfo Underline value true in
  carriesClass StyleClasses.UNDERLINE r = true
  /\ carriesClass StyleClasses.COLORED_UNDERLINE r = false
  /\ declares UNDERLINE_COLOR r = false
  /\ declares UNDERLINE_THICKNESS r = false.
Proof.
  intros r.
  assert (carriesClass StyleClasses.UNDERLINE r = true) as HU.
  { subst r. unfold reconcile.
    fold (cleaned (applyStyle settings Underline value (readAttributes spanInfo))).
    rewrite cleaned_underline.
    rewrite applyStyle_underline_classes, includes_without, includes_pushed.
    reflexivity. }
  pose proof (reconcile_underlineExclusive settings spanInfo Underline value true)
    as H.
  fold r in H. unfold underlineExclusive in H. rewrite HU in H.
  cbn [andb] in H. apply negb_true_iff in H.
  apply orb_false_iff in H as [H H3]. apply orb_false_iff in H as [H1 H2].
  auto.
Qed.

(** C3.  Every wrapper the reconciler emits, for any run, style, value and
    direction, is free of the pair: it never has the plain underline class
    together with the colored-underline class, the underline-color
    declaration or the underline-thickness declaration.  The output of a
    toggle over a non-empty selection is the rendering of such wrappers, one
    per run.  Applying colored-underline with a non-empty value V leaves a
    wrapper with the colored-underline class and color V and without the
    plain underline class; applying plain underline, to that wrapper or to
    any other, leaves the plain underline class and neither the
    colored-underline class nor its color or thickness declaration. *)
Theorem underline_mutual_exclusion :
  forall settings styleType value,
    (forall spanInfo shouldApply,
        underlineExclusive
          (reconcile settings spanInfo styleType value shouldApply) = true)
    /\ (forall a s,
          let runs := reconciledRuns settings (String a s) styleType value in
          toggleStyle settings (Some (String a s)) styleType value
            = [ ReplaceRange (renderRuns runs) ]
          /\ forallb (fun r => underlineExclusive (snd r)) runs = true)
    /\ (forall spanInfo c v,
          let r1 :=
            reconcile settings spanInfo ColoredUnderline (Some (String c v)) true in
          carriesClass StyleClasses.UNDERLINE r1 = false
          /\ carriesClass StyleClasses.COLORED_UNDERLINE r1 = true
          /\ Vars.get UNDERLINE_COLOR (currentCssVariables r1)
             = Some (String c v))
    /\ (forall spanInfo,
          let r2 := reconcile settings spanInfo Underline value true in
          carriesClass StyleClasses.UNDERLINE r2 = true
          /\ carriesClass StyleClasses.COLORED_UNDERLINE r2 = false
          /\ declares UNDERLINE_COLOR r2 = false
          /\ declares UNDERLINE_THICKNESS r2 = false).
Proof.
  intros settings styleType value.
  split; [|split; [|split]].
  - intros spanInfo shouldApply. apply reconcile_underlineExclusive.
  - intros a s runs. split.
    + apply toggleStyle_renders.
    + apply reconciledRuns_underlineExclusive.
  - intros spanInfo c v. apply apply_colored_underline.
  - intros spanInfo. apply apply_underline.
Qed.

(* ===================================================================== *)
(** ** Marker classes and their values *)
(* ===================================================================== *)



(* ===================================================================== *)
(** ** The toggle direction *)
(* ===================================================================== *)

(** C1, as amended.  For bold, italic and strikethrough, whatever the
    value, the decision is shouldApply = NOT (the class of the style is on
    at least one run of the selection); for a request without a value, of
    any kind, it is shouldApply = NOT (the loop of isStyleActiveInSegments
    finds the style on at least one wrapped run).  For the selection made of
    the plain run A and the bold run B, toggle-bold removes bold: the
    selection becomes AB. *)
Theorem boolean_toggle_decision :
  forall segments value styleType,
    decideShouldApply segments Bold value
      = negb (existsb (fun s => spanIncludes (span s) (cls StyleClasses.BOLD))
                segments)
    /\ decideShouldApply segments Italic value
      = negb (existsb (fun s => spanIncludes (span s) (cls StyleClasses.ITALIC))
                segments)
    /\ decideShouldApply segments Strike value
      = negb (existsb (fun s => spanIncludes (span s) (cls StyleClasses.STRIKE))
                segments)
    /\ decideShouldApply segments styleType None
      = negb (existsb (activeOn styleType None) segments)
    /\ (forall settings,
          toggleStyle settings (Some halfBold) Bold None = [ ReplaceRange "AB" ]).
Proof.
  intros segments value styleType.
  assert (forall k c,
            (k = Bold /\ c = StyleClasses.BOLD)
            \/ (k = Italic /\ c = StyleClasses.ITALIC)
            \/ (k = Strike /\ c = StyleClasses.STRIKE) ->
            decideShouldApply segments k value
            = negb (existsb (fun s => spanIncludes (span s) (cls c)) segments))
    as H.
  { intros k c Hk.
    assert (decideShouldApply segments k value
            = negb (isStyleActiveInSegments segments k value)) as ->.
    { unfold decideShouldApply. now destruct Hk as [[-> _]|[[-> _]|[-> _]]]. }
    rewrite isStyleActiveInSegments_existsb. f_equal.
    induction segments as [|s rest IH]; [reflexivity|].
    cbn [existsb]. rewrite IH. f_equal.
    unfold activeOn, spanIncludes. destruct (span s) as [sp|]; [|reflexivity].
    now destruct Hk as [[-> ->]|[[-> ->]|[-> ->]]]. }
  split; [|split; [|split; [|split]]].
  - apply H; auto.
  - apply H; auto.
  - apply H; auto.
  - unfold decideShouldApply.
    rewrite isStyleActiveInSegments_existsb. now destruct (isValueStyle styleType).
  - intros settings. vm_compute. reflexivity.
Qed.

(** C1 as stated fails: in the selection made of the plain run A and the
    bold run B, bold is not on every run that has text, so the claim gives
    shouldApply = true and bold on both runs; the code decides false and
    emits AB. *)
Lemma partial_bold_is_removed :
  let segments := parseSelection halfBold in
  forallb (fun s => negb (nonEmpty (text s))
                    || spanIncludes (span s) (cls StyleClasses.BOLD)) segments
    = false
  /\ decideShouldApply segments Bold None = false
  /\ toggleStyle settings0 (Some halfBold) Bold None = [ ReplaceRange "AB" ].
Proof. vm_compute. repeat split. Qed.

(** C2, as amended.  For a value-bearing kind requested with a non-empty
    value, shouldApply is false exactly when at least one run holds the
    requested value in its slot (letter case apart) and no run conflicts,
    a run conflicting when its slot holds another value or when it has the
    marker class and no slot.  Runs with neither slot nor marker class,
    plain text among them, have no say. *)
Theorem value_toggle_decision :
  forall segments styleType c v,
    isValueStyle styleType = true ->
    decideShouldApply segments styleType (Some (String c v))
    = negb (existsb (sameValueOn styleType (String c v)) segments
            && negb (existsb (conflictsOn styleType (String c v)) segments)).
Proof.
  intros segments styleType c v Hk.
  unfold decideShouldApply. rewrite Hk. cbn [truthyValue nonEmpty].
  destruct (fold_checkSegment_flags styleType (String c v) segments Hk noFlags)
    as [H1 H2].
  rewrite H1, H2. cbn [noFlags isSameValueActive hasDifferentValue orb].
  now destruct (existsb _ _ && negb _).
Qed.

Lemma value_toggle_decision_witness :
  isValueStyle Color = true
  /\ decideShouldApply (parseSelection ("A" ++ redX)) Color (Some "#FF0000")
     = negb (existsb (sameValueOn Color "#FF0000") (parseSelection ("A" ++ redX))
             && negb (existsb (conflictsOn Color "#FF0000")
                        (parseSelection ("A" ++ redX)))).
Proof.
  split; [reflexivity|].
  apply (value_toggle_decision (parseSelection ("A" ++ redX)) Color "#" "FF0000").
  reflexivity.
Defined.

(** C2 as stated fails: in the selection made of the plain run A and the
    run X colored #ff0000, the slot is absent on the run A, so the claim
    gives shouldApply = true for the request of #ff0000; the code decides
    false and emits AX. *)
Lemma unstyled_run_is_ignored :
  let segments := parseSelection ("A" ++ redX) in
  existsb (fun s => nonEmpty (text s) && negb (isSome (slotOf Color s))) segments
    = true
  /\ decideShouldApply segments Color (Some "#ff0000") = false
  /\ toggleStyle settings0 (Some ("A" ++ redX)) Color (Some "#ff0000")
     = [ ReplaceRange "AX" ].
Proof. vm_compute. repeat split. Qed.

(* ===================================================================== *)
(** ** The empty selection *)
(* ===================================================================== *)

(** C6, as amended.  On a zero-length selection, a text-color or highlight
    request with a non-empty value replaces the range by one wrapper with
    empty text, the marker class and the declaration of that value, and
    sets the cursor one past the first [>] of that wrapper: a position
    after the start of the opening tag and not beyond its end, which is the
    end of the opening tag when the value holds no [>].  A request of any
    other kind, with any value, only shows the selection-required notice
    and leaves the range as it was. *)
Theorem zero_length_selection :
  forall settings c v styleType value,
    let V := String c v in
    let colorOpening := emptyWrapperOpening StyleClasses.COLORED TEXT_COLOR V in
    let highlightOpening :=
      emptyWrapperOpening StyleClasses.HIGHLIGHTED HIGHLIGHT_COLOR V in
    toggleStyle settings (Some "") Color (Some V)
      = [ ReplaceRange (colorOpening ++ "</span>");
          SetCursor (insertionCursor StyleClasses.COLORED TEXT_COLOR V) ]
    /\ toggleStyle settings (Some "") Highlight (Some V)
      = [ ReplaceRange (highlightOpening ++ "</span>");
          SetCursor (insertionCursor StyleClasses.HIGHLIGHTED HIGHLIGHT_COLOR V) ]
    /\ (0 < insertionCursor StyleClasses.COLORED TEXT_COLOR V
          <= Z.of_nat (String.length colorOpening))%Z
    /\ (0 < insertionCursor StyleClasses.HIGHLIGHTED HIGHLIGHT_COLOR V
          <= Z.of_nat (String.length highlightOpening))%Z
    /\ match styleType with
       | Color | Highlight => True
       | _ =>
           toggleStyle settings (Some "") styleType value
             = [ ShowNotice selectionRequired ]
           /\ rangeAfter "" (toggleStyle settings (Some "") styleType value) = ""
       end.
Proof.
  intros settings c v styleType value V colorOpening highlightOpening.
  subst colorOpening highlightOpening V.
  destruct (cursor_in_empty_wrapper StyleClasses.COLORED TEXT_COLOR
              (String c v) eq_refl) as [Hc1 Hc2].
  destruct (cursor_in_empty_wrapper StyleClasses.HIGHLIGHTED HIGHLIGHT_COLOR
              (String c v) eq_refl) as [Hh1 Hh2].
  fold (insertionCursor StyleClasses.COLORED TEXT_COLOR (String c v)) in Hc1.
  fold (insertionCursor StyleClasses.HIGHLIGHTED HIGHLIGHT_COLOR (String c v))
    in Hh1.
  split; [|split; [|split; [|split]]].
  - unfold toggleStyle, toggleStyleOn.
    cbn [String.length Nat.eqb isColorOrHighlight truthy nonEmpty andb].
    rewrite createStyledSpan_color. now rewrite Hc1.
  - unfold toggleStyle, toggleStyleOn.
    cbn [String.length Nat.eqb isColorOrHighlight truthy nonEmpty andb].
    rewrite createStyledSpan_highlight. now rewrite Hh1.
  - rewrite <- Hc1. exact Hc2.
  - rewrite <- Hh1. exact Hh2.
  - destruct styleType; try exact I; split; reflexivity.
Qed.

(** C6 as stated fails: the empty string is a value that is not null, and
    a text-color or highlight request with it on a zero-length selection
    emits no wrapper and sets no cursor; it replaces the empty range by the
    empty string. *)
Lemma empty_value_inserts_nothing :
  toggleStyle settings0 (Some "") Color (Some "") = [ ReplaceRange "" ]
  /\ toggleStyle settings0 (Some "") Highlight (Some "") = [ ReplaceRange "" ].
Proof. split; reflexivity. Qed.

(* ===================================================================== *)
(** ** Replace or remove a text color *)
(* ===================================================================== *)

(** C7.  On the selection made of X inside a wrapper whose style is
    [--styler-text-color: #ff0000;], requesting the text color #ff0000
    yields exactly X, and requesting #00ff00 yields X inside a wrapper whose
    text-color declaration is #00ff00. *)
Theorem text_color_replace_or_remove :
  forall settings,
    toggleStyle settings (Some redX) Color (Some "#ff0000") = [ ReplaceRange "X" ]
    /\ toggleStyle settings (Some redX) Color (Some "#00ff00")
       = [ ReplaceRange
             ("<span class=" ++ DQ ++ "styler-colored" ++ DQ ++ " style=" ++ DQ
              ++ "--styler-text-color: #00ff00;" ++ DQ ++ ">X</span>") ].
Proof. intros settings. split; vm_compute; reflexivity. Qed.

(* ===================================================================== *)
(** ** Toggling twice *)
(* ===================================================================== *)

(** C8, as amended.  For bold, italic and strikethrough and every
    non-empty text in which no place begins with [<span] or [</span] (in
    any letter case), the toggle wraps the text in a wrapper with the class
    of the style, and the same toggle on that result gives the text
    back. *)
Theorem boolean_toggle_round_trip :
  forall settings styleType T,
    isBooleanStyle styleType = true ->
    nonEmpty T = true ->
    noTagHead T = true ->
    let wrapped := wrapWithClass (classNameOf styleType) T in
    toggleStyle settings (Some T) styleType None = [ ReplaceRange wrapped ]
    /\ toggleStyle settings (Some wrapped) styleType None = [ ReplaceRange T ].
Proof.
  intros settings styleType T Hk Hne Hfree wrapped. subst wrapped.
  destruct T as [|a s]; [discriminate|]. clear Hne.
  split.
  - unfold toggleStyle, toggleStyleOn.
    cbn [String.length Nat.eqb andb].
    rewrite (parseSelection_tag_free _ (noTagHead_exec _ Hfree)).
    destruct styleType; try discriminate; reflexivity.
  - unfold toggleStyle, toggleStyleOn.
    assert ((String.length (wrapWithClass (classNameOf styleType) (String a s))
             =? 0)%nat = false) as -> by reflexivity.
    cbn [andb].
    rewrite parseSelection_wrapped;
      [|destruct styleType; try discriminate; reflexivity|exact Hfree].
    destruct styleType; try discriminate; reflexivity.
Qed.

Lemma boolean_toggle_round_trip_witness :
  isBooleanStyle Italic = true
  /\ nonEmpty "a < b" = true
  /\ noTagHead "a < b" = true
  /\ toggleStyle settings0 (Some "a < b") Italic None
     = [ ReplaceRange (wrapWithClass StyleClasses.ITALIC "a < b") ]
  /\ toggleStyle settings0 (Some (wrapWithClass StyleClasses.ITALIC "a < b"))
       Italic None
     = [ ReplaceRange "a < b" ].
Proof.
  split; [reflexivity|]. split; [reflexivity|]. split; [reflexivity|].
  apply (boolean_toggle_round_trip settings0 Italic "a < b"); reflexivity.
Defined.

(** C8 as stated fails: the text [a<span] holds no wrapper tag (the tag
    pattern needs a closing [>]), yet toggling bold twice gives [a]: in the
    wrapped text the cut tag and the closing tag of the wrapper read as one
    tag. *)
Lemma cut_tag_is_swallowed :
  tagRegexExec "a<span" = None
  /\ toggleStyle settings0 (Some "a<span") Bold None
     = [ ReplaceRange (wrapWithClass StyleClasses.BOLD "a<span") ]
  /\ toggleStyle settings0 (Some (wrapWithClass StyleClasses.BOLD "a<span"))
       Bold None
     = [ ReplaceRange "a" ].
Proof. repeat split. Qed.

(* ===================================================================== *)
(** ** Remove all styling *)
(* ===================================================================== *)




(** C10, as amended.  The regex-based and the segmenter-based
    remove-all-styling give the same text for every selection in which each
    [</span] (in any letter case) is directly followed by [>] and which is
    not made of tags only. *)
Theorem removeAllStyling_variants_agree :
  forall s,
    closingTagsExact s = true ->
    tagsOnly s = false ->
    removeAllStylingOn s = RegexStyleManager.removeAllStylingOn s.
Proof.
  intros s Hc Ht.
  rewrite removeAllStylingOn_concat. unfold RegexStyleManager.removeAllStylingOn.
  rewrite <- (concat_parseLoop (String.length s) 0 s None Hc (Nat.le_refl _)).
  unfold parseSelection, tagsOnly in *.
  destruct (parseLoop (String.length s) 0 s None) as [|seg segs] eqn:E;
    [|reflexivity].
  rewrite andb_true_r in Ht. destruct s; [reflexivity|discriminate].
Qed.

Lemma removeAllStyling_variants_agree_witness :
  closingTagsExact nestedSpans = true
  /\ tagsOnly nestedSpans = false
  /\ removeAllStylingOn nestedSpans
     = RegexStyleManager.removeAllStylingOn nestedSpans.
Proof.
  split; [reflexivity|]. split; [reflexivity|].
  apply removeAllStyling_variants_agree; reflexivity.
Defined.

(** C10 as stated fails: a closing tag that carries more than its name,
    as in [a</span x>b], is a tag for the segmenter and plain text for the
    regex of the other variant. *)
Lemma closing_tag_with_attributes :
  removeAllStylingOn "a</span x>b" = "ab"
  /\ RegexStyleManager.removeAllStylingOn "a</span x>b" = "a</span x>b"
  /\ removeAllStylingOn "a</span x>b"
     <> RegexStyleManager.removeAllStylingOn "a</span x>b".
Proof. repeat split. discriminate. Qed.

(* ===================================================================== *)
(** ** The segmenter: slices, order and tag-free runs *)
(* ===================================================================== *)

Lemma substringTo_all s : substringTo (String.length s) s = s.
Proof. induction s; simpl; congruence. Qed.

Lemma inOrderFrom_weaken a b segments :
  b <= a -> inOrderFrom a segments = true -> inOrderFrom b segments = true.
Proof.
  destruct segments as [|seg rest]; [reflexivity|]. cbn [inOrderFrom].
  intros Hba H. apply andb_true_iff in H as [H H3].
  apply andb_true_iff in H as [H1 H2].
  apply Nat.leb_le in H1. rewrite H2, H3.
  assert ((b <=? start seg)%nat = true) as -> by (apply Nat.leb_le; lia).
  reflexivity.
Qed.

Lemma parseLoop_slices s fuel :
  forall currentIndex spanInfo,
    currentIndex <= String.length s ->
    let segments :=
      parseLoop fuel currentIndex (substringFrom currentIndex s) spanInfo in
    Forall (isSliceOf s) segments
    /\ inOrderFrom currentIndex segments = true.
Proof.
  induction fuel as [|fuel IH]; intros idx sp Hidx; cbn zeta; [now split|].
  cbn [parseLoop].
  destruct (substringFrom idx s) as [|a rest] eqn:Erest; [now split|].
  rewrite <- Erest.
  assert (String.length (substringFrom idx s) = String.length s - idx) as Hlen
    by apply substringFrom_length.
  assert (0 < String.length (substringFrom idx s)) as Hpos
    by (rewrite Erest; simpl; lia).
  destruct (tagRegexExec (substringFrom idx s)) as [[i tag]|] eqn:E.
  - destruct (tagRegexExec_Some _ _ _ E) as [H6 Hb].
    rewrite <- substringFrom_plus.
    assert (idx + i + String.length tag <= String.length s) as Hnext by lia.
    replace (idx + (i + String.length tag)) with (idx + i + String.length tag)
      by lia.
    destruct (IH (idx + i + String.length tag)
                (if startsWith "</span" tag then None
                 else Some {| startTag := tag; startTagOffset := idx + i;
                              endTagOffset := (-1)%Z;
                              classList := extractClasses tag |}) Hnext)
      as [IH1 IH2].
    destruct (idx <? idx + i)%nat eqn:Ei.
    + apply Nat.ltb_lt in Ei. split.
      * cbn [app]. constructor; [|exact IH1].
        split; cbn [finish start text]; [lia|].
        unfold slice. now replace (idx + i - idx) with i by lia.
      * cbn [app inOrderFrom start finish].
        rewrite Nat.leb_refl. cbn [andb].
        assert ((idx <? idx + i)%nat = true) as -> by (apply Nat.ltb_lt; lia).
        cbn [andb].
        apply (inOrderFrom_weaken (idx + i + String.length tag)); [lia|exact IH2].
    + cbn [app]. split; [exact IH1|].
      apply (inOrderFrom_weaken (idx + i + String.length tag)); [lia|exact IH2].
  - split.
    + constructor; [|constructor]. split; cbn [finish start text]; [lia|].
      unfold slice.
      replace (idx + String.length (substringFrom idx s) - idx)
        with (String.length (substringFrom idx s)) by lia.
      symmetry. apply substringTo_all.
    + cbn [inOrderFrom start finish]. rewrite Nat.leb_refl.
      assert ((idx <? idx + String.length (substringFrom idx s))%nat = true)
        as -> by (apply Nat.ltb_lt; lia).
      reflexivity.
Qed.

(** X1.  The runs [parseSelection] returns, for any selection, are cut out
    of the selection: the two offsets of a run lie inside the selection and
    its text is the part of the selection between them; no run is empty;
    the runs come in the order of the text and do not overlap. *)
Theorem segments_are_ordered_slices :
  forall s,
    Forall (isSliceOf s) (parseSelection s)
    /\ inOrderFrom 0 (parseSelection s) = true.
Proof.
  intros s. unfold parseSelection.
  pose proof (parseLoop_slices s (String.length s) 0 None (Nat.le_0_l _)) as H.
  cbn zeta in H. cbn [substringFrom] in H.
  destruct (parseLoop (String.length s) 0 s None) as [|seg rest] eqn:E.
  - destruct (0 <? String.length s)%nat eqn:E0; [|now split].
    split.
    + constructor; [|constructor]. split; cbn [finish start text]; [lia|].
      unfold slice. cbn [substringFrom]. rewrite Nat.sub_0_r.
      symmetry. apply substringTo_all.
    + cbn [inOrderFrom start finish]. now rewrite E0.
  - exact H.
Qed.

(** *** Leftmost *)

Lemma search_leftmost {A} (f : string -> option A) s i a :
  search f s = Some (i, a) ->
  forall j, j < i -> f (substringFrom j s) = None.
Proof.
  revert i. induction s as [|c s IH]; intros i; cbn [search].
  - destruct (f "") eqn:E; [|discriminate]. intros [= <- <-] j Hj. lia.
  - destruct (f (String c s)) eqn:E.
    + intros [= <- <-] j Hj. lia.
    + destruct (search f s) as [[k b]|] eqn:Es; [|discriminate].
      intros [= <- <-] j Hj. destruct j as [|j]; [exact E|].
      cbn [substringFrom]. apply (IH k eq_refl). lia.
Qed.

Lemma substringFrom_substringTo j i s :
  j <= i ->
  substringFrom j (substringTo i s) ++ substringFrom i s = substringFrom j s.
Proof.
  revert i s. induction j as [|j IH]; intros i s H.
  - cbn [substringFrom]. apply substring_split.
  - destruct i as [|i]; [lia|]. destruct s as [|c s]; [reflexivity|].
    cbn [substringFrom substringTo]. apply IH. lia.
Qed.

(** The text before the leftmost tag holds no tag. *)
Lemma tagFree_before_match s i tag :
  tagRegexExec s = Some (i, tag) -> tagFree (substringTo i s) = true.
Proof.
  intros E. unfold tagFree.
  destruct (tagRegexExec (substringTo i s)) as [[j t]|] eqn:Ej; [|reflexivity].
  exfalso.
  destruct (tagRegexExec_Some _ _ _ Ej) as [H6 Hb].
  rewrite substringTo_length in Hb.
  apply search_Some_bound in Ej as [_ Ej].
  apply (tagRegexAt_extend _ (substringFrom i s)) in Ej.
  rewrite substringFrom_substringTo in Ej by lia.
  unfold tagRegexExec in E.
  rewrite (search_leftmost _ _ _ _ E j) in Ej by lia. discriminate.
Qed.

Lemma parseLoop_tagFree fuel :
  forall currentIndex remainingText spanInfo,
    forallb (fun segment => tagFree (text segment))
      (parseLoop fuel currentIndex remainingText spanInfo) = true.
Proof.
  induction fuel as [|fuel IH]; intros idx rest sp; [reflexivity|].
  cbn [parseLoop]. destruct rest as [|a rest]; [reflexivity|].
  destruct (tagRegexExec (String a rest)) as [[i tag]|] eqn:E.
  - rewrite forallb_app, IH, andb_true_r.
    destruct (idx <? idx + i)%nat; [|reflexivity].
    cbn [forallb text]. now rewrite (tagFree_before_match _ _ _ E).
  - cbn [forallb text]. unfold tagFree. now rewrite E.
Qed.

(** X2.  No run text holds a wrapper tag: the segmenter never leaves a
    complete opening or closing tag inside a run.  The one exception is a
    selection made of tags only, which comes back whole as its single
    run. *)
Theorem run_texts_hold_no_tag :
  forall s,
    forallb (fun segment => tagFree (text segment)) (parseSelection s)
    = negb (tagsOnly s).
Proof.
  intros s. unfold parseSelection, tagsOnly.
  pose proof (parseLoop_tagFree (String.length s) 0 s None) as H.
  destruct (parseLoop (String.length s) 0 s None) as [|seg rest] eqn:E.
  - destruct s as [|a s]; [reflexivity|].
    cbn [String.length Nat.ltb Nat.leb nonEmpty andb negb forallb text].
    cbn [String.length parseLoop] in E.
    unfold tagFree.
    destruct (tagRegexExec (String a s)) as [[i tag]|]; [reflexivity|discriminate].
  - rewrite H. now rewrite andb_false_r.
Qed.

(* ===================================================================== *)
(** ** Class tokens *)
(* ===================================================================== *)

Lemma lacks_cons c a s :
  lacks c (String a s) = negb (Ascii.eqb a c) && lacks c s.
Proof.
  unfold lacks. cbn [indexOf]. destruct (Ascii.eqb a c); [reflexivity|].
  cbn [negb andb]. pose proof (indexOf_bounds c s) as H.
  destruct (indexOf c s <? 0)%Z eqn:E; [reflexivity|].
  apply Z.ltb_ge in E. apply Z.ltb_ge. lia.
Qed.

Lemma lacks_nil c : lacks c "" = true.
Proof. reflexivity. Qed.

Lemma lacks_append c s t : lacks c (s ++ t) = lacks c s && lacks c t.
Proof.
  induction s as [|a s IH]; [reflexivity|].
  cbn [append]. rewrite !lacks_cons, IH. now rewrite andb_assoc.
Qed.

Lemma upTo_lacks c s t : upTo c s = Some t -> lacks c t = true.
Proof.
  revert t. induction s as [|a s IH]; intros t; [discriminate|].
  cbn [upTo]. destruct (Ascii.eqb a c) eqn:E.
  - now intros [= <-].
  - destruct (upTo c s) as [u|]; [|discriminate].
    intros [= <-]. rewrite lacks_cons, E. now apply IH.
Qed.

Lemma upTo_append c s t :
  lacks c s = true -> upTo c (s ++ String c t) = Some s.
Proof.
  induction s as [|a s IH]; intros H.
  - cbn [append upTo]. now rewrite Ascii.eqb_refl.
  - rewrite lacks_cons in H. apply andb_true_iff in H as [H1 H2].
    cbn [append upTo]. apply negb_true_iff in H1. rewrite H1.
    now rewrite IH.
Qed.

Lemma split_lacks_sep sep s : forallb (lacks sep) (split sep s) = true.
Proof.
  induction s as [|a s IH]; [reflexivity|].
  cbn [split]. destruct (Ascii.eqb a sep) eqn:E.
  - cbn [forallb]. now rewrite IH.
  - destruct (split sep s) as [|x xs]; cbn [forallb] in *.
    + now rewrite lacks_cons, E.
    + now rewrite lacks_cons, E.
Qed.

Lemma split_lacks c sep s :
  lacks c s = true -> forallb (lacks c) (split sep s) = true.
Proof.
  induction s as [|a s IH]; [reflexivity|].
  rewrite lacks_cons. intros H. apply andb_true_iff in H as [H1 H2].
  specialize (IH H2).
  cbn [split]. destruct (Ascii.eqb a sep).
  - cbn [forallb]. now rewrite IH.
  - destruct (split sep s) as [|x xs]; cbn [forallb] in *.
    + now rewrite lacks_cons, H1.
    + now rewrite lacks_cons, H1.
Qed.

Lemma forallb_filtered {A} (p q : A -> bool) l :
  forallb p l = true -> forallb p (filter q l) = true.
Proof.
  induction l as [|a l IH]; [reflexivity|]. cbn [forallb filter].
  intros H. apply andb_true_iff in H as [H1 H2].
  destruct (q a); cbn [forallb]; [rewrite H1|]; auto.
Qed.

Lemma forallb_filter_self {A} (p : A -> bool) l :
  forallb p (filter p l) = true.
Proof.
  induction l as [|a l IH]; [reflexivity|]. cbn [filter].
  destruct (p a) eqn:E; cbn [forallb]; [rewrite E|]; auto.
Qed.

Lemma forallb_both {A} (p q : A -> bool) l :
  forallb (fun x => p x && q x) l = forallb p l && forallb q l.
Proof.
  induction l as [|a l IH]; [reflexivity|]. cbn [forallb]. rewrite IH.
  destruct (p a), (q a), (forallb p l), (forallb q l); reflexivity.
Qed.

(** X3.  Every class token [extractClasses] returns, for any tag, is not
    empty and holds neither a space nor a double quote. *)
Theorem class_tokens_are_clean :
  forall tag, forallb cleanToken (extractClasses tag) = true.
Proof.
  intros tag. unfold extractClasses.
  destruct (search classRegexAt tag) as [[i captured]|] eqn:E; [|reflexivity].
  destruct (nonEmpty captured); [|reflexivity].
  apply search_Some_bound in E as [_ E]. unfold classRegexAt in E.
  destruct (startsWith_ci ("class=" ++ DQ) (substringFrom i tag)); [|discriminate].
  apply upTo_lacks in E.
  unfold cleanToken.
  rewrite !forallb_both. rewrite forallb_filter_self.
  rewrite (forallb_filtered _ _ _ (split_lacks_sep " " captured)).
  now rewrite (forallb_filtered _ _ _ (split_lacks dquote " " captured E)).
Qed.

(** *** Reading the class attribute back *)

Lemma search_found {A} (f : string -> option A) s i a :
  (forall j, j < i -> f (substringFrom j s) = None) ->
  i <= String.length s ->
  f (substringFrom i s) = Some a ->
  search f s = Some (i, a).
Proof.
  revert s. induction i as [|i IH]; intros s Hn Hi Hf.
  - cbn [substringFrom] in Hf. destruct s; cbn [search]; now rewrite Hf.
  - destruct s as [|c s]; [simpl in Hi; lia|].
    cbn [search]. pose proof (Hn 0 ltac:(lia)) as H0.
    cbn [substringFrom] in H0. rewrite H0.
    rewrite (IH s); [reflexivity| |simpl in Hi; lia|exact Hf].
    intros j Hj. apply (Hn (S j)). lia.
Qed.

Lemma split_append sep p q :
  lacks sep p = true ->
  split sep (p ++ String sep q) = p :: split sep q.
Proof.
  induction p as [|a p IH]; intros H.
  - cbn [append split]. now rewrite Ascii.eqb_refl.
  - rewrite lacks_cons in H. apply andb_true_iff in H as [H1 H2].
    apply negb_true_iff in H1.
    cbn [append split]. now rewrite H1, IH.
Qed.

Lemma split_lacking sep p : lacks sep p = true -> split sep p = [p].
Proof.
  induction p as [|a p IH]; intros H; [reflexivity|].
  rewrite lacks_cons in H. apply andb_true_iff in H as [H1 H2].
  apply negb_true_iff in H1. cbn [split]. now rewrite H1, IH.
Qed.

(** Splitting what [join] made at the separator gives the pieces back. *)
Lemma split_join sep x xs :
  forallb (lacks sep) (x :: xs) = true ->
  split sep (join (String sep "") (x :: xs)) = x :: xs.
Proof.
  revert x. induction xs as [|y ys IH]; intros x H.
  - cbn [join]. apply split_lacking. cbn [forallb] in H.
    now apply andb_true_iff in H as [H _].
  - cbn [forallb] in H. apply andb_true_iff in H as [H1 H2].
    change (join (String sep "") (x :: y :: ys))
      with (x ++ String sep "" ++ join (String sep "") (y :: ys)).
    cbn [append]. rewrite split_append by exact H1. f_equal. now apply IH.
Qed.

Lemma filter_keeps_all {A} (p : A -> bool) l :
  forallb p l = true -> filter p l = l.
Proof.
  induction l as [|a l IH]; [reflexivity|]. cbn [forallb filter].
  intros H. apply andb_true_iff in H as [H1 H2]. now rewrite H1, IH.
Qed.

Lemma lacks_join c sep xs :
  lacks c sep = true -> forallb (lacks c) xs = true ->
  lacks c (join sep xs) = true.
Proof.
  intros Hs. induction xs as [|x xs IH]; [reflexivity|].
  cbn [forallb]. intros H. apply andb_true_iff in H as [H1 H2].
  destruct xs as [|y ys]; [exact H1|].
  change (join sep (x :: y :: ys)) with (x ++ sep ++ join sep (y :: ys)).
  now rewrite !lacks_append, H1, Hs, IH.
Qed.

Lemma nonEmpty_join sep x xs :
  nonEmpty x = true -> nonEmpty (join sep (x :: xs)) = true.
Proof.
  destruct x as [|a x]; [discriminate|]. now destruct xs.
Qed.

(** X4.  The classes read back from an emitted wrapper are the classes
    that were emitted, in the same order, whenever there is at least one
    and none of them holds a space or a double quote; the text and the
    declarations of the wrapper do not matter. *)
Theorem class_attribute_round_trip :
  forall text a,
    emittedClasses a <> [] ->
    forallb cleanToken (emittedClasses a) = true ->
    extractClasses (reconstructSpan text a) = emittedClasses a.
Proof.
  intros text a Hne Hclean. unfold reconstructSpan.
  fold (emittedClasses a).
  destruct (emittedClasses a) as [|x xs] eqn:Ecs; [contradiction|]. clear Hne.
  cbn [List.length Nat.ltb Nat.leb orb].
  match goal with
  | |- context [?r ++ ">"] => set (rest := r ++ ">")
  end.
  unfold cleanToken in Hclean. rewrite !forallb_both in Hclean.
  apply andb_true_iff in Hclean as [Hclean Hq].
  apply andb_true_iff in Hclean as [Hn Hsp].
  set (J := join " " (x :: xs)).
  assert (lacks dquote J = true) as HJ by (now apply lacks_join).
  assert (nonEmpty J = true) as HJn.
  { apply nonEmpty_join. cbn [forallb] in Hn.
    now apply andb_true_iff in Hn as [Hn _]. }
  assert (search classRegexAt
            (("<span" ++ (" class=" ++ DQ ++ J ++ DQ) ++ rest) ++ text ++ "</span>")
          = Some (6, J)) as Hs.
  { apply search_found.
    - intros j Hj. do 6 (destruct j as [|j]; [reflexivity|]). lia.
    - cbn [append String.length]. lia.
    - cbn [append substringFrom DQ]. unfold classRegexAt.
      cbn [append DQ startsWith_ci]. 
      assert (forall c, eqb_ci c c = true) as Hr
        by (intros c; unfold eqb_ci; apply Ascii.eqb_refl).
      rewrite !Hr. cbn [andb substringFrom].
      rewrite !append_assoc. cbn [append]. now apply upTo_append. }
  unfold extractClasses. rewrite Hs, HJn.
  subst J. rewrite (split_join " " x xs Hsp). now apply filter_keeps_all.
Qed.

Lemma class_attribute_round_trip_witness :
  extractClasses (reconstructSpan "x"
     {| currentClasses := ["styler-bold"; "my-class"; "styler-bold"; ""];
        currentCssVariables := [("--styler-text-color", "red")] |})
  = ["styler-bold"; "my-class"].
Proof.
  apply (class_attribute_round_trip "x"
     {| currentClasses := ["styler-bold"; "my-class"; "styler-bold"; ""];
        currentCssVariables := [("--styler-text-color", "red")] |});
    [discriminate|reflexivity].
Defined.

(* ===================================================================== *)
(** ** What a toggle reads and what it leaves *)
(* ===================================================================== *)

(** *** The decision looks at wrapped runs only *)

Lemma checkSegment_unwrapped styleType v f segment :
  span segment = None -> checkSegment styleType v f segment = f.
Proof.
  intros H. unfold checkSegment. rewrite H. cbn.
  now destruct (markerClassOf styleType).
Qed.

Lemma fold_checkSegment_wrapped styleType v segments :
  forall f,
    fold_left (checkSegment styleType v) (filter wrapped segments) f
    = fold_left (checkSegment styleType v) segments f.
Proof.
  induction segments as [|seg rest IH]; intros f; [reflexivity|].
  cbn [filter]. unfold wrapped at 1.
  destruct (span seg) as [sp|] eqn:E; cbn [isSome fold_left].
  - apply IH.
  - rewrite (checkSegment_unwrapped _ _ _ _ E). apply IH.
Qed.

Lemma isStyleActiveInSegments_wrapped segments styleType value :
  isStyleActiveInSegments (filter wrapped segments) styleType value
  = isStyleActiveInSegments segments styleType value.
Proof.
  induction segments as [|seg rest IH]; [reflexivity|].
  cbn [filter]. unfold wrapped at 1.
  destruct (span seg) as [sp|] eqn:E; cbn [isSome isStyleActiveInSegments];
    rewrite E; [|exact IH].
  now rewrite IH.
Qed.

(** X5.  The toggle decision reads the wrapped runs only: leaving the runs
    without a wrapper out of the list does not change it, for any kind and
    any value. *)
Theorem decision_reads_wrapped_runs_only :
  forall segments styleType value,
    decideShouldApply segments styleType value
    = decideShouldApply (filter wrapped segments) styleType value.
Proof.
  intros segments styleType value. unfold decideShouldApply.
  destruct (if isValueStyle styleType then truthyValue value else None) as [v|].
  - now rewrite fold_checkSegment_wrapped.
  - now rewrite isStyleActiveInSegments_wrapped.
Qed.

(** *** A toggle adds nothing but its own *)

Lemma In_set kv k v m : In kv (Vars.set k v m) -> In kv m \/ kv = (k, v).
Proof.
  induction m as [|[k' v'] m IH]; cbn [Vars.set].
  - intros [H|[]]; auto.
  - destruct (String.eqb k' k) eqn:E.
    + apply String.eqb_eq in E. subst k'.
      intros [H|H]; [right; now symmetry|left; now right].
    + intros [H|H]; [left; now left|].
      destruct (IH H) as [H'|H']; [left; now right|now right].
Qed.

Lemma In_delete kv k m : In kv (Vars.delete k m) -> In kv m.
Proof. unfold Vars.delete. intros H. now apply filter_In in H. Qed.

Lemma In_without c x l : In c (without x l) -> In c l.
Proof. unfold without. intros H. now apply filter_In in H. Qed.

Lemma In_dedupFrom c seen l : In c (dedupFrom seen l) -> In c l.
Proof.
  revert seen. induction l as [|a l IH]; intros seen; cbn [dedupFrom]; [auto|].
  destruct (includes a seen).
  - intros H. right. now apply (IH seen).
  - intros [H|H]; [now left|right; now apply (IH (a :: seen))].
Qed.

Lemma In_uniqueClasses c l : In c (uniqueClasses l) -> In c l.
Proof.
  unfold uniqueClasses, dedup. intros H. apply filter_In in H as [H _].
  now apply In_dedupFrom in H.
Qed.

Lemma cleanupUnderline_In kv a :
  In kv (currentCssVariables (cleanupUnderline a)) ->
  In kv (currentCssVariables a).
Proof.
  unfold cleanupUnderline. cbn [currentCssVariables].
  destruct (includes (cls StyleClasses.UNDERLINE) (currentClasses a));
    destruct (includes (cls StyleClasses.COLORED_UNDERLINE) (currentClasses a));
    cbn [negb orb]; intros H; repeat (apply In_delete in H); exact H.
Qed.

Lemma cleanupMarkers_In kv a :
  In kv (currentCssVariables (cleanupMarkers a)) ->
  In kv (currentCssVariables a).
Proof.
  unfold cleanupMarkers.
  destruct (Vars.falsy TEXT_COLOR _); cbn [currentCssVariables currentClasses];
  destruct (Vars.falsy HIGHLIGHT_COLOR _); cbn [currentCssVariables currentClasses];
  destruct (Vars.falsy UNDERLINE_COLOR _); cbn [currentCssVariables currentClasses];
  destruct (Vars.falsy CIRCLE_COLOR _); cbn [currentCssVariables currentClasses];
  intros H; repeat (apply In_delete in H); exact H.
Qed.

Lemma cleanupMarkers_In_class c a :
  In c (currentClasses (cleanupMarkers a)) -> In c (currentClasses a).
Proof.
  unfold cleanupMarkers.
  destruct (Vars.falsy TEXT_COLOR _); cbn [currentCssVariables currentClasses];
  destruct (Vars.falsy HIGHLIGHT_COLOR _); cbn [currentCssVariables currentClasses];
  destruct (Vars.falsy UNDERLINE_COLOR _); cbn [currentCssVariables currentClasses];
  destruct (Vars.falsy CIRCLE_COLOR _); cbn [currentCssVariables currentClasses];
  intros H; repeat (apply In_without in H); exact H.
Qed.

Lemma applyStyle_In_class settings styleType value a c :
  In c (currentClasses (applyStyle settings styleType value a)) ->
  In c (currentClasses a) \/ targetClassOf styleType = Some c.
Proof.
  assert (forall t,
            In c (if includes t (currentClasses a) then currentClasses a
                  else (currentClasses a ++ [t])%list) ->
            In c (currentClasses a) \/ Some t = Some c) as Hp.
  { intros t. destruct (includes t (currentClasses a)); [auto|].
    intros H. apply in_app_or in H as [H|[H|[]]]; [auto|right; now subst]. }
  unfold applyStyle.
  destruct styleType; cbn [targetClassOf classMap];
    destruct (truthyValue value); cbn [currentClasses]; intros H;
    try apply In_without in H; now apply Hp in H.
Qed.

Lemma applyStyle_In settings styleType value a kv :
  In kv (currentCssVariables (applyStyle settings styleType value a)) ->
  In kv (currentCssVariables a)
  \/ (truthy value = true /\ In (fst kv) (ownKeys styleType)).
Proof.
  unfold applyStyle, truthyValue, truthy.
  destruct styleType; destruct value as [v|]; try destruct (nonEmpty v);
    cbn [currentCssVariables ownKeys]; intros H;
    repeat (apply In_delete in H); auto;
    repeat (apply In_set in H as [H| ->]); auto;
    right; (split; [reflexivity|]); cbn [fst In]; auto.
Qed.

Lemma removeStyle_In styleType a kv :
  In kv (currentCssVariables (removeStyle styleType a)) ->
  In kv (currentCssVariables a).
Proof.
  unfold removeStyle. destruct styleType; cbn [currentCssVariables];
    intros H; repeat (apply In_delete in H); exact H.
Qed.

Lemma removeStyle_In_class styleType a c :
  In c (currentClasses (removeStyle styleType a)) -> In c (currentClasses a).
Proof.
  unfold removeStyle. cbn [currentClasses].
  destruct (targetClassOf styleType); [apply In_without|auto].
Qed.

(** X6.  A toggle adds nothing but its own.  Every class token of a
    reconciled run is a token the run had, or the class of the requested
    style when the style is applied.  Every declaration of a reconciled run
    is a declaration the run had, with the value it had, or binds a key of
    the requested kind when the style is applied with a non-empty value. *)
Theorem toggle_adds_only_its_own :
  forall settings spanInfo styleType value shouldApply,
    let before := readAttributes spanInfo in
    let r := reconcile settings spanInfo styleType value shouldApply in
    Forall (fun c => In c (currentClasses before)
                     \/ (shouldApply = true /\ targetClassOf styleType = Some c))
      (emittedClasses r)
    /\ Forall (fun kv => In kv (currentCssVariables before)
                         \/ (shouldApply = true /\ truthy value = true
                             /\ In (fst kv) (ownKeys styleType)))
         (currentCssVariables r).
Proof.
  intros settings spanInfo styleType value shouldApply before r.
  subst r. unfold reconcile. fold before. split; apply Forall_forall.
  - intros c H. unfold emittedClasses in H. apply In_uniqueClasses in H.
    apply cleanupMarkers_In_class in H. rewrite cleanupUnderline_classes in H.
    destruct shouldApply.
    + apply applyStyle_In_class in H as [H|H]; auto.
    + apply removeStyle_In_class in H. auto.
  - intros kv H. apply cleanupMarkers_In, cleanupUnderline_In in H.
    destruct shouldApply.
    + apply applyStyle_In in H as [H|[H1 H2]]; auto.
    + apply removeStyle_In in H. auto.
Qed.

(** *** Bold, italic and strike touch one class *)

Lemma without_pushed t l :
  without t (if includes t l then l else (l ++ [t])%list) = without t l.
Proof.
  destruct (includes t l); [reflexivity|].
  unfold without. rewrite filter_app. cbn [filter].
  rewrite String.eqb_refl. cbn [negb]. apply app_nil_r.
Qed.

Lemma without_without t l : without t (without t l) = without t l.
Proof.
  unfold without. induction l as [|a l IH]; [reflexivity|]. cbn [filter].
  destruct (negb (String.eqb a t)) eqn:E; cbn [filter]; [rewrite E|]; now rewrite IH.
Qed.

Lemma without_comm t u l : without t (without u l) = without u (without t l).
Proof. unfold without. apply filter_comm. Qed.

Lemma cleanupMarkers_without t l v :
  cleanupMarkers {| currentClasses := without t l; currentCssVariables := v |}
  = {| currentClasses :=
         without t (currentClasses
                      (cleanupMarkers {| currentClasses := l;
                                         currentCssVariables := v |}));
       currentCssVariables :=
         currentCssVariables
           (cleanupMarkers {| currentClasses := l; currentCssVariables := v |}) |}.
Proof.
  unfold cleanupMarkers. cbn [currentCssVariables currentClasses].
  destruct (Vars.falsy TEXT_COLOR v); cbn [currentCssVariables currentClasses];
  destruct (Vars.falsy HIGHLIGHT_COLOR v); cbn [currentCssVariables currentClasses];
  destruct (Vars.falsy UNDERLINE_COLOR v); cbn [currentCssVariables currentClasses];
  match goal with |- context [Vars.falsy CIRCLE_COLOR ?m] =>
    destruct (Vars.falsy CIRCLE_COLOR m) end;
  cbn [currentCssVariables currentClasses]; f_equal;
  repeat first [reflexivity
               | rewrite (without_comm t); f_equal ].
Qed.

Lemma cleaned_edit (f : list string -> list string) t a :
  (forall l, without t (f l) = without t l) ->
  (forall l, includes (cls StyleClasses.UNDERLINE) (f l)
             = includes (cls StyleClasses.UNDERLINE) l) ->
  (forall l, includes (cls StyleClasses.COLORED_UNDERLINE) (f l)
             = includes (cls StyleClasses.COLORED_UNDERLINE) l) ->
  let r := cleaned {| currentClasses := f (currentClasses a);
                      currentCssVariables := currentCssVariables a |} in
  currentCssVariables r = currentCssVariables (cleaned a)
  /\ without t (currentClasses r) = without t (currentClasses (cleaned a)).
Proof.
  intros Hw HU HCU r. subst r. unfold cleaned.
  assert (forall b, cleanupUnderline b
                    = {| currentClasses := currentClasses b;
                         currentCssVariables :=
                           currentCssVariables (cleanupUnderline b) |}) as Hcu
    by reflexivity.
  rewrite Hcu, (Hcu a).
  assert (currentCssVariables
            (cleanupUnderline {| currentClasses := f (currentClasses a);
                                 currentCssVariables := currentCssVariables a |})
          = currentCssVariables (cleanupUnderline a)) as ->.
  { unfold cleanupUnderline. cbn [currentClasses currentCssVariables].
    now rewrite HU, HCU. }
  cbn [currentClasses].
  set (v := currentCssVariables (cleanupUnderline a)).
  pose proof (cleanupMarkers_without t (f (currentClasses a)) v) as H1.
  pose proof (cleanupMarkers_without t (currentClasses a) v) as H2.
  rewrite Hw in H1. rewrite H1 in H2.
  injection H2 as H2 H3. split; [now symmetry|now symmetry].
Qed.

Lemma cleaned_includes_plain t a :
  String.eqb t (cls StyleClasses.COLORED) = false ->
  String.eqb t (cls StyleClasses.HIGHLIGHTED) = false ->
  String.eqb t (cls StyleClasses.COLORED_UNDERLINE) = false ->
  String.eqb t (cls StyleClasses.CIRCLED) = false ->
  includes t (currentClasses (cleaned a)) = includes t (currentClasses a).
Proof.
  intros H1 H2 H3 H4. unfold cleaned.
  rewrite cleanupMarkers_includes, cleanupUnderline_classes, H1, H2, H3, H4.
  cbn [andb negb]. now rewrite !andb_true_r.
Qed.

Lemma boolean_edit_frame (f : list string -> list string) t a :
  (forall l, without t (f l) = without t l) ->
  (forall l, includes (cls StyleClasses.UNDERLINE) (f l)
             = includes (cls StyleClasses.UNDERLINE) l) ->
  (forall l, includes (cls StyleClasses.COLORED_UNDERLINE) (f l)
             = includes (cls StyleClasses.COLORED_UNDERLINE) l) ->
  String.eqb t (cls StyleClasses.COLORED) = false ->
  String.eqb t (cls StyleClasses.HIGHLIGHTED) = false ->
  String.eqb t (cls StyleClasses.COLORED_UNDERLINE) = false ->
  String.eqb t (cls StyleClasses.CIRCLED) = false ->
  let r := cleaned {| currentClasses := f (currentClasses a);
                      currentCssVariables := currentCssVariables a |} in
  currentCssVariables r = currentCssVariables (cleaned a)
  /\ without t (currentClasses r) = without t (currentClasses (cleaned a))
  /\ includes t (currentClasses r) = includes t (f (currentClasses a)).
Proof.
  intros Hw HU HCU H1 H2 H3 H4 r.
  destruct (cleaned_edit f t a Hw HU HCU) as [Hv Hc]. fold r in Hv, Hc.
  split; [exact Hv|]. split; [exact Hc|]. subst r.
  now rewrite cleaned_includes_plain.
Qed.

Lemma includes_pushed_other x t l :
  String.eqb x t = false ->
  includes x (if includes t l then l else (l ++ [t])%list) = includes x l.
Proof.
  intros H. destruct (includes t l); [reflexivity|].
  rewrite includes_push, H. apply orb_false_r.
Qed.

Lemma includes_without_other x t l :
  String.eqb x t = false -> includes x (without t l) = includes x l.
Proof. intros H. rewrite includes_without, H. apply andb_true_r. Qed.

Lemma includes_without_self t l : includes t (without t l) = false.
Proof. rewrite includes_without, String.eqb_refl. apply andb_false_r. Qed.

Lemma reconcile_boolean settings spanInfo styleType value shouldApply :
  isBooleanStyle styleType = true ->
  let target := cls (classNameOf styleType) in
  let settled := cleaned (readAttributes spanInfo) in
  let r := reconcile settings spanInfo styleType value shouldApply in
  currentCssVariables r = currentCssVariables settled
  /\ without target (currentClasses r) = without target (currentClasses settled)
  /\ includes target (currentClasses r) = shouldApply.
Proof.
  intros Hk target settled r.
  subst r settled. unfold reconcile.
  set (a := readAttributes spanInfo).
  assert (applyStyle settings styleType value a
          = {| currentClasses :=
                 (fun l => if includes target l then l else (l ++ [target])%list)
                   (currentClasses a);
               currentCssVariables := currentCssVariables a |}) as Happly.
  { unfold applyStyle. subst target.
    destruct styleType; try discriminate; now destruct (truthyValue value). }
  assert (removeStyle styleType a
          = {| currentClasses := without target (currentClasses a);
               currentCssVariables := currentCssVariables a |}) as Hremove.
  { unfold removeStyle. subst target.
    destruct styleType; try discriminate; reflexivity. }
  assert (String.eqb (cls StyleClasses.UNDERLINE) target = false
          /\ String.eqb (cls StyleClasses.COLORED_UNDERLINE) target = false
          /\ String.eqb target (cls StyleClasses.COLORED) = false
          /\ String.eqb target (cls StyleClasses.HIGHLIGHTED) = false
          /\ String.eqb target (cls StyleClasses.COLORED_UNDERLINE) = false
          /\ String.eqb target (cls StyleClasses.CIRCLED) = false)
    as (E1 & E2 & E3 & E4 & E5 & E6).
  { subst target. destruct styleType; try discriminate; repeat split. }
  fold (cleaned (if shouldApply then applyStyle settings styleType value a
                 else removeStyle styleType a)).
  destruct shouldApply.
  - rewrite Happly.
    destruct (boolean_edit_frame
                (fun l => if includes target l then l else (l ++ [target])%list)
                target a) as (Hv & Hc & Hi); auto.
    + intros l. apply without_pushed.
    + intros l. now apply includes_pushed_other.
    + intros l. now apply includes_pushed_other.
    + split; [exact Hv|]. split; [exact Hc|].
      rewrite Hi. apply includes_pushed.
  - rewrite Hremove.
    destruct (boolean_edit_frame (without target) target a)
      as (Hv & Hc & Hi); auto.
    + intros l. apply without_without.
    + intros l. now apply includes_without_other.
    + intros l. now apply includes_without_other.
    + split; [exact Hv|]. split; [exact Hc|].
      rewrite Hi. apply includes_without_self.
Qed.

(** X7.  For bold, italic and strikethrough the reconciler changes the
    class of the style and nothing else: the declarations are those the
    cleanup alone leaves on the run, so are the other class tokens, in the
    same order, and the class of the style is present exactly when the
    style is applied. *)
Theorem boolean_toggle_touches_one_class :
  forall settings spanInfo styleType value shouldApply,
    isBooleanStyle styleType = true ->
    let target := cls (classNameOf styleType) in
    let settled := cleaned (readAttributes spanInfo) in
    let r := reconcile settings spanInfo styleType value shouldApply in
    currentCssVariables r = currentCssVariables settled
    /\ without target (currentClasses r) = without target (currentClasses settled)
    /\ includes target (currentClasses r) = shouldApply.
Proof.
  intros settings spanInfo styleType value shouldApply Hk.
  now apply reconcile_boolean.
Qed.

Lemma boolean_toggle_touches_one_class_witness :
  let sp := {| startTag := "<span class=" ++ DQ ++ "styler-colored note" ++ DQ
                           ++ " style=" ++ DQ ++ "--styler-text-color: red;"
                           ++ DQ ++ ">";
               startTagOffset := 0; endTagOffset := (-1)%Z;
               classList := ["styler-colored"; "note"] |} in
  let r := reconcile settings0 (Some sp) Italic None true in
  currentCssVariables r = [("--styler-text-color", "red")]
  /\ without "styler-italic" (currentClasses r) = ["styler-colored"; "note"]
  /\ includes "styler-italic" (currentClasses r) = true.
Proof.
  intros sp r.
  exact (boolean_toggle_touches_one_class settings0 (Some sp) Italic None true
           eq_refl).
Defined.

(** *** Underline over colored underline *)

Lemma underline_inactive_over_colored segments value :
  forallb plainOrColoredUnderline segments = true ->
  isStyleActiveInSegments segments Underline value = false.
Proof.
  induction segments as [|seg rest IH]; [reflexivity|].
  cbn [forallb isStyleActiveInSegments]. intros H.
  apply andb_true_iff in H as [H1 H2]. unfold plainOrColoredUnderline in H1.
  destruct (span seg) as [sp|]; [|now apply IH].
  unfold isStyleActiveInSpan. rewrite H1, orb_true_r.
  cbn [negb]. rewrite andb_false_r. now apply IH.
Qed.

(** X8.  When every wrapped run of the selection has the colored-underline
    class, a plain underline request is applied, never removed, and every
    run of the result has the plain underline class and neither the
    colored-underline class nor one of its two declarations. *)
Theorem underline_replaces_colored_underline :
  forall settings selectedText value,
    forallb plainOrColoredUnderline (parseSelection selectedText) = true ->
    decideShouldApply (parseSelection selectedText) Underline value = true
    /\ forallb (fun r => plainlyUnderlined (snd r))
         (reconciledRuns settings selectedText Underline value) = true.
Proof.
  intros settings selectedText value H.
  assert (decideShouldApply (parseSelection selectedText) Underline value = true)
    as Hd.
  { unfold decideShouldApply. cbn [isValueStyle].
    now rewrite underline_inactive_over_colored. }
  split; [exact Hd|].
  unfold reconciledRuns. rewrite Hd. clear H Hd.
  induction (parseSelection selectedText) as [|seg rest IH]; [reflexivity|].
  cbn [map forallb snd]. rewrite IH, andb_true_r.
  unfold plainlyUnderlined.
  destruct (apply_underline settings (span seg) value) as (H1 & H2 & H3 & H4).
  now rewrite H1, H2, H3, H4.
Qed.

Lemma underline_replaces_colored_underline_witness :
  let s := "a<span class=" ++ DQ ++ "styler-colored-underline" ++ DQ
           ++ " style=" ++ DQ
           ++ "--styler-underline-color: red; --styler-underline-thickness: 3px;"
           ++ DQ ++ ">b</span>" in
  decideShouldApply (parseSelection s) Underline None = true
  /\ forallb (fun r => plainlyUnderlined (snd r))
       (reconciledRuns settings0 s Underline None) = true.
Proof.
  intros s.
  exact (underline_replaces_colored_underline settings0 s None eq_refl).
Defined.

(* ===================================================================== *)
(** ** A toggle leaves all runs alike *)
(* ===================================================================== *)

Lemma get_cleaned_color_key k a :
  underlineKey k = false -> String.eqb UNDERLINE_THICKNESS k = false ->
  String.eqb CIRCLE_THICKNESS k = false ->
  Vars.get k (currentCssVariables (cleaned a))
  = Vars.get k (currentCssVariables a).
Proof.
  intros H1 H2 H3. unfold cleaned.
  rewrite cleanupMarkers_get, cleanupUnderline_get, H1, H2, H3.
  cbn [andb orb]. now rewrite andb_false_r.
Qed.

Lemma sameOption_refl x : sameOption x x = true.
Proof. destruct x; cbn; [apply String.eqb_refl|reflexivity]. Qed.

Lemma reconcile_removed settings spanInfo styleType value :
  settledAs styleType value false
    (reconcile settings spanInfo styleType value false) = true.
Proof.
  unfold settledAs, reconcile.
  set (a := readAttributes spanInfo).
  fold (cleaned (removeStyle styleType a)).
  destruct styleType; cbn [classNameOf classMap varChecks].
  - rewrite carriesClass_includes, cleaned_includes_plain by reflexivity.
    cbn [removeStyle currentClasses targetClassOf classMap].
    now rewrite includes_without_self.
  - rewrite carriesClass_includes, cleaned_includes_plain by reflexivity.
    cbn [removeStyle currentClasses targetClassOf classMap].
    now rewrite includes_without_self.
  - rewrite cleaned_underline.
    cbn [removeStyle currentClasses targetClassOf classMap].
    now rewrite includes_without_self.
  - rewrite carriesClass_includes, cleaned_includes_plain by reflexivity.
    cbn [removeStyle currentClasses targetClassOf classMap].
    now rewrite includes_without_self.
  - rewrite cleaned_colored, get_cleaned_color_key by reflexivity.
    cbn [removeStyle currentClasses currentCssVariables targetClassOf classMap].
    rewrite includes_without_self, get_delete, String.eqb_refl. reflexivity.
  - rewrite cleaned_highlighted, get_cleaned_color_key by reflexivity.
    cbn [removeStyle currentClasses currentCssVariables targetClassOf classMap].
    rewrite includes_without_self, get_delete, String.eqb_refl. reflexivity.
  - rewrite cleaned_colored_underline, cleaned_underline_color.
    cbn [removeStyle currentClasses currentCssVariables targetClassOf classMap].
    rewrite includes_without_self, !get_delete, String.eqb_refl.
    cbn [andb Bool.eqb negb orb]. rewrite orb_true_r. reflexivity.
  - rewrite cleaned_circled, get_cleaned_color_key by reflexivity.
    cbn [removeStyle currentClasses currentCssVariables targetClassOf classMap].
    rewrite includes_without_self, !get_delete, String.eqb_refl.
    reflexivity.
Qed.

Lemma reconcile_applied settings spanInfo styleType value :
  (isValueStyle styleType = true -> truthy value = true) ->
  settledAs styleType value true
    (reconcile settings spanInfo styleType value true) = true.
Proof.
  intros Hv. unfold settledAs.
  destruct styleType; cbn [classNameOf classMap varChecks isValueStyle] in *.
  - destruct (reconcile_boolean settings spanInfo Bold value true eq_refl)
      as (_ & _ & H).
    rewrite carriesClass_includes. cbv zeta in H.
    cbn [classNameOf classMap] in H. now rewrite H.
  - destruct (reconcile_boolean settings spanInfo Italic value true eq_refl)
      as (_ & _ & H).
    rewrite carriesClass_includes. cbv zeta in H.
    cbn [classNameOf classMap] in H. now rewrite H.
  - destruct (apply_underline settings spanInfo value) as (H & _).
    now rewrite H.
  - destruct (reconcile_boolean settings spanInfo Strike value true eq_refl)
      as (_ & _ & H).
    rewrite carriesClass_includes. cbv zeta in H.
    cbn [classNameOf classMap] in H. now rewrite H.
  - specialize (Hv eq_refl). destruct value as [[|c v]|]; try discriminate.
    unfold reconcile.
    set (a := readAttributes spanInfo).
    fold (cleaned (applyStyle settings Color (Some (String c v)) a)).
    rewrite cleaned_colored, get_cleaned_color_key by reflexivity.
    cbn [applyStyle truthyValue nonEmpty currentClasses currentCssVariables
         targetClassOf classMap].
    unfold Vars.falsy. rewrite get_set, String.eqb_refl, includes_pushed.
    rewrite sameOption_refl. reflexivity.
  - specialize (Hv eq_refl). destruct value as [[|c v]|]; try discriminate.
    unfold reconcile.
    set (a := readAttributes spanInfo).
    fold (cleaned (applyStyle settings Highlight (Some (String c v)) a)).
    rewrite cleaned_highlighted, get_cleaned_color_key by reflexivity.
    cbn [applyStyle truthyValue nonEmpty currentClasses currentCssVariables
         targetClassOf classMap].
    unfold Vars.falsy. rewrite get_set, String.eqb_refl, includes_pushed.
    rewrite sameOption_refl. reflexivity.
  - specialize (Hv eq_refl). destruct value as [[|c v]|]; try discriminate.
    destruct (apply_colored_underline settings spanInfo c v) as (_ & H1 & H2).
    cbv zeta in H1, H2. rewrite H1, H2. cbn [truthyValue nonEmpty].
    rewrite sameOption_refl. reflexivity.
  - specialize (Hv eq_refl). destruct value as [[|c v]|]; try discriminate.
    unfold reconcile.
    set (a := readAttributes spanInfo).
    fold (cleaned (applyStyle settings Circled (Some (String c v)) a)).
    rewrite cleaned_circled, get_cleaned_color_key by reflexivity.
    cbn [applyStyle truthyValue nonEmpty currentClasses currentCssVariables
         targetClassOf classMap].
    unfold Vars.falsy. rewrite !get_set, String.eqb_refl, includes_pushed.
    change (String.eqb CIRCLE_THICKNESS CIRCLE_COLOR) with false.
    rewrite sameOption_refl. reflexivity.
Qed.

(** X9.  A toggle leaves all runs alike.  After it, every run has the class
    of the style exactly when the decision was to apply; for a
    value-bearing kind the value slot of every run holds the requested
    value when the style was applied and no declaration when it was
    removed.  This holds whenever an applied value-bearing kind comes with
    a non-empty value. *)
Theorem toggle_is_uniform :
  forall settings selectedText styleType value,
    let shouldApply :=
      decideShouldApply (parseSelection selectedText) styleType value in
    (shouldApply = true -> isValueStyle styleType = true ->
     truthy value = true) ->
    forallb (fun r => settledAs styleType value shouldApply (snd r))
      (reconciledRuns settings selectedText styleType value) = true.
Proof.
  intros settings selectedText styleType value shouldApply Hv.
  unfold reconciledRuns. fold shouldApply. revert Hv.
  generalize shouldApply. clear shouldApply. intros shouldApply Hv.
  induction (parseSelection selectedText) as [|seg rest IH]; [reflexivity|].
  cbn [map forallb snd]. rewrite IH, andb_true_r.
  destruct shouldApply;
    [apply reconcile_applied; now apply Hv|apply reconcile_removed].
Qed.

Lemma toggle_is_uniform_witness :
  decideShouldApply (parseSelection halfBold) Color (Some "red") = true
  /\ forallb (fun r => settledAs Color (Some "red") true (snd r))
       (reconciledRuns settings0 halfBold Color (Some "red")) = true.
Proof.
  split; [reflexivity|].
  apply (toggle_is_uniform settings0 halfBold Color (Some "red")).
  reflexivity.
Defined.

(* ===================================================================== *)
(** ** The style attribute read back *)
(* ===================================================================== *)

Lemma set_fresh k v m :
  Vars.get k m = None -> Vars.set k v m = (m ++ [(k, v)])%list.
Proof.
  induction m as [|[k' v'] m IH]; [reflexivity|]. cbn [Vars.get Vars.set app].
  destruct (String.eqb k' k); [discriminate|]. intros H. now rewrite IH.
Qed.

Lemma get_app k (m1 m2 : Vars.t) :
  Vars.get k (m1 ++ m2)%list
  = match Vars.get k m1 with Some v => Some v | None => Vars.get k m2 end.
Proof.
  induction m1 as [|[k' v'] m1 IH]; [reflexivity|]. cbn [Vars.get app].
  now destruct (String.eqb k' k).
Qed.

Lemma join_cons sep x xs :
  join sep (x :: xs)
  = x ++ match xs with [] => "" | _ => sep ++ join sep xs end.
Proof. destruct xs; cbn [join]; [now rewrite append_nil_r|reflexivity]. Qed.

Lemma trim_after_space s : trim (String " " s) = trim s.
Proof. reflexivity. Qed.

Lemma readDeclaration_clean pre k v acc :
  pre = "" \/ pre = " " ->
  cleanDeclaration (k, v) = true ->
  readDeclaration acc (pre ++ k ++ ": " ++ v) = Vars.set k v acc.
Proof.
  intros Hpre H. unfold cleanDeclaration in H. cbn [fst snd] in H.
  repeat (apply andb_true_iff in H as [H ?]).
  repeat match goal with
         | E : String.eqb _ _ = true |- _ => apply String.eqb_eq in E
         end.
  unfold readDeclaration.
  assert (split ":" (pre ++ k ++ ": " ++ v) = [pre ++ k; " " ++ v]) as ->.
  { rewrite <- append_assoc. cbn [append].
    rewrite split_append.
    - f_equal. apply split_lacking. rewrite lacks_cons. now cbn.
    - rewrite lacks_append.
      destruct Hpre as [-> | ->]; cbn; assumption. }
  assert (trim (pre ++ k) = k) as ->.
  { destruct Hpre as [-> | ->]; cbn [append]; [assumption|].
    now rewrite trim_after_space. }
  rewrite H. cbn [append]. rewrite trim_after_space. congruence.
Qed.

Lemma readDeclaration_blank pre acc :
  pre = "" \/ pre = " " -> readDeclaration acc pre = acc.
Proof. intros [-> | ->]; reflexivity. Qed.

Lemma lacks_enc_body pre k v :
  pre = "" \/ pre = " " ->
  cleanDeclaration (k, v) = true ->
  lacks ";" (pre ++ k ++ ": " ++ v) = true.
Proof.
  intros Hpre H. unfold cleanDeclaration in H. cbn [fst snd] in H.
  repeat (apply andb_true_iff in H as [H ?]).
  rewrite !lacks_append.
  destruct Hpre as [-> | ->]; cbn [lacks indexOf Ascii.eqb];
    repeat match goal with E : lacks _ _ = true |- _ => rewrite E end;
    reflexivity.
Qed.

Lemma readJoined vars :
  forallb cleanDeclaration vars = true ->
  distinctKeys vars = true ->
  forall pre acc,
    pre = "" \/ pre = " " ->
    (forall kv, In kv vars -> Vars.get (fst kv) acc = None) ->
    fold_left readDeclaration
      (split ";" (pre ++ join " " (map enc vars))) acc
    = (acc ++ vars)%list.
Proof.
  induction vars as [|[k v] rest IH]; intros Hc Hd pre acc Hpre Hfresh.
  - cbn [map join]. rewrite append_nil_r, app_nil_r.
    destruct Hpre as [-> | ->]; reflexivity.
  - cbn [forallb] in Hc. apply andb_true_iff in Hc as [Hkv Hc].
    cbn [distinctKeys] in Hd. apply andb_true_iff in Hd as [Hk Hd].
    cbn [map]. rewrite join_cons.
    set (pre' := match map enc rest with [] => "" | _ => " " end).
    assert (pre' = "" \/ pre' = " ") as Hpre'
      by (subst pre'; destruct (map enc rest); auto).
    assert (match map enc rest with
            | [] => ""
            | _ => " " ++ join " " (map enc rest)
            end = pre' ++ join " " (map enc rest)) as ->
      by (subst pre'; now destruct (map enc rest)).
    unfold enc at 1. cbn [fst snd].
    replace (pre ++ (k ++ ": " ++ v ++ ";") ++ pre' ++ join " " (map enc rest))
      with ((pre ++ k ++ ": " ++ v)
            ++ String ";" (pre' ++ join " " (map enc rest)))
      by (rewrite !append_assoc; reflexivity).
    rewrite split_append by (now apply lacks_enc_body).
    cbn [fold_left]. rewrite readDeclaration_clean by assumption.
    rewrite set_fresh by (apply (Hfresh (k, v)); now left).
    rewrite IH; auto.
    + now rewrite <- app_assoc.
    + intros [k' v'] Hin. cbn [fst]. rewrite get_app.
      pose proof (Hfresh (k', v') (or_intror Hin)) as Hf. cbn [fst] in Hf.
      rewrite Hf. cbn [Vars.get].
      destruct (String.eqb k k') eqn:E; [|reflexivity].
      apply String.eqb_eq in E. subst k'. exfalso.
      apply negb_true_iff in Hk.
      clear - Hin Hk. induction rest as [|[k2 v2] rest IH]; [contradiction|].
      cbn [Vars.get] in Hk. destruct (String.eqb k2 k) eqn:E; [discriminate|].
      destruct Hin as [Hin|Hin]; [|auto].
      injection Hin as -> ->. now rewrite String.eqb_refl in E.
Qed.

Lemma join_enc_shape kv rest :
  cleanDeclaration kv = true ->
  exists s, join " " (map enc (kv :: rest)) = String "-" (s ++ ";").
Proof.
  revert kv. induction rest as [|kv2 rest IH]; intros [k v] H.
  - unfold cleanDeclaration in H. cbn [fst snd] in H.
    repeat (apply andb_true_iff in H as [H _]).
    destruct k as [|c k]; [discriminate|]. cbn [startsWith] in H.
    apply andb_true_iff in H as [H _]. apply Ascii.eqb_eq in H. subst c.
    cbn [map join enc fst snd]. exists (k ++ ": " ++ v).
    cbn [append]. now rewrite !append_assoc.
  - unfold cleanDeclaration in H. cbn [fst snd] in H.
    repeat (apply andb_true_iff in H as [H _]).
    destruct k as [|c k]; [discriminate|]. cbn [startsWith] in H.
    apply andb_true_iff in H as [H _]. apply Ascii.eqb_eq in H. subst c.
    cbn [map]. rewrite join_cons. 
    assert (exists t, join " " (map enc (kv2 :: rest)) = t ++ ";") as [t Ht].
    { clear. revert kv2. induction rest as [|kv3 rest IH]; intros kv2.
      - exists (fst kv2 ++ ": " ++ snd kv2). cbn [map join enc].
        now rewrite !append_assoc.
      - destruct (IH kv3) as [t Ht]. cbn [map] in *. rewrite join_cons.
        cbn [map] in Ht. cbv iota. rewrite Ht.
        exists (enc kv2 ++ " " ++ t). now rewrite !append_assoc. }
    cbn [map] in Ht. cbv iota. rewrite Ht.
    exists ((k ++ ": " ++ v ++ ";") ++ " " ++ t).
    unfold enc. cbn [fst snd append]. now rewrite !append_assoc.
Qed.

(** X10.  The declarations written as the value of a style attribute are
    read back as they were, in the same order, when the keys begin with
    [--styler-] and are distinct and neither keys nor values hold a colon,
    a semicolon or white space at either end; so they are what
    [applyModificationToSegment] starts from on every span whose style
    attribute holds that value. *)
Theorem style_attribute_round_trip :
  forall vars,
    forallb cleanDeclaration vars = true ->
    distinctKeys vars = true ->
    readStyleAttr (styleAttrValue vars) = vars
    /\ forall sp,
         nonEmpty (startTag sp) = true ->
         styleAttrOf (startTag sp) = styleAttrValue vars ->
         currentCssVariables (readAttributes (Some sp)) = vars.
Proof.
  intros vars Hc Hd.
  assert (readStyleAttr (styleAttrValue vars) = vars) as H.
  { unfold readStyleAttr, styleAttrValue.
    change (map (fun kv => fst kv ++ ": " ++ snd kv ++ ";") vars)
      with (map enc vars).
    assert (trim (join " " (map enc vars)) = join " " (map enc vars)) as ->.
    { destruct vars as [|kv rest]; [reflexivity|].
      cbn [forallb] in Hc. apply andb_true_iff in Hc as [Hkv _].
      destruct (join_enc_shape kv rest Hkv) as [s ->].
      now apply trim_fixed. }
    apply (readJoined vars Hc Hd "" []); auto. }
  split; [exact H|].
  intros sp Hn Hs. unfold readAttributes. cbn [currentCssVariables].
  rewrite Hn, Hs. exact H.
Qed.

Lemma style_attribute_round_trip_witness :
  readStyleAttr
    (styleAttrValue [("--styler-text-color", "#ff0000");
                     ("--styler-underline-thickness", "3px");
                     ("--styler-note", "")])
  = [("--styler-text-color", "#ff0000");
     ("--styler-underline-thickness", "3px");
     ("--styler-note", "")].
Proof.
  apply (proj1 (style_attribute_round_trip
                  [("--styler-text-color", "#ff0000");
                   ("--styler-underline-thickness", "3px");
                   ("--styler-note", "")] eq_refl eq_refl)).
Defined.

(* ===================================================================== *)
(** ** Text color and highlight: toggling twice, and replacing *)
(* ===================================================================== *)

Lemma trimStart_length s : String.length (trimStart s) <= String.length s.
Proof.
  induction s as [|c s IH]; [apply Nat.le_refl|]. cbn [trimStart].
  destruct (isWhiteSpace c); simpl; lia.
Qed.

Lemma trimEnd_length s : String.length (trimEnd s) <= String.length s.
Proof.
  induction s as [|c s IH]; [apply Nat.le_refl|]. cbn [trimEnd].
  destruct (trimEnd s); [destruct (isWhiteSpace c)|]; simpl in *; lia.
Qed.

Lemma trim_fixed_head c v :
  trim (String c v) = String c v -> isWhiteSpace c = false.
Proof.
  intros H. destruct (isWhiteSpace c) eqn:E; [|reflexivity]. exfalso.
  unfold trim in H. cbn [trimStart] in H. rewrite E in H.
  apply (f_equal String.length) in H.
  pose proof (trimEnd_length (trimStart v)). pose proof (trimStart_length v).
  simpl in H. lia.
Qed.

Lemma takeUntil_append c s t :
  lacks c s = true -> takeUntil c (s ++ String c t) = s.
Proof.
  induction s as [|a s IH]; intros H.
  - cbn [append takeUntil]. now rewrite Ascii.eqb_refl.
  - rewrite lacks_cons in H. apply andb_true_iff in H as [H1 H2].
    apply negb_true_iff in H1. cbn [append takeUntil]. now rewrite H1, IH.
Qed.

Lemma toLowerCase_nonEmpty v w :
  toLowerCase w = toLowerCase v -> nonEmpty v = true -> nonEmpty w = true.
Proof. destruct v, w; cbn; congruence. Qed.

(** The tag pattern at an opening tag without a closing angle bracket
    inside. *)
Lemma tagRegexAt_opening body rest :
  lacks ">" body = true ->
  tagRegexAt (("<span" ++ body ++ ">") ++ rest) = Some ("<span" ++ body ++ ">").
Proof.
  intros H. unfold tagRegexAt. cbn [append].
  change (startsWith_ci "</span" (String "<" (String "s" (String "p" (String "a"
            (String "n" ((body ++ ">") ++ rest))))))) with false.
  change (startsWith_ci "<span" (String "<" (String "s" (String "p" (String "a"
            (String "n" ((body ++ ">") ++ rest))))))) with true.
  cbv iota. cbn [substringFrom substringTo].
  rewrite append_assoc. cbn [append]. now rewrite upTo_append.
Qed.

Lemma search_at_start {A} (f : string -> option A) s a :
  f s = Some a -> search f s = Some (0, a).
Proof. intros H. destruct s; cbn [search]; now rewrite H. Qed.

Lemma styleAttrOf_found P D rest :
  (forall j, j < String.length P ->
     styleRegexAt (substringFrom j (P ++ ("style=" ++ DQ) ++ D
                                      ++ String dquote rest)) = None) ->
  lacks dquote D = true ->
  styleAttrOf (P ++ ("style=" ++ DQ) ++ D ++ String dquote rest) = D.
Proof.
  intros Hnone HD. unfold styleAttrOf.
  rewrite (search_found styleRegexAt _ (String.length P) D); auto.
  - rewrite append_length. lia.
  - rewrite substringFrom_append. unfold styleRegexAt.
    change (startsWith_ci ("style=" ++ DQ)
              (("style=" ++ DQ) ++ D ++ String dquote rest)) with true.
    cbv iota. cbn [append DQ substringFrom]. now apply upTo_append.
Qed.

Section ColoredWrapper.

Variables (settings : PluginSettings) (styleType : StyleType).
Hypothesis Hkind : isColorOrHighlight styleType = true.

Let marker := classNameOf styleType.
Let key := varToCheck styleType.

Variables (a : ascii) (s : string) (c : ascii) (v : string).
Let T := String a s.
Let V := String c v.
Hypothesis Hfree : noTagHead T = true.
Hypothesis Htrim : trim V = V.
Hypothesis Hsemi : lacks ";" V = true.
Hypothesis Hquote : lacks dquote V = true.
Hypothesis Hangle : lacks ">" V = true.

Let opening := emptyWrapperOpening marker key V.

Let sp : SpanInfo :=
  {| startTag := opening; startTagOffset := 0; endTagOffset := (-1)%Z;
     classList := [cls marker] |}.

Lemma opening_shape :
  opening
  = "<span"
    ++ (" class=" ++ DQ ++ cls marker ++ DQ ++ " style=" ++ DQ
        ++ key ++ ": " ++ V ++ ";" ++ DQ)
    ++ ">".
Proof.
  unfold opening, emptyWrapperOpening, emptyWrapperHead.
  rewrite !append_assoc. reflexivity.
Qed.

Lemma first_toggle_wraps :
  toggleStyle settings (Some T) styleType (Some V)
  = [ ReplaceRange (opening ++ T ++ "</span>") ].
Proof.
  unfold toggleStyle, toggleStyleOn.
  assert ((String.length T =? 0)%nat = false) as -> by reflexivity.
  cbn [andb].
  rewrite (parseSelection_tag_free _ (noTagHead_exec _ Hfree)).
  unfold T. cbv iota. fold T.
  unfold opening, marker, key, V.
  destruct styleType; try discriminate.
  - cbn [fold_left text span].
    change (decideShouldApply _ Color (Some (String c v))) with true.
    unfold applyModificationToSegment.
    change (reconcile settings None Color (Some (String c v)) true)
      with {| currentClasses := [cls StyleClasses.COLORED];
              currentCssVariables := [(String "-" "-styler-text-color", String c v)] |}.
    rewrite reconstructSpan_single.
    unfold emptyWrapperOpening, emptyWrapperHead.
    cbn [append]. rewrite !append_assoc. reflexivity.
  - cbn [fold_left text span].
    change (decideShouldApply _ Highlight (Some (String c v))) with true.
    unfold applyModificationToSegment.
    change (reconcile settings None Highlight (Some (String c v)) true)
      with {| currentClasses := [cls StyleClasses.HIGHLIGHTED];
              currentCssVariables :=
                [(String "-" "-styler-highlight-color", String c v)] |}.
    rewrite reconstructSpan_single.
    unfold emptyWrapperOpening, emptyWrapperHead.
    cbn [append]. rewrite !append_assoc. reflexivity.
Qed.

Lemma parse_wrapped :
  parseSelection (opening ++ T ++ "</span>")
  = [ {| text := T; start := String.length opening;
         finish := String.length opening + String.length T;
         span := Some sp |} ].
Proof.
  assert (lacks ">" (" class=" ++ DQ ++ cls marker ++ DQ ++ " style=" ++ DQ
                     ++ key ++ ": " ++ V ++ ";" ++ DQ) = true) as Hbody.
  { rewrite !lacks_append, Hangle. unfold marker, key.
    destruct styleType; try discriminate; reflexivity. }
  pose proof (tagRegexAt_opening _ (T ++ "</span>") Hbody) as Hm.
  rewrite <- opening_shape in Hm.
  assert (startsWith "</span" opening = false) as Hs by reflexivity.
  assert (extractClasses opening = [cls marker]) as Hcl.
  { unfold opening, marker, key.
    destruct styleType; try discriminate; reflexivity. }
  unfold parseSelection.
  assert (exists fuel, String.length (opening ++ T ++ "</span>") = S (S fuel))
    as [fuel ->].
  { rewrite append_length. unfold T. cbn [append String.length].
    rewrite Nat.add_succ_r.
    unfold opening, emptyWrapperOpening, emptyWrapperHead.
    cbn [append String.length]. eexists. reflexivity. }
  rewrite parseLoop_opening_tag by assumption.
  unfold T. rewrite (parseLoop_text_then_close fuel _ a s _ Hfree).
  rewrite Hcl. reflexivity.
Qed.

Lemma styleAttrOf_opening : styleAttrOf opening = key ++ ": " ++ V ++ ";".
Proof.
  assert (lacks dquote (key ++ ": " ++ V ++ ";") = true) as Hd.
  { rewrite !lacks_append, Hquote. unfold key.
    destruct styleType; try discriminate; reflexivity. }
  assert (opening
          = ("<span class=" ++ DQ ++ cls marker ++ DQ ++ " ")
            ++ ("style=" ++ DQ)
            ++ (key ++ ": " ++ V ++ ";") ++ String dquote ">") as ->.
  { unfold opening, emptyWrapperOpening, emptyWrapperHead.
    rewrite !append_assoc. reflexivity. }
  apply styleAttrOf_found; [|exact Hd].
  unfold marker, key. destruct styleType; try discriminate;
    intros j Hj; cbn in Hj;
    repeat (destruct j as [|j]; [reflexivity|]); lia.
Qed.

Lemma slot_of_wrapper : getCssVariableValue (Some sp) key = Some V.
Proof.
  unfold getCssVariableValue. cbn [startTag sp].
  assert (nonEmpty opening = true) as -> by reflexivity.
  rewrite styleAttrOf_opening.
  assert (valueRegexAt key (key ++ ": " ++ V ++ ";") = Some V) as Hv.
  { unfold valueRegexAt, key.
    destruct styleType; try discriminate;
      cbn [varToCheck TEXT_COLOR HIGHLIGHT_COLOR startsWith append Ascii.eqb
           Bool.eqb andb String.length substringFrom trimStart isWhiteSpace];
      fold V; unfold V at 1; cbn [append trimStart];
      rewrite (trim_fixed_head _ _ Htrim);
      change (String c (v ++ ";")) with (V ++ String ";" "");
      rewrite (takeUntil_append _ _ _ Hsemi); reflexivity. }
  assert (search (valueRegexAt key) (key ++ ": " ++ V ++ ";") = Some (0, V)) as ->.
  { now apply search_at_start. }
  cbn [nonEmpty V]. now rewrite Htrim.
Qed.

Lemma attributes_of_wrapper :
  exists X,
    readAttributes (Some sp)
    = {| currentClasses := [cls marker]; currentCssVariables := [(key, X)] |}.
Proof.
  unfold readAttributes. cbn [startTag classList sp].
  assert (nonEmpty opening = true) as -> by reflexivity.
  rewrite styleAttrOf_opening.
  replace (key ++ ": " ++ V ++ ";") with ((key ++ ": " ++ V) ++ String ";" "")
    by (rewrite !append_assoc; reflexivity).
  rewrite split_append.
  - cbn [split fold_left]. unfold key.
    destruct styleType; try discriminate; eexists; reflexivity.
  - rewrite !lacks_append, Hsemi. unfold key.
    destruct styleType; try discriminate; reflexivity.
Qed.

Lemma toggle_off_wrapper value :
  decideShouldApply
    [ {| text := T; start := String.length opening;
         finish := String.length opening + String.length T;
         span := Some sp |} ] styleType value = false ->
  toggleStyle settings (Some (opening ++ T ++ "</span>")) styleType value
  = [ ReplaceRange T ].
Proof.
  intros Hd. unfold toggleStyle, toggleStyleOn.
  assert ((String.length (opening ++ T ++ "</span>") =? 0)%nat = false) as ->
    by reflexivity.
  cbn [andb]. rewrite parse_wrapped, Hd.
  cbn [fold_left text span append]. unfold applyModificationToSegment, reconcile.
  destruct attributes_of_wrapper as [X ->].
  unfold marker, key. destruct styleType; try discriminate; reflexivity.
Qed.

Lemma toggle_over_wrapper c2 v2 :
  decideShouldApply
    [ {| text := T; start := String.length opening;
         finish := String.length opening + String.length T;
         span := Some sp |} ] styleType (Some (String c2 v2)) = true ->
  toggleStyle settings (Some (opening ++ T ++ "</span>")) styleType
    (Some (String c2 v2))
  = [ ReplaceRange
        (emptyWrapperOpening marker key (String c2 v2) ++ T ++ "</span>") ].
Proof.
  intros Hd. unfold toggleStyle, toggleStyleOn.
  assert ((String.length (opening ++ T ++ "</span>") =? 0)%nat = false) as ->
    by reflexivity.
  cbn [andb]. rewrite parse_wrapped, Hd.
  cbn [fold_left text span append]. unfold applyModificationToSegment, reconcile.
  destruct attributes_of_wrapper as [X ->].
  unfold marker, key. destruct styleType; try discriminate.
  - change (cleanupMarkers (cleanupUnderline _))
      with {| currentClasses := [cls StyleClasses.COLORED];
              currentCssVariables :=
                [(String "-" "-styler-text-color", String c2 v2)] |}.
    rewrite reconstructSpan_single.
    unfold emptyWrapperOpening, emptyWrapperHead.
    cbn [append]. rewrite !append_assoc. reflexivity.
  - change (cleanupMarkers (cleanupUnderline _))
      with {| currentClasses := [cls StyleClasses.HIGHLIGHTED];
              currentCssVariables :=
                [(String "-" "-styler-highlight-color", String c2 v2)] |}.
    rewrite reconstructSpan_single.
    unfold emptyWrapperOpening, emptyWrapperHead.
    cbn [append]. rewrite !append_assoc. reflexivity.
Qed.

Lemma decide_on_wrapper w :
  nonEmpty w = true ->
  decideShouldApply
    [ {| text := T; start := String.length opening;
         finish := String.length opening + String.length T;
         span := Some sp |} ] styleType (Some w)
  = negb (String.eqb (toLowerCase V) (toLowerCase w)).
Proof.
  intros Hw. unfold decideShouldApply.
  assert (isValueStyle styleType = true) as ->
    by (destruct styleType; try discriminate; reflexivity).
  unfold truthyValue. rewrite Hw. cbn [fold_left].
  unfold checkSegment. cbn [span]. fold key. rewrite slot_of_wrapper.
  destruct (String.eqb (toLowerCase V) (toLowerCase w)); reflexivity.
Qed.

Lemma decide_remove_on_wrapper :
  decideShouldApply
    [ {| text := T; start := String.length opening;
         finish := String.length opening + String.length T;
         span := Some sp |} ] styleType None = false.
Proof.
  unfold decideShouldApply.
  assert ((if isValueStyle styleType then truthyValue None else None) = None)
    as -> by (now destruct styleType).
  cbn [isStyleActiveInSegments span]. unfold isStyleActiveInSpan.
  assert (varChecks styleType = Some key) as ->
    by (unfold key; destruct styleType; try discriminate; reflexivity).
  rewrite slot_of_wrapper. cbn [truthyValue].
  destruct styleType; try discriminate; reflexivity.
Qed.

End ColoredWrapper.

(** X11.  Text color and highlight toggle off what they toggled on.  On a
    non-empty text in which no place begins with a span tag head, a request
    with a writable value V wraps the text in one wrapper with the marker
    class and the declaration of V; on that result, the same request with
    a value equal to V up to letter case, and the request without a value
    (the remove commands), both give the text back. *)
Theorem value_toggle_round_trip :
  forall settings styleType T V W,
    isColorOrHighlight styleType = true ->
    nonEmpty T = true ->
    noTagHead T = true ->
    writableValue V = true ->
    toLowerCase W = toLowerCase V ->
    let wrapped :=
      emptyWrapperOpening (classNameOf styleType) (varToCheck styleType) V
      ++ T ++ "</span>" in
    toggleStyle settings (Some T) styleType (Some V) = [ ReplaceRange wrapped ]
    /\ toggleStyle settings (Some wrapped) styleType (Some W) = [ ReplaceRange T ]
    /\ toggleStyle settings (Some wrapped) styleType None = [ ReplaceRange T ].
Proof.
  intros settings styleType T V W Hk HT Hfree HV Hsame wrapped. subst wrapped.
  unfold writableValue in HV.
  repeat (apply andb_true_iff in HV as [HV ?]).
  pose proof (toLowerCase_nonEmpty V W Hsame HV) as HW.
  apply String.eqb_eq in H2.
  destruct T as [|a s]; [discriminate|]. destruct V as [|c v]; [discriminate|].
  split; [|split].
  - now apply first_toggle_wraps.
  - apply toggle_off_wrapper; auto.
    rewrite decide_on_wrapper; auto.
    now rewrite Hsame, String.eqb_refl.
  - apply toggle_off_wrapper; auto.
    now apply decide_remove_on_wrapper.
Qed.

Lemma value_toggle_round_trip_witness :
  toggleStyle settings0 (Some "a < b") Highlight (Some "#FFff00")
  = [ ReplaceRange
        (emptyWrapperOpening StyleClasses.HIGHLIGHTED HIGHLIGHT_COLOR "#FFff00"
         ++ "a < b" ++ "</span>") ]
  /\ toggleStyle settings0
       (Some (emptyWrapperOpening StyleClasses.HIGHLIGHTED HIGHLIGHT_COLOR
                "#FFff00" ++ "a < b" ++ "</span>"))
       Highlight (Some "#ffFF00")
     = [ ReplaceRange "a < b" ]
  /\ toggleStyle settings0
       (Some (emptyWrapperOpening StyleClasses.HIGHLIGHTED HIGHLIGHT_COLOR
                "#FFff00" ++ "a < b" ++ "</span>"))
       Highlight None
     = [ ReplaceRange "a < b" ].
Proof.
  apply (value_toggle_round_trip settings0 Highlight "a < b" "#FFff00" "#ffFF00");
    reflexivity.
Defined.

(** X12.  On the wrapper a text-color or highlight request has put around
    a text, a request of the same kind with a value that differs from the
    present one (letter case apart) replaces the value in place: the result
    is the wrapper the new value would have put around the text. *)
Theorem value_toggle_replaces :
  forall settings styleType T V V2,
    isColorOrHighlight styleType = true ->
    nonEmpty T = true ->
    noTagHead T = true ->
    writableValue V = true ->
    nonEmpty V2 = true ->
    toLowerCase V2 <> toLowerCase V ->
    toggleStyle settings
      (Some (emptyWrapperOpening (classNameOf styleType) (varToCheck styleType) V
             ++ T ++ "</span>"))
      styleType (Some V2)
    = [ ReplaceRange
          (emptyWrapperOpening (classNameOf styleType) (varToCheck styleType) V2
           ++ T ++ "</span>") ].
Proof.
  intros settings styleType T V V2 Hk HT Hfree HV HV2 Hdiff.
  unfold writableValue in HV.
  repeat (apply andb_true_iff in HV as [HV ?]).
  apply String.eqb_eq in H2.
  destruct T as [|a s]; [discriminate|]. destruct V as [|c v]; [discriminate|].
  destruct V2 as [|c2 v2]; [discriminate|].
  apply toggle_over_wrapper; auto.
  rewrite decide_on_wrapper; auto.
  apply negb_true_iff. apply String.eqb_neq. congruence.
Qed.

Lemma value_toggle_replaces_witness :
  toggleStyle settings0
    (Some (emptyWrapperOpening StyleClasses.COLORED TEXT_COLOR "#ff0000"
           ++ "a < b" ++ "</span>"))
    Color (Some "#00FF00")
  = [ ReplaceRange
        (emptyWrapperOpening StyleClasses.COLORED TEXT_COLOR "#00FF00"
         ++ "a < b" ++ "</span>") ].
Proof.
  apply (value_toggle_replaces settings0 Color "a < b" "#ff0000" "#00FF00");
    [reflexivity|reflexivity|reflexivity|reflexivity|reflexivity|discriminate].
Defined.

(* ===================================================================== *)
(** ** Colored underline and circled: toggling twice, and replacing *)
(* ===================================================================== *)

Lemma reconstructSpan_double text marker k1 V1 k2 V2 :
  reconstructSpan text
    {| currentClasses := [cls marker];
       currentCssVariables := [(String "-" k1, V1); (String "-" k2, V2)] |}
  = ("<span class=" ++ DQ ++ cls marker ++ DQ ++ " style=" ++ DQ
     ++ String "-" k1 ++ ": " ++ V1 ++ "; " ++ String "-" k2 ++ ": " ++ V2
     ++ ";" ++ DQ ++ ">") ++ text ++ "</span>".
Proof.
  unfold reconstructSpan. cbn [currentClasses currentCssVariables].
  change (uniqueClasses [cls marker]) with [cls marker].
  unfold styleAttrValue. cbn [map join fst snd].
  set (decl := (String "-" k1 ++ ": " ++ V1 ++ ";") ++ " "
               ++ String "-" k2 ++ ": " ++ V2 ++ ";").
  assert (trim decl = decl) as ->.
  { subst decl.
    replace ((String "-" k1 ++ ": " ++ V1 ++ ";") ++ " "
             ++ String "-" k2 ++ ": " ++ V2 ++ ";")
      with (String "-" ((k1 ++ ": " ++ V1 ++ "; " ++ String "-" k2 ++ ": " ++ V2)
                        ++ ";"))
      by (repeat (progress (rewrite ?append_assoc; cbn [append]));
          reflexivity).
    now apply trim_fixed. }
  assert ((0 <? String.length decl)%nat = true) as -> by reflexivity.
  change (0 <? List.length [cls marker])%nat with true.
  cbv beta iota zeta. cbn [orb join].
  subst decl. repeat (progress (rewrite ?append_assoc; cbn [append])).
  reflexivity.
Qed.

Section ThickWrapper.

Variables (settings : PluginSettings) (styleType : StyleType).
Hypothesis Hkind : isThicknessStyle styleType = true.

Let marker := classNameOf styleType.
Let key := varToCheck styleType.
Let tkey := thicknessKey styleType.
Let thick := thicknessOf settings styleType.

Variables (a : ascii) (s : string) (c : ascii) (v : string).
Let T := String a s.
Let V := String c v.
Hypothesis Hfree : noTagHead T = true.
Hypothesis Htrim : trim V = V.
Hypothesis Hsemi : lacks ";" V = true.
Hypothesis Hquote : lacks dquote V = true.
Hypothesis Hangle : lacks ">" V = true.
Hypothesis Hthick : writableThickness thick = true.

Let D (value : string) : string :=
  key ++ ": " ++ value ++ "; " ++ tkey ++ ": " ++ thick ++ "px;".

Let opening := thickWrapperOpening settings styleType V.

Let sp : SpanInfo :=
  {| startTag := opening; startTagOffset := 0; endTagOffset := (-1)%Z;
     classList := [cls marker] |}.

Lemma thick_parts :
  lacks ";" thick = true /\ lacks dquote thick = true /\ lacks ">" thick = true.
Proof.
  unfold writableThickness in Hthick.
  apply andb_true_iff in Hthick as [H H3]. apply andb_true_iff in H as [H1 H2].
  auto.
Qed.

Lemma thick_opening_shape value :
  thickWrapperOpening settings styleType value
  = "<span"
    ++ (" class=" ++ DQ ++ cls marker ++ DQ ++ " style=" ++ DQ ++ D value ++ DQ)
    ++ ">".
Proof.
  unfold thickWrapperOpening, D, marker, key, tkey, thick.
  rewrite !append_assoc. reflexivity.
Qed.

Lemma thick_reconcile_fresh value_c value_v :
  reconcile settings None styleType (Some (String value_c value_v)) true
  = {| currentClasses := [cls marker];
       currentCssVariables :=
         [(key, String value_c value_v); (tkey, thick ++ "px")] |}.
Proof.
  unfold marker, key, tkey, thick.
  destruct styleType; try discriminate; reflexivity.
Qed.

Lemma thick_first_toggle :
  toggleStyle settings (Some T) styleType (Some V)
  = [ ReplaceRange (opening ++ T ++ "</span>") ].
Proof.
  unfold toggleStyle, toggleStyleOn.
  assert ((String.length T =? 0)%nat = false) as -> by reflexivity.
  cbn [andb].
  rewrite (parseSelection_tag_free _ (noTagHead_exec _ Hfree)).
  unfold T. cbv iota. fold T.
  cbn [fold_left text span].
  assert (decideShouldApply
            [{| text := T; start := 0; finish := String.length T;
                span := None |}] styleType (Some V) = true) as ->
    by (destruct styleType; try discriminate; reflexivity).
  unfold applyModificationToSegment. unfold V at 1.
  rewrite thick_reconcile_fresh. fold V.
  unfold opening, thickWrapperOpening. fold marker key tkey thick.
  unfold key, tkey, marker.
  destruct styleType; try discriminate;
    cbn [varToCheck thicknessKey].
  - rewrite (reconstructSpan_double T _ "-styler-underline-color" V
               "-styler-underline-thickness" (thick ++ "px")).
    cbn [append]. unfold UNDERLINE_COLOR, UNDERLINE_THICKNESS.
    repeat (progress (rewrite ?append_assoc; cbn [append])). reflexivity.
  - rewrite (reconstructSpan_double T _ "-styler-circle-color" V
               "-styler-circle-thickness" (thick ++ "px")).
    cbn [append]. unfold CIRCLE_COLOR, CIRCLE_THICKNESS.
    repeat (progress (rewrite ?append_assoc; cbn [append])). reflexivity.
Qed.

Lemma thick_lacks (ch : ascii) value :
  lacks ch value = true -> lacks ch thick = true ->
  lacks ch (key ++ ": ") = true -> lacks ch ("; " ++ tkey ++ ": ") = true ->
  lacks ch "px;" = true ->
  lacks ch (D value) = true.
Proof.
  intros H1 H2 H3 H4 H5. unfold D.
  replace (key ++ ": " ++ value ++ "; " ++ tkey ++ ": " ++ thick ++ "px;")
    with ((key ++ ": ") ++ value ++ ("; " ++ tkey ++ ": ") ++ thick ++ "px;")
    by (rewrite !append_assoc; reflexivity).
  rewrite (lacks_append ch (key ++ ": ")), H3.
  rewrite (lacks_append ch value), H1.
  rewrite (lacks_append ch ("; " ++ tkey ++ ": ")), H4.
  now rewrite lacks_append, H2, H5.
Qed.

Lemma thick_parse :
  parseSelection (opening ++ T ++ "</span>")
  = [ {| text := T; start := String.length opening;
         finish := String.length opening + String.length T;
         span := Some sp |} ].
Proof.
  destruct thick_parts as (_ & _ & Ha).
  assert (lacks ">" (" class=" ++ DQ ++ cls marker ++ DQ ++ " style=" ++ DQ
                     ++ D V ++ DQ) = true) as Hbody.
  { rewrite !lacks_append. rewrite (thick_lacks ">" V Hangle Ha).
    - unfold marker. destruct styleType; try discriminate; reflexivity.
    - unfold key. destruct styleType; try discriminate; reflexivity.
    - unfold tkey. destruct styleType; try discriminate; reflexivity.
    - reflexivity. }
  pose proof (tagRegexAt_opening _ (T ++ "</span>") Hbody) as Hm.
  rewrite <- thick_opening_shape in Hm. fold opening in Hm.
  assert (startsWith "</span" opening = false) as Hs by reflexivity.
  assert (extractClasses opening = [cls marker]) as Hcl.
  { unfold opening, thickWrapperOpening, marker.
    destruct styleType; try discriminate; reflexivity. }
  unfold parseSelection.
  assert (exists fuel, String.length (opening ++ T ++ "</span>") = S (S fuel))
    as [fuel ->].
  { rewrite append_length. unfold T. cbn [append String.length].
    rewrite Nat.add_succ_r.
    unfold opening, thickWrapperOpening.
    cbn [append String.length]. eexists. reflexivity. }
  rewrite parseLoop_opening_tag by assumption.
  unfold T. rewrite (parseLoop_text_then_close fuel _ a s _ Hfree).
  rewrite Hcl. reflexivity.
Qed.

Lemma thick_styleAttrOf : styleAttrOf opening = D V.
Proof.
  destruct thick_parts as (_ & Hq & _).
  assert (lacks dquote (D V) = true) as Hd.
  { apply thick_lacks; auto.
    - unfold key. destruct styleType; try discriminate; reflexivity.
    - unfold tkey. destruct styleType; try discriminate; reflexivity. }
  assert (opening
          = ("<span class=" ++ DQ ++ cls marker ++ DQ ++ " ")
            ++ ("style=" ++ DQ) ++ D V ++ String dquote ">") as ->.
  { unfold opening, thickWrapperOpening, D, marker, key, tkey, thick.
    rewrite !append_assoc. reflexivity. }
  apply styleAttrOf_found; [|exact Hd].
  unfold marker, D, key. destruct styleType; try discriminate;
    intros j Hj; cbn in Hj;
    repeat (destruct j as [|j]; [reflexivity|]); lia.
Qed.

Lemma thick_slot : getCssVariableValue (Some sp) key = Some V.
Proof.
  unfold getCssVariableValue. cbn [startTag sp].
  assert (nonEmpty opening = true) as -> by reflexivity.
  rewrite thick_styleAttrOf.
  assert (valueRegexAt key (D V) = Some V) as Hv.
  { unfold valueRegexAt, D, key.
    destruct styleType; try discriminate;
      cbn [varToCheck UNDERLINE_COLOR CIRCLE_COLOR startsWith append Ascii.eqb
           Bool.eqb andb String.length substringFrom trimStart isWhiteSpace];
      fold V; unfold V at 1; cbn [append trimStart];
      rewrite (trim_fixed_head _ _ Htrim);
      match goal with
      | |- context [takeUntil _ (String c (v ++ String ";" ?r))] =>
          change (String c (v ++ String ";" r)) with (V ++ String ";" r)
      end;
      rewrite (takeUntil_append _ _ _ Hsemi); reflexivity. }
  rewrite (search_at_start _ _ _ Hv).
  cbn [nonEmpty V]. now rewrite Htrim.
Qed.

Lemma thick_attributes :
  exists X Y,
    readAttributes (Some sp)
    = {| currentClasses := [cls marker];
         currentCssVariables := [(key, X); (tkey, Y)] |}.
Proof.
  destruct thick_parts as (Hs & _ & _).
  unfold readAttributes. cbn [startTag classList sp].
  assert (nonEmpty opening = true) as -> by reflexivity.
  rewrite thick_styleAttrOf. unfold D.
  replace (key ++ ": " ++ V ++ "; " ++ tkey ++ ": " ++ thick ++ "px;")
    with ((key ++ ": " ++ V)
          ++ String ";" ((" " ++ tkey ++ ": " ++ thick ++ "px")
                         ++ String ";" ""))
    by (rewrite !append_assoc; reflexivity).
  rewrite split_append.
  - rewrite split_append.
    + cbn [split fold_left]. unfold key, tkey.
      destruct styleType; try discriminate; eexists; eexists; reflexivity.
    + rewrite !lacks_append, Hs. unfold tkey.
      destruct styleType; try discriminate; reflexivity.
  - rewrite !lacks_append, Hsemi. unfold key.
    destruct styleType; try discriminate; reflexivity.
Qed.

Lemma thick_toggle_off value :
  decideShouldApply
    [ {| text := T; start := String.length opening;
         finish := String.length opening + String.length T;
         span := Some sp |} ] styleType value = false ->
  toggleStyle settings (Some (opening ++ T ++ "</span>")) styleType value
  = [ ReplaceRange T ].
Proof.
  intros Hd. unfold toggleStyle, toggleStyleOn.
  assert ((String.length (opening ++ T ++ "</span>") =? 0)%nat = false) as ->
    by reflexivity.
  cbn [andb]. rewrite thick_parse, Hd.
  cbn [fold_left text span append]. unfold applyModificationToSegment, reconcile.
  destruct thick_attributes as (X & Y & ->).
  unfold marker, key, tkey. destruct styleType; try discriminate; reflexivity.
Qed.

Lemma thick_toggle_over c2 v2 :
  decideShouldApply
    [ {| text := T; start := String.length opening;
         finish := String.length opening + String.length T;
         span := Some sp |} ] styleType (Some (String c2 v2)) = true ->
  toggleStyle settings (Some (opening ++ T ++ "</span>")) styleType
    (Some (String c2 v2))
  = [ ReplaceRange
        (thickWrapperOpening settings styleType (String c2 v2)
         ++ T ++ "</span>") ].
Proof.
  intros Hd. unfold toggleStyle, toggleStyleOn.
  assert ((String.length (opening ++ T ++ "</span>") =? 0)%nat = false) as ->
    by reflexivity.
  cbn [andb]. rewrite thick_parse, Hd.
  cbn [fold_left text span append]. unfold applyModificationToSegment, reconcile.
  destruct thick_attributes as (X & Y & ->).
  unfold thickWrapperOpening. fold marker key tkey thick.
  unfold marker, key, tkey, thick. destruct styleType; try discriminate.
  - change (cleanupMarkers (cleanupUnderline _))
      with {| currentClasses := [cls StyleClasses.COLORED_UNDERLINE];
              currentCssVariables :=
                [(String "-" "-styler-underline-color", String c2 v2);
                 (String "-" "-styler-underline-thickness",
                  coloredUnderlineThickness settings ++ "px")] |}.
    rewrite reconstructSpan_double.
    cbn [classNameOf classMap varToCheck thicknessKey thicknessOf
         UNDERLINE_COLOR UNDERLINE_THICKNESS append].
    rewrite !append_assoc. reflexivity.
  - change (cleanupMarkers (cleanupUnderline _))
      with {| currentClasses := [cls StyleClasses.CIRCLED];
              currentCssVariables :=
                [(String "-" "-styler-circle-color", String c2 v2);
                 (String "-" "-styler-circle-thickness",
                  circleThickness settings ++ "px")] |}.
    rewrite reconstructSpan_double.
    cbn [classNameOf classMap varToCheck thicknessKey thicknessOf
         CIRCLE_COLOR CIRCLE_THICKNESS append].
    rewrite !append_assoc. reflexivity.
Qed.

Lemma thick_decide w :
  nonEmpty w = true ->
  decideShouldApply
    [ {| text := T; start := String.length opening;
         finish := String.length opening + String.length T;
         span := Some sp |} ] styleType (Some w)
  = negb (String.eqb (toLowerCase V) (toLowerCase w)).
Proof.
  intros Hw. unfold decideShouldApply.
  assert (isValueStyle styleType = true) as ->
    by (destruct styleType; try discriminate; reflexivity).
  unfold truthyValue. rewrite Hw. cbn [fold_left].
  unfold checkSegment. cbn [span].
  assert (varToCheck styleType = key) as -> by reflexivity.
  rewrite thick_slot.
  destruct (String.eqb (toLowerCase V) (toLowerCase w)); reflexivity.
Qed.

Lemma thick_decide_remove :
  decideShouldApply
    [ {| text := T; start := String.length opening;
         finish := String.length opening + String.length T;
         span := Some sp |} ] styleType None = false.
Proof.
  unfold decideShouldApply.
  assert ((if isValueStyle styleType then truthyValue None else None) = None)
    as -> by (now destruct styleType).
  cbn [isStyleActiveInSegments span]. unfold isStyleActiveInSpan.
  assert (varChecks styleType = Some key) as ->
    by (unfold key; destruct styleType; try discriminate; reflexivity).
  rewrite thick_slot. cbn [truthyValue].
  destruct styleType; try discriminate; cbn [isNull orb andb negb];
    rewrite ?orb_true_r; reflexivity.
Qed.

End ThickWrapper.

(** X13.  Colored underline and circled toggle off what they toggled on.
    On a non-empty text in which no place begins with a span tag head, a
    request with a writable value V wraps the text in one wrapper with the
    marker class, the declaration of V and the thickness of the settings.
    On that result a request with a non-empty value gives the text back
    when the value equals V up to letter case and otherwise the wrapper of
    the new value; a request without a value gives the text back. *)
Theorem thickness_toggle_round_trip :
  forall settings styleType T V W,
    isThicknessStyle styleType = true ->
    nonEmpty T = true ->
    noTagHead T = true ->
    writableValue V = true ->
    writableThickness (thicknessOf settings styleType) = true ->
    nonEmpty W = true ->
    let wrap value :=
      thickWrapperOpening settings styleType value ++ T ++ "</span>" in
    toggleStyle settings (Some T) styleType (Some V) = [ ReplaceRange (wrap V) ]
    /\ toggleStyle settings (Some (wrap V)) styleType (Some W)
       = [ ReplaceRange
             (if String.eqb (toLowerCase V) (toLowerCase W) then T
              else wrap W) ]
    /\ toggleStyle settings (Some (wrap V)) styleType None = [ ReplaceRange T ].
Proof.
  intros settings styleType T V W Hk HT Hfree HV Hth HW wrap. subst wrap.
  cbv beta.
  unfold writableValue in HV.
  repeat (apply andb_true_iff in HV as [HV ?]).
  apply String.eqb_eq in H2.
  destruct T as [|a s]; [discriminate|]. destruct V as [|c v]; [discriminate|].
  destruct W as [|c2 v2]; [discriminate|].
  split; [|split].
  - now apply thick_first_toggle.
  - destruct (String.eqb (toLowerCase (String c v))
                (toLowerCase (String c2 v2))) eqn:E.
    + apply thick_toggle_off; auto.
      rewrite thick_decide; auto. now rewrite E.
    + apply thick_toggle_over; auto.
      rewrite thick_decide; auto. now rewrite E.
  - apply thick_toggle_off; auto.
    now apply thick_decide_remove.
Qed.

Lemma thickness_toggle_round_trip_witness :
  let wrap value :=
    thickWrapperOpening settings0 Circled value ++ "a < b" ++ "</span>" in
  toggleStyle settings0 (Some "a < b") Circled (Some "#FF0000")
  = [ ReplaceRange (wrap "#FF0000") ]
  /\ toggleStyle settings0 (Some (wrap "#FF0000")) Circled (Some "#ff0000")
     = [ ReplaceRange
           (if String.eqb (toLowerCase "#FF0000") (toLowerCase "#ff0000")
            then "a < b" else wrap "#ff0000") ]
  /\ toggleStyle settings0 (Some (wrap "#FF0000")) Circled None
     = [ ReplaceRange "a < b" ].
Proof.
  apply (thickness_toggle_round_trip settings0 Circled "a < b" "#FF0000"
           "#ff0000"); reflexivity.
Defined.

(* ===================================================================== *)
(** ** The text-decoration helpers *)
(* ===================================================================== *)

Section Decorations.

Import TextDecoration.

Lemma trimEnd_allWhite s : allWhite s = true -> trimEnd s = "".
Proof.
  induction s as [|c s IH]; [reflexivity|]. cbn [allWhite trimEnd].
  intros H. apply andb_true_iff in H as [H1 H2]. now rewrite IH, H1.
Qed.

Lemma trimEnd_nil s : trimEnd s = "" -> allWhite s = true.
Proof.
  induction s as [|c s IH]; [reflexivity|]. cbn [allWhite trimEnd].
  destruct (trimEnd s) eqn:E; [|discriminate].
  destruct (isWhiteSpace c); [auto|discriminate].
Qed.

Lemma allWhite_trimStart s : allWhite (trimStart s) = allWhite s.
Proof.
  induction s as [|c s IH]; [reflexivity|]. cbn [trimStart allWhite].
  destruct (isWhiteSpace c) eqn:E; [exact IH|]. cbn [allWhite]. now rewrite E.
Qed.

Lemma blank_allWhite s : String.eqb (trim s) "" = allWhite s.
Proof.
  unfold trim. destruct (allWhite s) eqn:E.
  - rewrite <- allWhite_trimStart in E. now rewrite trimEnd_allWhite.
  - apply String.eqb_neq. intros H. apply trimEnd_nil in H.
    rewrite allWhite_trimStart in H. congruence.
Qed.

Lemma allWhite_append s t : allWhite (s ++ t) = allWhite s && allWhite t.
Proof.
  induction s as [|c s IH]; [reflexivity|]. cbn [append allWhite].
  now rewrite IH, andb_assoc.
Qed.

Lemma allWhite_join x xs :
  allWhite x = false -> allWhite (join " " (x :: xs)) = false.
Proof.
  intros H. rewrite join_cons, allWhite_append, H. reflexivity.
Qed.

Lemma decorationWords_clean s :
  forallb decorationWord (decorationWords s) = true.
Proof.
  unfold decorationWords, decorationWord. rewrite forallb_both.
  rewrite forallb_filter_self.
  now rewrite (forallb_filtered _ _ _ (split_lacks_sep " " s)).
Qed.

Lemma decorationWords_word x :
  decorationWord x = true -> decorationWords x = [x].
Proof.
  unfold decorationWord, decorationWords. intros H.
  apply andb_true_iff in H as [H1 H2].
  rewrite (split_lacking _ _ H2). cbn [filter]. now rewrite H1.
Qed.

Lemma decorationWords_join x xs :
  forallb decorationWord (x :: xs) = true ->
  decorationWords (join " " (x :: xs)) = x :: xs.
Proof.
  intros H. unfold decorationWord in H. rewrite forallb_both in H.
  apply andb_true_iff in H as [H1 H2].
  unfold decorationWords. rewrite (split_join " " x xs H2).
  now apply filter_keeps_all.
Qed.

Lemma forallb_pushed (p : string -> bool) x l :
  p x = true -> forallb p l = true ->
  forallb p (if includes x l then l else (l ++ [x])%list) = true.
Proof.
  intros Hx Hl. destruct (includes x l); [exact Hl|].
  rewrite forallb_app, Hl. cbn. now rewrite Hx.
Qed.

Lemma unset_join x xs :
  forallb decorationWord (x :: xs) = true ->
  unset (Some (join " " (x :: xs)))
  = String.eqb (join " " (x :: xs)) "none".
Proof.
  intros H. cbn [forallb] in H. apply andb_true_iff in H as [H _].
  unfold decorationWord in H. apply andb_true_iff in H as [H _].
  rewrite blank_allWhite in H. apply negb_true_iff in H.
  unfold unset. rewrite blank_allWhite, (allWhite_join _ xs H).
  destruct (join " " (x :: xs)) eqn:E; [|reflexivity].
  pose proof (allWhite_join _ xs H) as H'. now rewrite E in H'.
Qed.

Lemma join_none x xs :
  forallb decorationWord (x :: xs) = true ->
  join " " (x :: xs) = "none" -> x :: xs = ["none"].
Proof.
  intros H E. rewrite <- (decorationWords_join x xs H), E. reflexivity.
Qed.

(** The words of what [addDecoration] returns. *)
Lemma addDecoration_words existing x :
  decorationWord x = true ->
  decorationWords (addDecoration existing x)
  = if unset existing then [x]
    else match existing with
         | Some e =>
             if includes x (decorationWords e) then decorationWords e
             else (decorationWords e ++ [x])%list
         | None => [x]
         end.
Proof.
  intros Hx. unfold addDecoration.
  destruct existing as [e|]; [|now apply decorationWords_word].
  destruct (unset (Some e)); [now apply decorationWords_word|].
  fold (decorationWords e).
  pose proof (forallb_pushed decorationWord x (decorationWords e) Hx
                (decorationWords_clean e)) as Hc.
  destruct (if includes x (decorationWords e) then decorationWords e
            else (decorationWords e ++ [x])%list) as [|y ys] eqn:E;
    [|now apply decorationWords_join].
  destruct (includes x (decorationWords e)) eqn:Ei.
  - rewrite E in Ei. discriminate.
  - now destruct (decorationWords e).
Qed.

Lemma filter_twice {A} (p q : A -> bool) l :
  filter p (filter q l) = filter (fun x => q x && p x) l.
Proof.
  induction l as [|a l IH]; [reflexivity|]. cbn [filter].
  destruct (q a); cbn [filter andb]; [destruct (p a)|]; now rewrite IH.
Qed.

(** [removeDecoration] through the words of its argument. *)
Lemma removeDecoration_words existing x :
  removeDecoration existing x
  = if unset existing then "none"
    else match existing with
         | Some e =>
             match without x (decorationWords e) with
             | [] => "none"
             | parts => join " " parts
             end
         | None => "none"
         end.
Proof.
  unfold removeDecoration. destruct existing as [e|]; [|reflexivity].
  destruct (unset (Some e)); [reflexivity|].
  unfold without, decorationWords. rewrite filter_twice.
  now destruct (filter _ (split " " e)).
Qed.

(** What [addDecoration] returns: the word alone, or the words of the
    value joined, the word among them. *)
Lemma addDecoration_cases existing x :
  decorationWord x = true ->
  (addDecoration existing x = x
   /\ removeDecoration existing x = "none")
  \/ (exists e y ys,
        existing = Some e /\ unset existing = false
        /\ addDecoration existing x = join " " (y :: ys)
        /\ forallb decorationWord (y :: ys) = true
        /\ includes x (y :: ys) = true
        /\ without x (y :: ys) = without x (decorationWords e)).
Proof.
  intros Hx. rewrite removeDecoration_words. unfold addDecoration.
  destruct existing as [e|]; [|now left].
  destruct (unset (Some e)) eqn:Eu; [now left|].
  fold (decorationWords e).
  pose proof (forallb_pushed decorationWord x (decorationWords e) Hx
                (decorationWords_clean e)) as Hc.
  pose proof (includes_pushed x (decorationWords e)) as Hi.
  pose proof (without_pushed x (decorationWords e)) as Hw.
  destruct (if includes x (decorationWords e) then decorationWords e
            else (decorationWords e ++ [x])%list) as [|y ys] eqn:E;
    [discriminate|].
  right. exists e, y, ys. repeat split; auto.
Qed.

Lemma addDecoration_word x :
  decorationWord x = true -> addDecoration (Some x) x = x.
Proof.
  intros Hx. unfold addDecoration. destruct (unset (Some x)); [reflexivity|].
  fold (decorationWords x). rewrite (decorationWords_word x Hx).
  cbn. now rewrite String.eqb_refl.
Qed.

Lemma removeDecoration_word x :
  decorationWord x = true -> removeDecoration (Some x) x = "none".
Proof.
  intros Hx. rewrite removeDecoration_words.
  destruct (unset (Some x)); [reflexivity|].
  rewrite (decorationWords_word x Hx). cbn. now rewrite String.eqb_refl.
Qed.

Lemma includes_single x y : includes x [y] = String.eqb x y.
Proof. cbn. apply orb_false_r. Qed.

(** X14.  [addDecoration] returns a value that has the added word among its
    words, and adding the same word to that value returns it unchanged,
    for every present value and every word that holds a character other
    than white space and no space. *)
Theorem addDecoration_adds_once :
  forall existing add,
    decorationWord add = true ->
    includes add (decorationWords (addDecoration existing add)) = true
    /\ addDecoration (Some (addDecoration existing add)) add
       = addDecoration existing add.
Proof.
  intros existing x Hx.
  destruct (addDecoration_cases existing x Hx)
    as [[-> _]|(e & y & ys & -> & Hu & -> & Hc & Hi & Hw)].
  - rewrite (decorationWords_word x Hx), includes_single, String.eqb_refl.
    split; [reflexivity|now apply addDecoration_word].
  - rewrite (decorationWords_join y ys Hc). split; [exact Hi|].
    unfold addDecoration. rewrite (unset_join y ys Hc).
    destruct (String.eqb (join " " (y :: ys)) "none") eqn:En.
    + apply String.eqb_eq in En. pose proof (join_none y ys Hc En) as Hl.
      rewrite Hl in Hi. rewrite includes_single in Hi.
      apply String.eqb_eq in Hi. rewrite Hl. now subst x.
    + fold (decorationWords (join " " (y :: ys))).
      rewrite (decorationWords_join y ys Hc). now rewrite Hi.
Qed.

Lemma addDecoration_adds_once_witness :
  includes "underline"
    (decorationWords (addDecoration (Some "line-through  overline") "underline"))
  = true
  /\ addDecoration
       (Some (addDecoration (Some "line-through  overline") "underline"))
       "underline"
     = addDecoration (Some "line-through  overline") "underline".
Proof.
  apply (addDecoration_adds_once (Some "line-through  overline") "underline").
  reflexivity.
Defined.

(** X15.  [removeDecoration] undoes [addDecoration]: removing a word from
    what [addDecoration] made of a value gives what removing it from the
    value gives, and the removed word is never among the words of the
    result.  The word holds a character other than white space and no
    space and is not [none]. *)
Theorem removeDecoration_undoes_addDecoration :
  forall existing word,
    decorationWord word = true ->
    word <> "none" ->
    removeDecoration (Some (addDecoration existing word)) word
    = removeDecoration existing word
    /\ includes word (decorationWords (removeDecoration existing word)) = false.
Proof.
  intros existing x Hx Hnone.
  assert (includes x (decorationWords "none") = false) as Hn.
  { change (decorationWords "none") with ["none"].
    rewrite includes_single. now apply String.eqb_neq. }
  split.
  - destruct (addDecoration_cases existing x Hx)
      as [[-> ->]|(e & y & ys & -> & Hu & -> & Hc & Hi & Hw)].
    + now apply removeDecoration_word.
    + rewrite !removeDecoration_words, Hu, (unset_join y ys Hc).
      destruct (String.eqb (join " " (y :: ys)) "none") eqn:En.
      * apply String.eqb_eq in En. pose proof (join_none y ys Hc En) as Hl.
        rewrite Hl in Hi. rewrite includes_single in Hi.
        apply String.eqb_eq in Hi. contradiction.
      * rewrite (decorationWords_join y ys Hc). now rewrite Hw.
  - rewrite removeDecoration_words.
    destruct (unset existing); [exact Hn|].
    destruct existing as [e|]; [|exact Hn].
    destruct (without x (decorationWords e)) as [|y ys] eqn:E; [exact Hn|].
    assert (forallb decorationWord (y :: ys) = true) as Hc.
    { rewrite <- E. unfold without. apply forallb_filtered.
      apply decorationWords_clean. }
    rewrite (decorationWords_join y ys Hc), <- E.
    rewrite includes_without, String.eqb_refl. apply andb_false_r.
Qed.

Lemma removeDecoration_undoes_addDecoration_witness :
  removeDecoration (Some (addDecoration (Some "line-through") "underline"))
    "underline"
  = removeDecoration (Some "line-through") "underline"
  /\ includes "underline"
       (decorationWords (removeDecoration (Some "line-through") "underline"))
     = false.
Proof.
  apply (removeDecoration_undoes_addDecoration (Some "line-through") "underline");
    [reflexivity|discriminate].
Defined.

End Decorations.

(* ===================================================================== *)
(** ** Slots: settings, cycling, the slot-count field, the color commands *)
(* ===================================================================== *)

Section Slots.

Import TextStyler.

(** *** The copy loop *)

Lemma assign_length i x xs : List.length (assign i x xs) = List.length xs.
Proof.
  revert i. induction xs as [|y xs IH]; intros i; [now destruct i|].
  destruct i; cbn [assign List.length]; [reflexivity|now rewrite IH].
Qed.

Lemma firstn_assign i x xs :
  i < List.length xs ->
  firstn (S i) (assign i x xs) = (firstn i xs ++ [x])%list.
Proof.
  revert i. induction xs as [|y xs IH]; intros i H; [simpl in H; lia|].
  destruct i as [|i]; [reflexivity|].
  cbn [assign]. rewrite firstn_cons, IH by (simpl in H; lia). reflexivity.
Qed.

Lemma skipn_assign i k x xs :
  i < k -> skipn k (assign i x xs) = skipn k xs.
Proof.
  revert i k. induction xs as [|y xs IH]; intros i k H; [now destruct i|].
  destruct k as [|k]; [lia|]. destruct i as [|i]; [reflexivity|].
  cbn [assign skipn]. apply IH. lia.
Qed.

Lemma firstn_skipn_step i count (old : list string) :
  i < List.length old ->
  firstn (S count) (skipn i old)
  = nth i old "" :: firstn count (skipn (S i) old).
Proof.
  revert i. induction old as [|y old IH]; intros i H; [simpl in H; lia|].
  destruct i as [|i]; [reflexivity|].
  cbn [skipn nth]. rewrite IH by (simpl in H; lia). reflexivity.
Qed.

Lemma copyLoop_spec count :
  forall i old fresh,
    i + count <= List.length old ->
    i + count <= List.length fresh ->
    copyLoop count i old fresh
    = (firstn i fresh ++ firstn count (skipn i old)
       ++ skipn (i + count) fresh)%list.
Proof.
  induction count as [|count IH]; intros i old fresh Ho Hf.
  - cbn [copyLoop firstn app]. rewrite Nat.add_0_r. symmetry.
    apply firstn_skipn.
  - cbn [copyLoop]. rewrite IH by (rewrite ?assign_length; lia).
    rewrite firstn_assign by lia.
    rewrite skipn_assign by lia.
    rewrite firstn_skipn_step by lia.
    rewrite <- app_assoc. cbn [app].
    now replace (S i + count) with (i + S count) by lia.
Qed.

Lemma skipn_repeat {A} (d : A) k n : skipn k (repeat d n) = repeat d (n - k).
Proof.
  revert k. induction n as [|n IH]; intros k; [now destruct k|].
  destruct k as [|k]; [reflexivity|]. cbn [repeat skipn]. apply IH.
Qed.

Lemma copyLoop_fitTo n d old :
  copyLoop (Nat.min (List.length old) n) 0 old (repeat d n) = fitTo n d old.
Proof.
  rewrite copyLoop_spec by (rewrite ?repeat_length; lia).
  cbn [firstn skipn app Nat.add]. rewrite skipn_repeat. unfold fitTo.
  destruct (Nat.le_gt_cases (List.length old) n) as [H|H].
  - rewrite Nat.min_l by exact H. rewrite firstn_all.
    rewrite firstn_all2; [reflexivity|].
    rewrite length_app, repeat_length. lia.
  - rewrite Nat.min_r by lia.
    replace (n - n) with 0 by lia. replace (n - List.length old) with 0 by lia.
    cbn [repeat]. now rewrite !app_nil_r.
Qed.

Lemma fitTo_length n d old : List.length (fitTo n d old) = n.
Proof.
  unfold fitTo. rewrite length_firstn, length_app, repeat_length. lia.
Qed.

Lemma fitTo_same d old : fitTo (List.length old) d old = old.
Proof.
  unfold fitTo. rewrite Nat.sub_diag. cbn [repeat]. rewrite app_nil_r.
  apply firstn_all.
Qed.

(** What a [Resize/Initialize] block leaves when [Array] accepts the
    count. *)
Lemma resize_fitTo slots colors d :
  arrayLength slots = true
  \/ (exists old, colors = Some old /\ Z.of_nat (List.length old) = slots) ->
  resize slots colors d
  = Some (fitTo (Z.to_nat slots) d
            (match colors with Some old => old | None => [] end)).
Proof.
  intros H. unfold resize.
  destruct colors as [old|].
  - destruct (Z.eqb_spec (Z.of_nat (List.length old)) slots) as [E|E].
    + rewrite <- E, Nat2Z.id. now rewrite fitTo_same.
    + destruct H as [H|(old' & [= <-] & H)]; [|contradiction].
      unfold arrayFill. unfold arrayLength in H. rewrite H.
      apply andb_true_iff in H as [H1 H2]. apply Z.leb_le in H1.
      rewrite Z2Nat.inj_min, Nat2Z.id. now rewrite copyLoop_fitTo.
  - destruct H as [H|(old' & [=] & _)].
    unfold arrayFill. unfold arrayLength in H. rewrite H.
    unfold fitTo. cbn [app List.length]. rewrite Nat.sub_0_r.
    rewrite firstn_all2 by (rewrite repeat_length; lia). reflexivity.
Qed.

(** X16.  When the two slot counts are lengths [Array] accepts,
    [ensureColorArraysMatchSlots] returns settings with the same counts in
    which each color list has exactly as many entries as its count: the
    stored list cut, or padded, to that length (filled throughout when no
    list was stored).  The color of the padding is the first color that
    the list of [DEFAULT_SETTINGS] holds when the function is called, and
    the literal fallback when that color is missing or empty.  Each
    selected index is not negative and, when the count is positive, below
    the count. *)
Theorem ensureColorArraysMatchSlots_fits :
  forall defaults st,
    arrayLength (Stored.textColorSlots st) = true ->
    arrayLength (Stored.highlightColorSlots st) = true ->
    exists s,
      ensureColorArraysMatchSlots defaults st = Some s
      /\ slotsMatch s = true
      /\ textColorSlots s = Stored.textColorSlots st
      /\ highlightColorSlots s = Stored.highlightColorSlots st
      /\ textColors s
         = fitTo (Z.to_nat (textColorSlots s)) (fillColor OfText defaults)
             (storedColors (Stored.textColors st))
      /\ highlightColors s
         = fitTo (Z.to_nat (highlightColorSlots s))
             (fillColor OfHighlight defaults)
             (storedColors (Stored.highlightColors st))
      /\ (0 <= selectedTextColorIndex s
          /\ (0 < textColorSlots s ->
              selectedTextColorIndex s < textColorSlots s))%Z
      /\ (0 <= selectedHighlightColorIndex s
          /\ (0 < highlightColorSlots s ->
              selectedHighlightColorIndex s < highlightColorSlots s))%Z.
Proof.
  intros defaults st Ht Hh. unfold ensureColorArraysMatchSlots.
  rewrite (resize_fitTo _ _ _ (or_introl Ht)).
  rewrite (resize_fitTo _ _ _ (or_introl Hh)).
  eexists. split; [reflexivity|]. cbn [textColorSlots highlightColorSlots
    textColors highlightColors selectedTextColorIndex
    selectedHighlightColorIndex].
  unfold arrayLength in Ht, Hh.
  apply andb_true_iff in Ht as [Ht _]. apply Z.leb_le in Ht.
  apply andb_true_iff in Hh as [Hh _]. apply Z.leb_le in Hh.
  split.
  { unfold slotsMatch. cbn [textColorSlots highlightColorSlots textColors
      highlightColors]. rewrite !fitTo_length, !Z2Nat.id by assumption.
    now rewrite !Z.eqb_refl. }
  repeat split; try reflexivity; lia.
Qed.

Lemma ensureColorArraysMatchSlots_fits_witness :
  let defaults :=
    {| defaultTextColors := ["#abcdef"; "#000000"];
       defaultHighlightColors := [];
       defaultColoredUnderlineThickness := "3";
       defaultCircleThickness := "2" |} in
  let st :=
    {| Stored.textColorSlots := 3;
       Stored.textColors := Some ["#111111"; "#222222"];
       Stored.selectedTextColorIndex := Some 7%Z;
       Stored.highlightColorSlots := 2;
       Stored.highlightColors := None;
       Stored.selectedHighlightColorIndex := None;
       Stored.coloredUnderlineThickness := None;
       Stored.circleThickness := Some "4" |} in
  exists s,
    ensureColorArraysMatchSlots defaults st = Some s
    /\ textColors s = ["#111111"; "#222222"; "#abcdef"]
    /\ highlightColors s = ["#ffff00"; "#ffff00"]
    /\ selectedTextColorIndex s = 2%Z.
Proof.
  intros defaults st.
  destruct (ensureColorArraysMatchSlots_fits defaults st eq_refl eq_refl)
    as (s & Hs & _).
  exists s. split; [exact Hs|]. injection Hs as <-. repeat split.
Defined.

Lemma resize_length slots colors d l :
  resize slots colors d = Some l -> Z.of_nat (List.length l) = slots.
Proof.
  unfold resize. destruct colors as [old|].
  - destruct (Z.eqb_spec (Z.of_nat (List.length old)) slots) as [E|E];
      [now intros [= <-]|].
    unfold arrayFill.
    destruct ((0 <=? slots) && (slots <? 2 ^ 32))%Z eqn:Ea; [|discriminate].
    intros [= <-]. apply andb_true_iff in Ea as [Ea _]. apply Z.leb_le in Ea.
    rewrite Z2Nat.inj_min, Nat2Z.id, copyLoop_fitTo, fitTo_length.
    now apply Z2Nat.id.
  - unfold arrayFill.
    destruct ((0 <=? slots) && (slots <? 2 ^ 32))%Z eqn:Ea; [|discriminate].
    intros [= <-]. apply andb_true_iff in Ea as [Ea _]. apply Z.leb_le in Ea.
    rewrite repeat_length. now apply Z2Nat.id.
Qed.

(** What the function returns, whenever it returns. *)
Lemma ensureColorArraysMatchSlots_shape defaults st s :
  ensureColorArraysMatchSlots defaults st = Some s ->
  slotsMatch s = true
  /\ selectedTextColorIndex s
     = Z.max 0 (Z.min (selectedTextColorIndex s) (textColorSlots s - 1))
  /\ selectedHighlightColorIndex s
     = Z.max 0 (Z.min (selectedHighlightColorIndex s)
                  (highlightColorSlots s - 1)).
Proof.
  intros H. unfold ensureColorArraysMatchSlots in H.
  destruct (resize (Stored.textColorSlots st) (Stored.textColors st) _)
    as [tc|] eqn:Et; [|discriminate].
  destruct (resize (Stored.highlightColorSlots st) (Stored.highlightColors st)
              _) as [hc|] eqn:Eh; [|discriminate].
  apply resize_length in Et, Eh. injection H as <-.
  unfold slotsMatch.
  cbn [textColorSlots highlightColorSlots textColors highlightColors
       selectedTextColorIndex selectedHighlightColorIndex].
  rewrite Et, Eh, !Z.eqb_refl.
  split; [reflexivity|]. split; lia.
Qed.

(** X17.  What [ensureColorArraysMatchSlots] returns has color lists as
    long as the slot counts say, and passes through the function
    unchanged. *)
Theorem ensureColorArraysMatchSlots_idempotent :
  forall defaults st s,
    ensureColorArraysMatchSlots defaults st = Some s ->
    slotsMatch s = true
    /\ ensureColorArraysMatchSlots defaults (store s) = Some s.
Proof.
  intros defaults st s H.
  destruct (ensureColorArraysMatchSlots_shape defaults st s H)
    as (Hm & Ht & Hh).
  split; [exact Hm|].
  unfold slotsMatch in Hm. apply andb_true_iff in Hm as [Lt Lh].
  apply Z.eqb_eq in Lt, Lh.
  destruct s as [ts tc ti hs hc hi ut ct].
  cbn [textColorSlots highlightColorSlots textColors highlightColors
       selectedTextColorIndex selectedHighlightColorIndex] in *.
  unfold ensureColorArraysMatchSlots, store, resize.
  cbn [Stored.textColorSlots Stored.textColors Stored.selectedTextColorIndex
       Stored.highlightColorSlots Stored.highlightColors
       Stored.selectedHighlightColorIndex Stored.coloredUnderlineThickness
       Stored.circleThickness textColorSlots highlightColorSlots textColors
       highlightColors selectedTextColorIndex selectedHighlightColorIndex
       coloredUnderlineThickness circleThickness orZero].
  rewrite Lt, Lh, !Z.eqb_refl. do 2 f_equal; now symmetry.
Qed.

Lemma ensureColorArraysMatchSlots_idempotent_witness :
  let defaults := DEFAULT_SETTINGS "3" "2" in
  let s :=
    {| textColorSlots := 2; textColors := ["#111111"; "#000000"];
       selectedTextColorIndex := 0;
       highlightColorSlots := 1; highlightColors := ["#ffff00"];
       selectedHighlightColorIndex := 0;
       coloredUnderlineThickness := "3"; circleThickness := "2" |} in
  slotsMatch s = true
  /\ ensureColorArraysMatchSlots defaults (store s) = Some s.
Proof.
  intros defaults s.
  apply (ensureColorArraysMatchSlots_idempotent defaults
           {| Stored.textColorSlots := 2;
              Stored.textColors := Some ["#111111"];
              Stored.selectedTextColorIndex := Some (-4)%Z;
              Stored.highlightColorSlots := 1;
              Stored.highlightColors := None;
              Stored.selectedHighlightColorIndex := None;
              Stored.coloredUnderlineThickness := None;
              Stored.circleThickness := None |} s).
  reflexivity.
Defined.

(** *** Cycling *)

Lemma nextIndex_range direction idx n :
  (0 <= idx < n)%Z -> (0 <= nextIndex direction idx n < n)%Z.
Proof.
  intros H. unfold nextIndex.
  destruct direction; rewrite Z.rem_mod_nonneg by lia;
    apply Z.mod_pos_bound; lia.
Qed.

Lemma nextIndex_back_forth idx n :
  (0 <= idx < n)%Z ->
  nextIndex Backward (nextIndex Forward idx n) n = idx
  /\ nextIndex Forward (nextIndex Backward idx n) n = idx.
Proof.
  intros H. pose proof (nextIndex_range Forward idx n H) as Hf.
  pose proof (nextIndex_range Backward idx n H) as Hb.
  unfold nextIndex in *.
  rewrite (Z.rem_mod_nonneg (idx + 1)) in * by lia.
  rewrite (Z.rem_mod_nonneg (idx - 1 + n)) in * by lia.
  rewrite (Z.rem_mod_nonneg ((idx + 1) mod n - 1 + n)) by lia.
  rewrite (Z.rem_mod_nonneg ((idx - 1 + n) mod n + 1)) by lia.
  split.
  - destruct (Z.eq_dec (idx + 1) n) as [E|E].
    + rewrite E, Z_mod_same_full.
      replace (0 - 1 + n)%Z with idx by lia. apply Z.mod_small. lia.
    + rewrite (Z.mod_small (idx + 1)) by lia.
      replace (idx + 1 - 1 + n)%Z with (idx + 1 * n)%Z by lia.
      rewrite Z_mod_plus_full. apply Z.mod_small. lia.
  - destruct (Z.eq_dec idx 0) as [E|E].
    + subst idx. replace (0 - 1 + n)%Z with (n - 1)%Z by lia.
      rewrite (Z.mod_small (n - 1)) by lia.
      replace (n - 1 + 1)%Z with n by lia. apply Z_mod_same_full.
    + replace (idx - 1 + n)%Z with (idx - 1 + 1 * n)%Z by lia.
      rewrite Z_mod_plus_full, (Z.mod_small (idx - 1)) by lia.
      replace (idx - 1 + 1)%Z with idx by lia. apply Z.mod_small. lia.
Qed.

(** X18.  With a selected index inside the slots, [cycleColorSlot] keeps
    the index inside the slots in both directions, and a step forward
    followed by a step backward, or the other way round, gives the settings
    back. *)
Theorem cycleColorSlot_stays_and_returns :
  forall type s,
    (0 <= selectedOf type s < slotsOf type s)%Z ->
    (forall direction,
        0 <= selectedOf type (cycleColorSlot type direction s)
          < slotsOf type s)%Z
    /\ cycleColorSlot type Backward (cycleColorSlot type Forward s) = s
    /\ cycleColorSlot type Forward (cycleColorSlot type Backward s) = s.
Proof.
  intros type s H.
  destruct (nextIndex_back_forth _ _ H) as [Hbf Hfb].
  destruct s as [ts tc ti hs hc hi ut ct].
  destruct type; cbn [selectedOf slotsOf selectedTextColorIndex textColorSlots
    selectedHighlightColorIndex highlightColorSlots] in *;
    unfold cycleColorSlot;
    cbn [selectedTextColorIndex textColorSlots selectedHighlightColorIndex
         highlightColorSlots textColors highlightColors
         coloredUnderlineThickness circleThickness].
  - assert ((ts <=? 0)%Z = false) as -> by (apply Z.leb_gt; lia).
    cbn [selectedTextColorIndex textColorSlots selectedHighlightColorIndex
         highlightColorSlots textColors highlightColors
         coloredUnderlineThickness circleThickness].
    assert ((ts <=? 0)%Z = false) as -> by (apply Z.leb_gt; lia).
    split; [intros d; cbn [selectedOf selectedTextColorIndex];
            now apply nextIndex_range|].
    now rewrite Hbf, Hfb.
  - assert ((hs <=? 0)%Z = false) as -> by (apply Z.leb_gt; lia).
    cbn [selectedTextColorIndex textColorSlots selectedHighlightColorIndex
         highlightColorSlots textColors highlightColors
         coloredUnderlineThickness circleThickness].
    assert ((hs <=? 0)%Z = false) as -> by (apply Z.leb_gt; lia).
    split; [intros d; cbn [selectedOf selectedHighlightColorIndex];
            now apply nextIndex_range|].
    now rewrite Hbf, Hfb.
Qed.

Lemma cycleColorSlot_stays_and_returns_witness :
  let s :=
    {| textColorSlots := 3; textColors := ["#111111"; "#222222"; "#333333"];
       selectedTextColorIndex := 2;
       highlightColorSlots := 1; highlightColors := ["#ffff00"];
       selectedHighlightColorIndex := 0;
       coloredUnderlineThickness := "3"; circleThickness := "2" |} in
  (forall direction,
      0 <= selectedOf OfText (cycleColorSlot OfText direction s) < 3)%Z
  /\ cycleColorSlot OfText Backward (cycleColorSlot OfText Forward s) = s
  /\ cycleColorSlot OfText Forward (cycleColorSlot OfText Backward s) = s.
Proof.
  intros s.
  apply (cycleColorSlot_stays_and_returns OfText s). cbn. lia.
Defined.

(** *** The slot-count field *)

Lemma clampSlots_range parsed :
  (1 <= clampSlots parsed <= MAX_COLOR_SLOTS)%Z.
Proof.
  unfold clampSlots, MAX_COLOR_SLOTS.
  destruct parsed as [|n|[]]; [lia| |lia|lia].
  destruct (Z.ltb_spec n 1);
    match goal with |- context [(20 <? ?x)%Z] =>
      destruct (Z.ltb_spec 20 x) end; lia.
Qed.

(** What the [onChange] of a slot-count field leaves, for the count [num]
    it settles on. *)
Lemma onSlotCountChange_shape type value p :
  slotsMatch (settings p) = true ->
  let num := clampSlots (JSNumber.parseInt value) in
  exists p',
    onSlotCountChange type value p = Some p'
    /\ defaultSettings p' = defaultSettings p
    /\ slotsOf type (settings p') = num
    /\ slotsMatch (settings p') = true
    /\ colorsOf type (settings p')
       = fitTo (Z.to_nat num) (fillColor type (defaultSettings p))
           (colorsOf type (settings p))
    /\ selectedOf type (settings p')
       = Z.max 0 (Z.min (selectedOf type (settings p)) (num - 1))
    /\ sharesColors type p'
       = sharesColors type p && (num =? slotsOf type (settings p))%Z.
Proof.
  intros Hm num.
  pose proof (clampSlots_range (JSNumber.parseInt value)) as Hr.
  fold num in Hr.
  assert (arrayLength num = true) as Ha.
  { unfold arrayLength, MAX_COLOR_SLOTS in *.
    apply andb_true_iff. split; [apply Z.leb_le|apply Z.ltb_lt]; lia. }
  unfold slotsMatch in Hm. apply andb_true_iff in Hm as [Hmt Hmh].
  apply Z.eqb_eq in Hmt, Hmh.
  unfold onSlotCountChange, saveSettings, ensureOn,
    ensureColorArraysMatchSlots. fold num.
  destruct type; unfold store;
    cbn [settings defaultSettings sharesTextColors sharesHighlightColors
         Stored.textColorSlots Stored.textColors Stored.selectedTextColorIndex
         Stored.highlightColorSlots Stored.highlightColors
         Stored.selectedHighlightColorIndex Stored.coloredUnderlineThickness
         Stored.circleThickness textColorSlots highlightColorSlots textColors
         highlightColors selectedTextColorIndex selectedHighlightColorIndex
         coloredUnderlineThickness circleThickness orZero].
  - rewrite (resize_fitTo num _ _ (or_introl Ha)).
    rewrite (resize_fitTo (highlightColorSlots (settings p))
               (Some (highlightColors (settings p))) _
               (or_intror (ex_intro _ _ (conj eq_refl Hmh)))).
    eexists. split; [reflexivity|].
    cbn [settings defaultSettings sharesTextColors sharesColors slotsOf
         colorsOf selectedOf textColorSlots textColors selectedTextColorIndex
         fillColor keepsArray].
    split; [reflexivity|]. split; [reflexivity|]. split.
    { unfold slotsMatch. cbn [textColorSlots highlightColorSlots textColors
        highlightColors]. rewrite !fitTo_length, !Z2Nat.id by lia.
      now rewrite !Z.eqb_refl. }
    split; [reflexivity|]. split; [reflexivity|].
    rewrite Hmt. f_equal. apply Z.eqb_sym.
  - rewrite (resize_fitTo (textColorSlots (settings p))
               (Some (textColors (settings p))) _
               (or_intror (ex_intro _ _ (conj eq_refl Hmt)))).
    rewrite (resize_fitTo num _ _ (or_introl Ha)).
    eexists. split; [reflexivity|].
    cbn [settings defaultSettings sharesHighlightColors sharesColors slotsOf
         colorsOf selectedOf highlightColorSlots highlightColors
         selectedHighlightColorIndex fillColor keepsArray].
    split; [reflexivity|]. split; [reflexivity|]. split.
    { unfold slotsMatch. cbn [textColorSlots highlightColorSlots textColors
        highlightColors]. rewrite !fitTo_length, !Z2Nat.id by lia.
      now rewrite !Z.eqb_refl. }
    split; [reflexivity|]. split; [reflexivity|].
    rewrite Hmh. f_equal. apply Z.eqb_sym.
Qed.

(** X19.  Whatever text is entered in a slot-count field, when the color
    lists matched their counts before, the settings that are saved have a
    count between 1 and [MAX_COLOR_SLOTS] for that field, color lists that
    match the counts and a selected index inside the slots.  The colors of
    the field are the old ones, cut or padded to the count; the color of
    the padding is the first color that the list of [DEFAULT_SETTINGS]
    holds at that moment, and the literal fallback when that color is
    missing or empty.  [DEFAULT_SETTINGS] is left as it is, and a list
    that was its array is still its array exactly when the count is the
    length it had. *)
Theorem onSlotCountChange_keeps_slots_in_range :
  forall type value p,
    slotsMatch (settings p) = true ->
    exists p',
      onSlotCountChange type value p = Some p'
      /\ defaultSettings p' = defaultSettings p
      /\ (1 <= slotsOf type (settings p') <= MAX_COLOR_SLOTS)%Z
      /\ slotsMatch (settings p') = true
      /\ colorsOf type (settings p')
         = fitTo (Z.to_nat (slotsOf type (settings p')))
             (fillColor type (defaultSettings p))
             (colorsOf type (settings p))
      /\ (0 <= selectedOf type (settings p') < slotsOf type (settings p'))%Z
      /\ sharesColors type p'
         = sharesColors type p
           && (slotsOf type (settings p') =? slotsOf type (settings p))%Z.
Proof.
  intros type value p Hm.
  destruct (onSlotCountChange_shape type value p Hm)
    as (p' & Hp & Hd & Hn & Hs & Hc & Hi & Hsh).
  pose proof (clampSlots_range (JSNumber.parseInt value)) as Hr.
  exists p'. rewrite Hn, Hi.
  split; [exact Hp|]. split; [exact Hd|]. split; [exact Hr|].
  split; [exact Hs|]. split; [exact Hc|].
  split; [unfold MAX_COLOR_SLOTS in Hr; lia|exact Hsh].
Qed.

Lemma onSlotCountChange_keeps_slots_in_range_witness :
  let p :=
    {| defaultSettings :=
         {| defaultTextColors := ["#abcdef"];
            defaultHighlightColors := [];
            defaultColoredUnderlineThickness := "3";
            defaultCircleThickness := "2" |};
       settings :=
         {| textColorSlots := 2; textColors := ["#111111"; "#222222"];
            selectedTextColorIndex := 1;
            highlightColorSlots := 1; highlightColors := ["#ffff00"];
            selectedHighlightColorIndex := 0;
            coloredUnderlineThickness := "3"; circleThickness := "2" |};
       sharesTextColors := false;
       sharesHighlightColors := false |} in
  exists p',
    onSlotCountChange OfText " 0x1f slots" p = Some p'
    /\ slotsOf OfText (settings p') = MAX_COLOR_SLOTS
    /\ colorsOf OfText (settings p')
       = (["#111111"; "#222222"] ++ repeat "#abcdef" 18)%list.
Proof.
  intros p.
  destruct (onSlotCountChange_keeps_slots_in_range OfText " 0x1f slots" p
              eq_refl) as (p' & H & _).
  exists p'. split; [exact H|]. injection H as <-. split; reflexivity.
Defined.

(** *** A list that is still the array of the defaults *)

(** X25.  A color list that is still the array of [DEFAULT_SETTINGS]
    passes its first color on to new slots.  [loadSettings] leaves both
    lists so when nothing is stored, each with the first of five slots
    selected.  On an instance whose list of a kind is so shared, with the
    first of its slots selected, giving that slot the color c through the
    color modal and then entering a slot count gives the old colors with c
    in the first place, cut or padded to the new count with c itself. *)
Theorem shared_default_color_fills_new_slots :
  forall type color value,
    nonEmpty color = true ->
    (forall underlineThickness circleThickness,
        exists p,
          loadSettings (DEFAULT_SETTINGS underlineThickness circleThickness)
            Data.nothing = Some p
          /\ sharesColors type p = true
          /\ slotsMatch (settings p) = true
          /\ selectedOf type (settings p) = 0%Z
          /\ slotsOf type (settings p) = DEFAULT_COLOR_SLOTS)
    /\ (forall p,
           sharesColors type p = true ->
           slotsMatch (settings p) = true ->
           selectedOf type (settings p) = 0%Z ->
           (0 < slotsOf type (settings p))%Z ->
           exists p',
             onSlotCountChange type value (openColorChangeModal type color p)
             = Some p'
             /\ colorsOf type (settings p')
                = fitTo (Z.to_nat (slotsOf type (settings p'))) color
                    (color :: tl (colorsOf type (settings p)))).
Proof.
  intros type color value Hc. split.
  - intros u c. eexists. split; [reflexivity|]. now destruct type.
  - intros p Hs Hm Hi Hpos.
    assert (exists c rest, colorsOf type (settings p) = c :: rest)
      as (c & rest & Hl).
    { unfold slotsMatch in Hm. apply andb_true_iff in Hm as [Ht Hh].
      apply Z.eqb_eq in Ht, Hh.
      destruct type; cbn [slotsOf colorsOf] in *.
      - destruct (textColors (settings p)) as [|c rest];
          [simpl in Ht; lia|now exists c, rest].
      - destruct (highlightColors (settings p)) as [|c rest];
          [simpl in Hh; lia|now exists c, rest]. }
    set (q := openColorChangeModal type color p).
    assert (slotsMatch (settings q) = true
            /\ colorsOf type (settings q) = color :: rest
            /\ fillColor type (defaultSettings q) = color) as (Hq1 & Hq2 & Hq3).
    { subst q. unfold slotsMatch in *. destruct p as [d s st sh].
      destruct s as [ts tc ti hs hc hi ut ct].
      destruct type;
        cbn [sharesColors sharesTextColors sharesHighlightColors settings
             slotsOf colorsOf selectedOf textColorSlots textColors
             selectedTextColorIndex highlightColorSlots highlightColors
             selectedHighlightColorIndex] in *;
        subst; unfold openColorChangeModal;
        cbn [settings defaultSettings sharesTextColors sharesHighlightColors
             textColorSlots textColors selectedTextColorIndex
             highlightColorSlots highlightColors selectedHighlightColorIndex
             coloredUnderlineThickness circleThickness List.length].
      - assert (Z.max 0 (Z.min 0 (Z.of_nat (S (List.length rest)) - 1)) = 0%Z)
          as -> by lia.
        assert ((0 <? Z.of_nat (S (List.length rest)))%Z = true) as ->
          by (apply Z.ltb_lt; lia).
        cbn [Z.to_nat assign settings defaultSettings textColors
             highlightColors textColorSlots highlightColorSlots colorsOf
             fillColor defaultTextColors List.length].
        split; [exact Hm|]. split; [reflexivity|].
        unfold elementAt. cbn. now rewrite Hc.
      - assert (Z.max 0 (Z.min 0 (Z.of_nat (S (List.length rest)) - 1)) = 0%Z)
          as -> by lia.
        assert ((0 <? Z.of_nat (S (List.length rest)))%Z = true) as ->
          by (apply Z.ltb_lt; lia).
        cbn [Z.to_nat assign settings defaultSettings textColors
             highlightColors textColorSlots highlightColorSlots colorsOf
             fillColor defaultHighlightColors List.length].
        split; [exact Hm|]. split; [reflexivity|].
        unfold elementAt. cbn. now rewrite Hc. }
    destruct (onSlotCountChange_shape type value q Hq1)
      as (p' & Hp & _ & Hn & _ & Hcol & _).
    exists p'. split; [exact Hp|].
    rewrite Hn, Hcol, Hq2, Hq3, Hl. reflexivity.
Qed.

Lemma shared_default_color_fills_new_slots_witness :
  exists p p',
    loadSettings (DEFAULT_SETTINGS "3" "2") Data.nothing = Some p
    /\ onSlotCountChange OfText "7" (openColorChangeModal OfText "#ff0000" p)
       = Some p'
    /\ textColors (settings p')
       = ["#ff0000"; "#000000"; "#000000"; "#000000"; "#000000"; "#ff0000";
          "#ff0000"].
Proof.
  destruct (shared_default_color_fills_new_slots OfText "#ff0000" "7" eq_refl)
    as [H1 H2].
  destruct (H1 "3" "2") as (p & Hp & Hs & Hm & Hi & Hn).
  destruct (H2 p Hs Hm Hi) as (p' & Hp' & Hcol).
  { rewrite Hn. reflexivity. }
  exists p, p'. split; [exact Hp|]. split; [exact Hp'|].
  injection Hp as <-. injection Hp' as <-. reflexivity.
Defined.

(** *** The color commands *)

Lemma orElse_nonEmpty x fallback :
  nonEmpty fallback = true -> nonEmpty (orElse x fallback) = true.
Proof.
  intros H. unfold orElse. destruct x as [c|]; [|exact H].
  destruct (nonEmpty c) eqn:E; [exact E|exact H].
Qed.

(** X20.  The four commands that take their color from the status bar.  The
    color they read is never empty.  With a status bar they call the style
    manager with that color; without one they only show their notice.  On
    an empty selection the two apply commands insert the empty wrapper for
    the color and set the cursor, and the two toggle commands end in the
    selection-required notice of the style manager. *)
Theorem color_commands_reach_the_manager :
  forall command s selection,
    let color :=
      match command with
      | ApplyHighlightColor => getCurrentHighlightColor s
      | _ => getCurrentTextColor s
      end in
    nonEmpty color = true
    /\ runColorCommand command true s selection
       = Styled (toggleStyle (managerSettings s) selection
                   (commandStyle command) (Some color))
    /\ runColorCommand command false s selection
       = Noticed (commandNotice command)
    /\ match command with
       | ApplyTextColor | ApplyHighlightColor =>
           runColorCommand command true s (Some "")
           = Styled
               [ ReplaceRange
                   (emptyWrapperOpening (commandMarker command)
                      (varToCheck (commandStyle command)) color ++ "</span>");
                 SetCursor
                   (insertionCursor (commandMarker command)
                      (varToCheck (commandStyle command)) color) ]
       | _ =>
           runColorCommand command true s (Some "")
           = Styled [ ShowNotice selectionRequired ]
       end.
Proof.
  intros command s selection color.
  assert (nonEmpty color = true) as Hc.
  { subst color. destruct command; now apply orElse_nonEmpty. }
  assert (forall sel,
            runColorCommand command true s sel
            = Styled (toggleStyle (managerSettings s) sel
                        (commandStyle command) (Some color))) as Hrun.
  { intros sel. unfold runColorCommand, commandColor.
    assert (truthy (Some match command with
                         | ApplyHighlightColor => getCurrentHighlightColor s
                         | _ => getCurrentTextColor s
                         end) = true) as -> by exact Hc.
    reflexivity. }
  split; [exact Hc|]. split; [apply Hrun|]. split; [reflexivity|].
  rewrite Hrun. destruct color as [|c v] eqn:E; [discriminate|].
  destruct command; cbn [commandStyle commandMarker]; try reflexivity.
  - unfold toggleStyle, toggleStyleOn.
    cbn [String.length Nat.eqb isColorOrHighlight truthy nonEmpty andb].
    rewrite createStyledSpan_color.
    destruct (cursor_in_empty_wrapper StyleClasses.COLORED TEXT_COLOR
                (String c v) eq_refl) as [H1 _].
    cbv zeta in H1. rewrite H1. reflexivity.
  - unfold toggleStyle, toggleStyleOn.
    cbn [String.length Nat.eqb isColorOrHighlight truthy nonEmpty andb].
    rewrite createStyledSpan_highlight.
    destruct (cursor_in_empty_wrapper StyleClasses.HIGHLIGHTED HIGHLIGHT_COLOR
                (String c v) eq_refl) as [H1 _].
    cbv zeta in H1. rewrite H1. reflexivity.
Qed.

(** X21.  In what [ensureColorArraysMatchSlots] returns, the selected index
    of a color list with at least one slot points at an entry of the list,
    and the status bar gives that entry as the current color, the default
    color taking its place only when the entry is the empty string. *)
Theorem selected_color_is_a_slot :
  forall defaults st s,
    ensureColorArraysMatchSlots defaults st = Some s ->
    (0 < textColorSlots s ->
     exists color,
       elementAt (textColors s) (selectedTextColorIndex s) = Some color
       /\ getCurrentTextColor s = orElse (Some color) "#000000")%Z
    /\ (0 < highlightColorSlots s ->
        exists color,
          elementAt (highlightColors s) (selectedHighlightColorIndex s)
          = Some color
          /\ getCurrentHighlightColor s = orElse (Some color) "#ffff00")%Z.
Proof.
  intros defaults st s H.
  destruct (ensureColorArraysMatchSlots_shape defaults st s H)
    as (Hm & Ht & Hh).
  unfold slotsMatch in Hm. apply andb_true_iff in Hm as [Lt Lh].
  apply Z.eqb_eq in Lt, Lh.
  assert (forall l i, (0 <= i < Z.of_nat (List.length l))%Z ->
            exists color : string, elementAt l i = Some color) as Hel.
  { intros l i Hi. unfold elementAt.
    assert ((i <? 0)%Z = false) as -> by (apply Z.ltb_ge; lia).
    destruct (nth_error l (Z.to_nat i)) as [c|] eqn:E; [now exists c|].
    apply nth_error_None in E. lia. }
  split; intros Hpos.
  - destruct (Hel (textColors s) (selectedTextColorIndex s)) as [c Hc];
      [lia|].
    exists c. split; [exact Hc|]. unfold getCurrentTextColor. now rewrite Hc.
  - destruct (Hel (highlightColors s) (selectedHighlightColorIndex s))
      as [c Hc]; [lia|].
    exists c. split; [exact Hc|]. unfold getCurrentHighlightColor.
    now rewrite Hc.
Qed.

Lemma selected_color_is_a_slot_witness :
  let defaults := DEFAULT_SETTINGS "3" "2" in
  let st :=
    {| Stored.textColorSlots := 2;
       Stored.textColors := Some ["#111111"; "#222222"; "#333333"];
       Stored.selectedTextColorIndex := Some 5%Z;
       Stored.highlightColorSlots := 0;
       Stored.highlightColors := None;
       Stored.selectedHighlightColorIndex := None;
       Stored.coloredUnderlineThickness := None;
       Stored.circleThickness := None |} in
  exists s,
    ensureColorArraysMatchSlots defaults st = Some s
    /\ getCurrentTextColor s = "#222222".
Proof.
  intros defaults st. eexists. split; [reflexivity|].
  destruct (selected_color_is_a_slot defaults st _ eq_refl) as [H _].
  destruct (H eq_refl) as (color & Hc & Hg).
  injection Hc as <-. exact Hg.
Defined.

End Slots.

(* ===================================================================== *)
(** ** Hex and rgb colors *)
(* ===================================================================== *)

Section Colors.

Import JSNumber Utils.


Lemma component_facts n : isComponent n = true -> componentFacts n = true.
Proof.
  intros H. unfold isComponent in H. apply andb_true_iff in H as [H1 H2].
  apply Z.leb_le in H1, H2.
  assert (forallb (fun k => componentFacts (Z.of_nat k)) (seq 0 256) = true)
    as Hall by (vm_compute; reflexivity).
  rewrite forallb_forall in Hall.
  rewrite <- (Z2Nat.id n) by exact H1. apply Hall. apply in_seq. lia.
Qed.

Lemma pair_facts a b : pairFacts a b = true.
Proof.
  assert (forallb (fun i =>
            forallb (fun j => pairFacts (ascii_of_nat i) (ascii_of_nat j))
              (seq 0 256)) (seq 0 256) = true)
    as Hall by (vm_compute; reflexivity).
  assert (forall c, In (nat_of_ascii c) (seq 0 256)) as Hin.
  { intros c. apply in_seq. pose proof (nat_ascii_bounded c). lia. }
  rewrite forallb_forall in Hall.
  pose proof (Hall (nat_of_ascii a) (Hin a)) as Ha.
  rewrite forallb_forall in Ha.
  pose proof (Ha (nat_of_ascii b) (Hin b)) as Hb.
  now rewrite !ascii_nat_embedding in Hb.
Qed.

Lemma takeDigits_append d rest :
  allDigits d = true ->
  match rest with String c _ => isDigit c = false | EmptyString => True end ->
  takeDigits (d ++ rest) = (d, rest).
Proof.
  unfold allDigits. intros Hd Hr. induction d as [|c d IH].
  - cbn [append]. destruct rest as [|c r]; [reflexivity|].
    cbn [takeDigits]. now rewrite Hr.
  - cbn [append takeDigits] in *. destruct (isDigit c); [|discriminate].
    destruct (takeDigits d) as [d' r'] eqn:E.
    rewrite IH; [reflexivity|]. destruct r'; [reflexivity|discriminate].
Qed.

Lemma digitsAt_append d rest :
  allDigits d = true -> nonEmpty d = true ->
  match rest with String c _ => isDigit c = false | EmptyString => True end ->
  digitsAt (d ++ rest) = Some (d, rest).
Proof.
  intros Hd Hn Hr. unfold digitsAt. rewrite takeDigits_append by assumption.
  now destruct d.
Qed.

Lemma trimStart_allWhite w s :
  allWhite w = true -> trimStart (w ++ s) = trimStart s.
Proof.
  induction w as [|c w IH]; [reflexivity|]. cbn [allWhite append trimStart].
  intros H. apply andb_true_iff in H as [H1 H2]. now rewrite H1, IH.
Qed.

Lemma trimStart_digits d rest :
  allDigits d = true -> nonEmpty d = true -> trimStart (d ++ rest) = d ++ rest.
Proof.
  unfold allDigits. destruct d as [|c d]; [discriminate|].
  cbn [takeDigits append trimStart]. intros H _.
  destruct (isDigit c) eqn:E; [|discriminate].
  assert (isWhiteSpace c = false) as ->; [|reflexivity].
  clear - E. unfold isDigit in E.
  destruct c as [[] [] [] [] [] [] [] []]; try discriminate; reflexivity.
Qed.

Lemma sameNumber_eq x n : sameNumber x (Finite n) = true -> x = Finite n.
Proof.
  destruct x as [|x|]; cbn; try discriminate. intros E.
  apply Z.eqb_eq in E. now subst.
Qed.

Lemma component_parts n :
  isComponent n = true ->
  let d := JSNumber.toString (Finite n) in
  allDigits d = true /\ nonEmpty d = true /\ JSNumber.parseInt d = Finite n
  /\ exists a b,
       componentToHex (Finite n) = String a (String b "")
       /\ isHexDigit a = true /\ isHexDigit b = true
       /\ JSNumber.parseIntRadix (String a (String b "")) 16 = Finite n.
Proof.
  intros H d. apply component_facts in H. unfold componentFacts in H.
  fold d in H.
  apply andb_true_iff in H as [H H4]. apply andb_true_iff in H as [H H3].
  apply andb_true_iff in H as [H1 H2].
  split; [exact H1|]. split; [exact H2|].
  split; [now apply sameNumber_eq|].
  destruct (componentToHex (Finite n)) as [|a [|b [|]]]; try discriminate.
  apply andb_true_iff in H4 as [H4 H7]. apply andb_true_iff in H4 as [H5 H6].
  exists a, b. repeat split; auto. now apply sameNumber_eq.
Qed.

(** [rgbToHex] on a well-formed color. *)
Lemma rgbToHex_rgbText r g b w1 w2 :
  isComponent r = true -> isComponent g = true -> isComponent b = true ->
  allWhite w1 = true -> allWhite w2 = true ->
  rgbToHex (rgbText r g b w1 w2)
  = "#" ++ componentToHex (Finite r) ++ componentToHex (Finite g)
    ++ componentToHex (Finite b).
Proof.
  intros Hr Hg Hb Hw1 Hw2.
  destruct (component_parts r Hr) as (Hr1 & Hr2 & Hr3 & _).
  destruct (component_parts g Hg) as (Hg1 & Hg2 & Hg3 & _).
  destruct (component_parts b Hb) as (Hb1 & Hb2 & Hb3 & _).
  unfold rgbToHex, rgbText, rgbMatch.
  set (dr := JSNumber.toString (Finite r)) in *.
  set (dg := JSNumber.toString (Finite g)) in *.
  set (db := JSNumber.toString (Finite b)) in *.
  cbn [startsWith append Ascii.eqb Bool.eqb andb substringFrom].
  rewrite (digitsAt_append dr) by (auto; reflexivity).
  rewrite trimStart_allWhite by exact Hw1.
  rewrite trimStart_digits by assumption.
  rewrite (digitsAt_append dg) by (auto; reflexivity).
  rewrite trimStart_allWhite by exact Hw2.
  rewrite trimStart_digits by assumption.
  rewrite (digitsAt_append db) by (auto; reflexivity).
  now rewrite Hr3, Hg3, Hb3.
Qed.

(** [hexToRgb] on six hex digits after an optional [#]. *)
Lemma hexToRgb_six hex r1 r2 g1 g2 b1 b2 :
  afterHash hex
  = String r1 (String r2 (String g1 (String g2 (String b1 (String b2 ""))))) ->
  isHexDigit r1 && isHexDigit r2 && isHexDigit g1 && isHexDigit g2
  && isHexDigit b1 && isHexDigit b2 = true ->
  hexToRgb hex
  = "rgb(" ++ JSNumber.toString (JSNumber.parseIntRadix (String r1 (String r2 "")) 16)
    ++ ", " ++ JSNumber.toString (JSNumber.parseIntRadix (String g1 (String g2 "")) 16)
    ++ ", " ++ JSNumber.toString (JSNumber.parseIntRadix (String b1 (String b2 "")) 16)
    ++ ")".
Proof.
  intros E H. unfold hexToRgb.
  assert (expandShorthand hex = hex) as -> by (unfold expandShorthand; now rewrite E).
  unfold hexMatch. now rewrite E, H.
Qed.

Lemma pair_parts a b :
  isHexDigit a = true -> isHexDigit b = true ->
  exists n,
    JSNumber.parseIntRadix (String a (String b "")) 16 = Finite n
    /\ isComponent n = true
    /\ componentToHex (Finite n)
       = String (toLowerChar a) (String (toLowerChar b) "").
Proof.
  intros Ha Hb. pose proof (pair_facts a b) as H. unfold pairFacts in H.
  rewrite Ha, Hb in H. cbn [andb negb orb] in H.
  destruct (JSNumber.parseIntRadix (String a (String b "")) 16) as [|n|];
    try discriminate.
  apply andb_true_iff in H as [H1 H2]. apply String.eqb_eq in H2.
  exists n. auto.
Qed.

(** X22.  [rgbToHex] after [hexToRgb].  For a hex color, six hex digits or
    three after an optional [#], the result is [#] followed by the six
    digits in lower case, a three-digit color being doubled digit by digit;
    for every other string the result is [#000000]. *)
Theorem hexToRgb_then_rgbToHex :
  forall hex,
    rgbToHex (hexToRgb hex)
    = match hexMatch (expandShorthand hex) with
      | Some _ => "#" ++ toLowerCase (afterHash (expandShorthand hex))
      | None => "#000000"
      end.
Proof.
  intros hex. unfold hexToRgb.
  set (e := expandShorthand hex).
  unfold hexMatch.
  destruct (afterHash e) as [|r1 [|r2 [|g1 [|g2 [|b1 [|b2 [|]]]]]]] eqn:E;
    try reflexivity.
  destruct (isHexDigit r1 && isHexDigit r2 && isHexDigit g1 && isHexDigit g2
            && isHexDigit b1 && isHexDigit b2) eqn:H; [|reflexivity].
  repeat (apply andb_true_iff in H as [H ?]).
  destruct (pair_parts r1 r2) as (r & -> & Hr & Er); auto.
  destruct (pair_parts g1 g2) as (g & -> & Hg & Eg); auto.
  destruct (pair_parts b1 b2) as (b & -> & Hb & Eb); auto.
  change ("rgb(" ++ JSNumber.toString (Finite r) ++ ", "
          ++ JSNumber.toString (Finite g) ++ ", "
          ++ JSNumber.toString (Finite b) ++ ")")
    with (rgbText r g b " " " ").
  rewrite rgbToHex_rgbText by (auto; reflexivity).
  rewrite Er, Eg, Eb. reflexivity.
Qed.

(** X23.  [hexToRgb] after [rgbToHex].  A color [rgb(r,g,b)] with components
    from 0 to 255 and any white space after the commas comes back as
    [rgb(r, g, b)] with one space after each comma. *)
Theorem rgbToHex_then_hexToRgb :
  forall r g b w1 w2,
    isComponent r = true -> isComponent g = true -> isComponent b = true ->
    allWhite w1 = true -> allWhite w2 = true ->
    hexToRgb (rgbToHex (rgbText r g b w1 w2)) = rgbText r g b " " " ".
Proof.
  intros r g b w1 w2 Hr Hg Hb Hw1 Hw2.
  rewrite rgbToHex_rgbText by assumption.
  destruct (component_parts r Hr) as (_ & _ & _ & r1 & r2 & -> & Hr1 & Hr2 & Er).
  destruct (component_parts g Hg) as (_ & _ & _ & g1 & g2 & -> & Hg1 & Hg2 & Eg).
  destruct (component_parts b Hb) as (_ & _ & _ & b1 & b2 & -> & Hb1 & Hb2 & Eb).
  cbn [append].
  rewrite (hexToRgb_six
             (String "#" (String r1 (String r2 (String g1 (String g2
                (String b1 (String b2 "")))))))
             r1 r2 g1 g2 b1 b2 eq_refl)
    by (now rewrite Hr1, Hr2, Hg1, Hg2, Hb1, Hb2).
  now rewrite Er, Eg, Eb.
Qed.

Lemma rgbToHex_then_hexToRgb_witness :
  hexToRgb (rgbToHex "rgb(255,0,   128)") = "rgb(255, 0, 128)".
Proof.
  apply (rgbToHex_then_hexToRgb 255 0 128 "" "   "); reflexivity.
Defined.

End Colors.

(* ===================================================================== *)
(** ** Readers of the style attribute *)
(* ===================================================================== *)

(** *** Shapes *)

Lemma trimStart_split s :
  exists w, allWhite w = true /\ s = w ++ trimStart s.
Proof.
  induction s as [|c s (w & Hw & Hs)]; [now exists ""|].
  cbn [trimStart]. destruct (isWhiteSpace c) eqn:E.
  - exists (String c w). cbn [allWhite append]. rewrite E, Hw.
    split; [reflexivity|]. now rewrite <- Hs.
  - now exists "".
Qed.

Lemma startsWith_split p s :
  startsWith p s = true -> s = p ++ substringFrom (String.length p) s.
Proof.
  revert s. induction p as [|a p IH]; intros s; [reflexivity|].
  destruct s as [|b s]; [discriminate|]. cbn [startsWith].
  intros H. apply andb_true_iff in H as [H1 H2]. apply Ascii.eqb_eq in H1.
  subst b. cbn [append String.length substringFrom]. f_equal. now apply IH.
Qed.

(** A text at whose start the declaration head of [k] is read: white
    space, the key, white space, a colon. *)
Lemma declHeadAt_shape k s :
  declHeadAt k s = true ->
  exists w1 w2 rest,
    allWhite w1 = true /\ allWhite w2 = true
    /\ s = w1 ++ k ++ w2 ++ String ":" rest.
Proof.
  unfold declHeadAt. intros H. apply andb_true_iff in H as [H1 H2].
  destruct (trimStart_split s) as (w1 & Hw1 & Hs).
  apply startsWith_split in H1.
  destruct (trimStart_split (substringFrom (String.length k) (trimStart s)))
    as (w2 & Hw2 & Hr).
  destruct (trimStart (substringFrom (String.length k) (trimStart s)))
    as [|c rest]; [discriminate|].
  destruct (Ascii.eqb_spec c ":") as [->|Hc].
  - exists w1, w2, rest. split; [exact Hw1|]. split; [exact Hw2|].
    rewrite Hs at 1. rewrite H1 at 1. now rewrite Hr at 1.
  - exfalso. clear - H2 Hc.
    destruct c as [[] [] [] [] [] [] [] []]; try discriminate.
    now apply Hc.
Qed.

Lemma allWhite_lacks c w :
  isWhiteSpace c = false -> allWhite w = true -> lacks c w = true.
Proof.
  intros Hc. induction w as [|a w IH]; [reflexivity|]. cbn [allWhite].
  intros H. apply andb_true_iff in H as [H1 H2].
  rewrite lacks_cons, IH by exact H2. rewrite andb_true_r.
  apply negb_true_iff. apply Ascii.eqb_neq. intros ->. congruence.
Qed.

Lemma trimEnd_white_tail s w :
  allWhite w = true -> trimEnd (s ++ w) = trimEnd s.
Proof.
  intros Hw. induction s as [|c s IH].
  - cbn [append]. now apply trimEnd_allWhite.
  - cbn [append trimEnd]. now rewrite IH.
Qed.

Lemma trim_between w1 k w2 :
  allWhite w1 = true -> allWhite w2 = true -> trim k = k ->
  nonEmpty k = true ->
  trim (w1 ++ k ++ w2) = k.
Proof.
  intros H1 H2 Hk Hn. unfold trim.
  rewrite trimStart_allWhite by exact H1.
  destruct k as [|c k]; [discriminate|].
  pose proof (trim_fixed_head c k Hk) as Hc.
  cbn [append trimStart]. rewrite Hc.
  change (String c (k ++ w2)) with (String c k ++ w2).
  rewrite trimEnd_white_tail by exact H2.
  unfold trim in Hk. cbn [trimStart] in Hk. now rewrite Hc in Hk.
Qed.

(** *** The reader, part by part *)

Lemma split_head sep p q :
  lacks sep p = true ->
  exists x xs, split sep q = x :: xs /\ split sep (p ++ q) = (p ++ x) :: xs.
Proof.
  intros H. induction p as [|a p IH].
  - cbn [append]. destruct (split sep q) as [|x xs] eqn:E.
    + destruct q as [|a q]; cbn [split] in E; [discriminate|].
      destruct (Ascii.eqb a sep); [discriminate|].
      destruct (split sep q); discriminate.
    + now exists x, xs.
  - rewrite lacks_cons in H. apply andb_true_iff in H as [H1 H2].
    apply negb_true_iff in H1.
    destruct (IH H2) as (x & xs & E1 & E2).
    exists x, xs. split; [exact E1|].
    cbn [append split]. now rewrite H1, E2.
Qed.

Lemma split_at_sep sep p q :
  split sep (p ++ String sep q) = (split sep p ++ split sep q)%list.
Proof.
  induction p as [|a p IH].
  - cbn [append split app]. now rewrite Ascii.eqb_refl.
  - cbn [append split]. destruct (Ascii.eqb a sep).
    + cbn [app]. now rewrite IH.
    + rewrite IH. destruct (split sep p) as [|x xs] eqn:E; [|reflexivity].
      exfalso. destruct p as [|b p]; cbn [split] in E; [discriminate|].
      destruct (Ascii.eqb b sep); [discriminate|].
      destruct (split sep p); discriminate.
Qed.

(** A part that begins with the head of [k] binds [k]. *)
Lemma readDeclaration_head k acc w1 w2 x :
  allWhite w1 = true -> allWhite w2 = true ->
  trim k = k -> nonEmpty k = true -> lacks ":" k = true ->
  startsWith "--styler-" k = true ->
  isSome (Vars.get k (readDeclaration acc (w1 ++ k ++ w2 ++ String ":" x)))
  = true.
Proof.
  intros H1 H2 Hk Hn Hc Hs. unfold readDeclaration.
  assert (lacks ":" (w1 ++ k ++ w2) = true) as Hl.
  { rewrite !lacks_append, Hc.
    now rewrite !(allWhite_lacks ":") by (assumption || reflexivity). }
  replace (w1 ++ k ++ w2 ++ String ":" x)
    with ((w1 ++ k ++ w2) ++ String ":" x)
    by (rewrite !append_assoc; reflexivity).
  rewrite split_append by exact Hl.
  rewrite trim_between by assumption. rewrite Hs.
  now rewrite get_set, String.eqb_refl.
Qed.

Lemma readDeclaration_keeps k acc part :
  isSome (Vars.get k acc) = true ->
  isSome (Vars.get k (readDeclaration acc part)) = true.
Proof.
  intros H. unfold readDeclaration.
  destruct (split ":" part) as [|key rest]; [exact H|].
  destruct (startsWith "--styler-" (trim key)); [|exact H].
  rewrite get_set. now destruct (String.eqb (trim key) k).
Qed.

Lemma fold_readDeclaration_keeps k parts :
  forall acc,
    isSome (Vars.get k acc) = true ->
    isSome (Vars.get k (fold_left readDeclaration parts acc)) = true.
Proof.
  induction parts as [|part parts IH]; intros acc H; [exact H|].
  cbn [fold_left]. apply IH. now apply readDeclaration_keeps.
Qed.

Lemma declAfterSemicolon_shape k s :
  declAfterSemicolon k s = true ->
  exists p q, s = p ++ String ";" q /\ declHeadAt k q = true.
Proof.
  induction s as [|c s IH]; [discriminate|].
  cbn [declAfterSemicolon]. intros H. apply orb_true_iff in H as [H|H].
  - apply andb_true_iff in H as [H1 H2]. apply Ascii.eqb_eq in H1. subst c.
    now exists "", s.
  - destruct (IH H) as (p & q & -> & Hq). now exists (String c p), q.
Qed.

Section Readers.

Variable k : string.
Hypothesis Hk : trim k = k.
Hypothesis Hn : nonEmpty k = true.
Hypothesis Hc : lacks ":" k = true.
Hypothesis Hsemi : lacks ";" k = true.
Hypothesis Hs : startsWith "--styler-" k = true.

Lemma read_after_head s acc :
  declHeadAt k s = true ->
  isSome (Vars.get k (fold_left readDeclaration (split ";" s) acc)) = true.
Proof.
  intros H.
  destruct (declHeadAt_shape k s H) as (w1 & w2 & rest & H1 & H2 & ->).
  assert (lacks ";" (w1 ++ k ++ w2 ++ ":") = true) as Hl.
  { rewrite !lacks_append, Hsemi.
    now rewrite !(allWhite_lacks ";") by (assumption || reflexivity). }
  replace (w1 ++ k ++ w2 ++ String ":" rest)
    with ((w1 ++ k ++ w2 ++ ":") ++ rest)
    by (rewrite !append_assoc; reflexivity).
  destruct (split_head ";" _ rest Hl) as (x & xs & _ & ->).
  cbn [fold_left]. apply fold_readDeclaration_keeps.
  replace ((w1 ++ k ++ w2 ++ ":") ++ x)
    with (w1 ++ k ++ w2 ++ String ":" x)
    by (rewrite !append_assoc; reflexivity).
  now apply readDeclaration_head.
Qed.

Lemma read_declared styleAttr :
  declHeadAt k styleAttr || declAfterSemicolon k styleAttr = true ->
  isSome (Vars.get k (readStyleAttr styleAttr)) = true.
Proof.
  intros H. unfold readStyleAttr. apply orb_true_iff in H as [H|H].
  - now apply read_after_head.
  - destruct (declAfterSemicolon_shape k styleAttr H) as (p & q & -> & Hq).
    rewrite split_at_sep, fold_left_app. now apply read_after_head.
Qed.

End Readers.

(** X24.  [hasCssVariable] and the reader of [applyModificationToSegment]
    agree in one direction: whenever [hasCssVariable] finds one of the six
    keys of the engine on a span, the declarations
    [applyModificationToSegment] reads from that span bind the key.
    Nothing is said here of [getCssVariableValue], whose pattern is not
    anchored. *)
Theorem checked_declaration_is_read :
  forall spanInfo k,
    includes k recognizedKeys = true ->
    hasCssVariable spanInfo k = true ->
    declares k (readAttributes spanInfo) = true.
Proof.
  intros spanInfo k Hk H. unfold hasCssVariable in H.
  destruct spanInfo as [sp|]; [|discriminate].
  destruct (nonEmpty (startTag sp)) eqn:En; [|discriminate].
  unfold declares, readAttributes. cbn [currentCssVariables]. rewrite En.
  fold (readStyleAttr (styleAttrOf (startTag sp))).
  unfold includes, recognizedKeys in Hk. cbn [existsb] in Hk.
  repeat (apply orb_true_iff in Hk as [Hk|Hk];
          [apply String.eqb_eq in Hk; subst k;
           apply read_declared; auto; reflexivity|]).
  discriminate.
Qed.

Lemma checked_declaration_is_read_witness :
  let sp :=
    {| startTag := "<span style=" ++ DQ
                   ++ "color: red ;  --styler-underline-color : blue"
                   ++ DQ ++ ">";
       startTagOffset := 0; endTagOffset := (-1)%Z; classList := [] |} in
  declares UNDERLINE_COLOR (readAttributes (Some sp)) = true.
Proof.
  intros sp.
  apply (checked_declaration_is_read
           (Some sp) UNDERLINE_COLOR); reflexivity.
Defined.

(** X26.  The pattern of [getCssVariableValue] is not anchored at a
    declaration boundary: in the style attribute [font:x--styler-text-color:
    red] it finds the value [red] for the text color, so the activity check
    of a color toggle finds the style on, while [hasCssVariable] finds no
    such declaration and [applyModificationToSegment] reads none; the toggle
    without a value, and the toggle with the value [RED], then take the
    wrapper away. *)
Theorem unanchored_value_is_not_read :
  let sp :=
    {| startTag := "<span style=" ++ DQ ++ "font:x--styler-text-color: red"
                   ++ DQ ++ ">";
       startTagOffset := 0; endTagOffset := (-1)%Z; classList := [] |} in
  getCssVariableValue (Some sp) TEXT_COLOR = Some "red"
  /\ isStyleActiveInSpan sp Color None = true
  /\ hasCssVariable (Some sp) TEXT_COLOR = false
  /\ currentCssVariables (readAttributes (Some sp)) = []
  /\ toggleStyle settings0 (Some (startTag sp ++ "X</span>")) Color None
     = [ ReplaceRange "X" ]
  /\ toggleStyle settings0 (Some (startTag sp ++ "X</span>")) Color
       (Some "RED")
     = [ ReplaceRange "X" ].
Proof. repeat split. Qed.

(* ===================================================================== *)
(** ** Foreign classes and declarations pass through *)
(* ===================================================================== *)


Lemma split_first sep s : exists x xs, split sep s = x :: xs.
Proof.
  destruct s as [|c s]; [now exists "", []|]. cbn [split].
  destruct (Ascii.eqb c sep); [now eexists _, _|].
  destruct (split sep s) as [|x xs]; now eexists _, _.
Qed.

Lemma readDeclaration_parts vars part :
  readDeclaration vars part
  = if startsWith "--styler-" (keyOfPart part)
    then Vars.set (keyOfPart part) (valueOfPart part) vars
    else vars.
Proof.
  unfold readDeclaration, keyOfPart, valueOfPart.
  destruct (split_first ":" part) as (key & rest & ->).
  cbn [nth]. destruct rest as [|val rest]; reflexivity.
Qed.

Lemma fold_readDeclaration parts vars :
  fold_left readDeclaration parts vars
  = fold_left
      (fun declarations part =>
         if startsWith "--styler-" (keyOfPart part)
         then Vars.set (keyOfPart part) (valueOfPart part) declarations
         else declarations) parts vars.
Proof.
  revert vars. induction parts as [|part parts IH]; intros vars; [reflexivity|].
  cbn [fold_left]. now rewrite readDeclaration_parts, IH.
Qed.

(** What the reader takes from a wrapper. *)
Lemma readAttributes_wrapper sp :
  currentClasses (readAttributes (Some sp)) = classList sp
  /\ currentCssVariables (readAttributes (Some sp))
     = declarationsOf (styleAttrOf (startTag sp)).
Proof.
  split; [reflexivity|]. unfold readAttributes, declarationsOf.
  cbn [currentCssVariables].
  destruct (startTag sp) as [|c t]; [reflexivity|]. cbn [nonEmpty].
  apply fold_readDeclaration.
Qed.

Lemma forallb_dedupFrom (p : string -> bool) seen l :
  forallb p l = true -> forallb p (dedupFrom seen l) = true.
Proof.
  revert seen. induction l as [|x l IH]; intros seen H; [reflexivity|].
  cbn [forallb] in H. apply andb_true_iff in H as [Hx Hl].
  cbn [dedupFrom]. destruct (includes x seen); [now apply IH|].
  cbn [forallb]. now rewrite Hx, IH.
Qed.

Lemma filter_all_true {A} (p : A -> bool) l :
  forallb p l = true -> filter p l = l.
Proof.
  induction l as [|x l IH]; [reflexivity|]. cbn [forallb filter].
  intros H. apply andb_true_iff in H as [Hx Hl]. now rewrite Hx, IH.
Qed.

Lemma forallb_filter_kept {A} (p q : A -> bool) l :
  forallb p l = true -> forallb p (filter q l) = true.
Proof.
  induction l as [|x l IH]; [reflexivity|]. cbn [forallb filter].
  intros H. apply andb_true_iff in H as [Hx Hl].
  destruct (q x); [cbn [forallb]; now rewrite Hx, IH|now apply IH].
Qed.

Lemma extractClasses_nonEmpty tag : forallb nonEmpty (extractClasses tag) = true.
Proof.
  unfold extractClasses.
  destruct (search classRegexAt tag) as [[i captured]|]; [|reflexivity].
  destruct (nonEmpty captured); [|reflexivity].
  induction (split " " captured) as [|x l IH]; [reflexivity|].
  cbn [filter]. destruct (nonEmpty x) eqn:E; [|exact IH].
  cbn [forallb]. now rewrite E, IH.
Qed.

(** The style attribute of declarations whose keys begin with
    [--styler-] is written without anything trimmed away. *)
Lemma styleAttrValue_joined vars :
  forallb stylerKey vars = true ->
  styleAttrValue vars
  = join " " (map (fun kv => fst kv ++ ": " ++ snd kv ++ ";") vars)
  /\ (vars <> [] -> nonEmpty (styleAttrValue vars) = true).
Proof.
  unfold styleAttrValue. intros H.
  destruct vars as [|[k v] rest]; [split; [reflexivity|congruence]|].
  cbn [forallb] in H. apply andb_true_iff in H as [Hk _].
  unfold stylerKey in Hk. cbn [fst] in Hk.
  destruct k as [|c k]; [discriminate|]. cbn [startsWith] in Hk.
  apply andb_true_iff in Hk as [Hc _]. apply Ascii.eqb_eq in Hc. subst c.
  assert (exists t, join " " (map (fun kv => fst kv ++ ": " ++ snd kv ++ ";")
                                ((String "-" k, v) :: rest))
                    = String "-" (t ++ ";")) as [t Ht].
  { assert (forall l : Vars.t, l <> [] ->
              exists t, join " " (map (fun kv => fst kv ++ ": " ++ snd kv ++ ";") l)
                        = t ++ ";") as Htail.
    { induction l as [|kv l IH]; [congruence|]. intros _.
      destruct l as [|kv2 l].
      - exists (fst kv ++ ": " ++ snd kv). cbn [map join].
        now rewrite !append_assoc.
      - destruct IH as [t Ht]; [congruence|].
        exists ((fst kv ++ ": " ++ snd kv ++ ";") ++ " " ++ t).
        change (map (fun kv => fst kv ++ ": " ++ snd kv ++ ";") (kv :: kv2 :: l))
          with ((fst kv ++ ": " ++ snd kv ++ ";")
                :: map (fun kv => fst kv ++ ": " ++ snd kv ++ ";") (kv2 :: l)).
        cbn [map] in Ht. cbn [map join]. cbn [join] in Ht.
        rewrite Ht. now rewrite !append_assoc. }
    destruct (Htail ((String "-" k, v) :: rest)) as [t Ht]; [congruence|].
    destruct t as [|c t].
    - exfalso. cbn [map fst snd append] in Ht.
      destruct rest; cbn [join map append] in Ht; discriminate.
    - exists t. rewrite Ht. cbn [append].
      cbn [map fst snd] in Ht.
      assert (c = "-"%char) as ->; [|reflexivity].
      destruct rest; cbn [join map append] in Ht; now injection Ht. }
  rewrite Ht. rewrite trim_fixed by reflexivity.
  split; [reflexivity|]. intros _. reflexivity.
Qed.

(** The writer, as text. *)
Lemma reconstructSpan_wrapperText text a :
  forallb stylerKey (currentCssVariables a) = true ->
  reconstructSpan text a
  = wrapperText (emittedClasses a) (currentCssVariables a) text.
Proof.
  intros H. unfold reconstructSpan, wrapperText, emittedClasses.
  destruct (styleAttrValue_joined _ H) as [Hj Hn]. rewrite Hj in *.
  destruct (currentCssVariables a) as [|kv vars] eqn:Ev.
  - cbn [map join String.length Nat.ltb Nat.leb orb].
    rewrite orb_false_r.
    destruct (uniqueClasses (currentClasses a)) as [|c cs]; [reflexivity|].
    cbn [List.length Nat.ltb Nat.leb]. reflexivity.
  - specialize (Hn ltac:(congruence)).
    assert ((0 <? String.length
                    (join " " (map (fun kv0 => fst kv0 ++ ": " ++ snd kv0 ++ ";")
                                 (kv :: vars))))%nat = true) as ->.
    { destruct (join " " (map (fun kv0 => fst kv0 ++ ": " ++ snd kv0 ++ ";")
                            (kv :: vars))); [discriminate|reflexivity]. }
    rewrite orb_true_r.
    destruct (uniqueClasses (currentClasses a)) as [|c cs]; reflexivity.
Qed.

(** What a toggle keeps of the attributes it read. *)
Lemma reconcile_foreign settings spanInfo styleType value shouldApply :
  let before := readAttributes spanInfo in
  let after := reconcile settings spanInfo styleType value shouldApply in
  filter foreignClass (emittedClasses after)
  = uniqueClasses (filter foreignClass (currentClasses before))
  /\ filter foreignKey (currentCssVariables after)
     = filter foreignKey (currentCssVariables before)
  /\ forallb stylerKey (currentCssVariables after) = true.
Proof.
  intros before after.
  subst before after. unfold reconcile, emittedClasses.
  split; [|split].
  - rewrite filter_uniqueClasses, cleanupMarkers_foreignClasses.
    rewrite cleanupUnderline_classes.
    destruct shouldApply;
      [rewrite applyStyle_foreignClasses|rewrite removeStyle_foreignClasses];
      reflexivity.
  - rewrite cleanupMarkers_foreignKeys, cleanupUnderline_foreignKeys.
    destruct shouldApply;
      [rewrite applyStyle_foreignKeys|rewrite removeStyle_foreignKeys];
      reflexivity.
  - apply cleanupMarkers_stylerKeys, cleanupUnderline_stylerKeys.
    destruct shouldApply;
      [apply applyStyle_stylerKeys|apply removeStyle_stylerKeys];
      apply readAttributes_stylerKeys.
Qed.

(** One run: what is written for a wrapper read from its opening tag. *)
Lemma wrapper_passes_through settings text tag offset styleType value shouldApply :
  exists classes declarations,
    applyModificationToSegment settings text (Some (wrapperOf tag offset))
      styleType value shouldApply
    = wrapperText classes declarations text
    /\ keepsForeign tag classes declarations.
Proof.
  destruct (reconcile_foreign settings (Some (wrapperOf tag offset)) styleType
              value shouldApply) as (Hc & Hk & Hs).
  destruct (readAttributes_wrapper (wrapperOf tag offset)) as [Rc Rk].
  rewrite Rc in Hc. rewrite Rk in Hk. cbn [wrapperOf classList startTag] in *.
  eexists _, _. split.
  - unfold applyModificationToSegment.
    apply reconstructSpan_wrapperText. exact Hs.
  - split; [|split; [exact Hk|exact Hs]].
    rewrite Hc. unfold uniqueClasses, dedup.
    apply filter_all_true, forallb_dedupFrom, forallb_filter_kept,
      extractClasses_nonEmpty.
Qed.

(** The segmenter on one wrapper around a text. *)
Lemma parseSelection_one_wrapper tag a s :
  isTag tag = true ->
  startsWith "</span" tag = false ->
  noTagHead (String a s) = true ->
  parseSelection (tag ++ String a s ++ "</span>")
  = [ {| text := String a s; start := String.length tag;
         finish := String.length tag + String.length (String a s);
         span := Some (wrapperOf tag 0) |} ].
Proof.
  intros Ht Hs H. apply isTag_match in Ht.
  pose proof (tagRegexAt_prefix _ _ Ht) as [_ H6].
  pose proof (tagRegexAt_extend _ (String a s ++ "</span>") _ Ht) as Hm.
  unfold parseSelection.
  assert (exists fuel, String.length (tag ++ String a s ++ "</span>") = S (S fuel))
    as [fuel ->].
  { rewrite !append_length. cbn [String.length].
    exists (String.length tag + String.length s + 6). lia. }
  rewrite parseLoop_opening_tag; [|exact Hm|exact Hs].
  now rewrite parseLoop_text_then_close.
Qed.

(** *** Characters under the [i] flag *)

Lemma eqb_ci_dquote c : eqb_ci c dquote = true -> c = dquote.
Proof.
  destruct c as [[] [] [] [] [] [] [] []]; vm_compute; intros H;
    solve [discriminate H | reflexivity].
Qed.

Lemma eqb_ci_equals c : eqb_ci c "="%char = true -> c = "="%char.
Proof.
  destruct c as [[] [] [] [] [] [] [] []]; vm_compute; intros H;
    solve [discriminate H | reflexivity].
Qed.

Lemma append_last_inj s t a b :
  s ++ String a "" = t ++ String b "" -> a = b.
Proof.
  revert t. induction s as [|c s IH]; intros t H.
  - destruct t as [|d t]; cbn [append] in H.
    + now injection H.
    + injection H as _ H. destruct t; discriminate.
  - destruct t as [|d t]; cbn [append] in H.
    + injection H as _ H. destruct s; discriminate.
    + injection H as _ H. now apply IH in H.
Qed.

Lemma lacks_no_last c R : lacks c R = true -> forall R', R <> R' ++ String c "".
Proof.
  intros H R' ->. rewrite lacks_append, lacks_cons, Ascii.eqb_refl in H.
  now rewrite andb_false_r in H.
Qed.

(** *** A search that starts before an attribute value *)

Lemma search_from {A} (f : string -> option A) s i :
  (forall j, j < i -> f (substringFrom j s) = None) ->
  i <= String.length s ->
  search f s
  = match search f (substringFrom i s) with
    | Some (k, a) => Some (i + k, a)
    | None => None
    end.
Proof.
  revert s. induction i as [|i IH]; intros s Hn Hi.
  - cbn [substringFrom Nat.add]. now destruct (search f s) as [[k a]|].
  - destruct s as [|c s]; [simpl in Hi; lia|].
    cbn [search]. pose proof (Hn 0 ltac:(lia)) as H0.
    cbn [substringFrom] in H0. rewrite H0.
    rewrite (IH s); [|intros j Hj; apply (Hn (S j)); lia|simpl in Hi; lia].
    cbn [substringFrom]. now destruct (search f (substringFrom i s)) as [[k a]|].
Qed.

Lemma startsWith_ci_quoted p t :
  startsWith_ci (p ++ DQ) t = true -> lacks dquote t = false.
Proof.
  revert t. induction p as [|a p IH]; intros t H.
  - destruct t as [|c t]; [discriminate|]. cbn [append DQ startsWith_ci] in H.
    apply andb_true_iff in H as [H _]. apply eqb_ci_dquote in H. subst c.
    rewrite lacks_cons. now rewrite Ascii.eqb_refl.
  - destruct t as [|c t]; [discriminate|]. cbn [append startsWith_ci] in H.
    apply andb_true_iff in H as [_ H]. rewrite lacks_cons, (IH t H).
    apply andb_false_r.
Qed.

Lemma startsWith_ci_whole p t :
  startsWith_ci (p ++ "=") t = true ->
  String.length t = String.length p + 1 ->
  exists t', t = t' ++ "=".
Proof.
  revert t. induction p as [|a p IH]; intros t H Hl.
  - destruct t as [|c [|d t]]; try (simpl in Hl; lia).
    cbn [append startsWith_ci] in H. apply andb_true_iff in H as [H _].
    apply eqb_ci_equals in H. subst c. now exists "".
  - destruct t as [|c t]; [discriminate|]. cbn [append startsWith_ci] in H.
    apply andb_true_iff in H as [_ H].
    destruct (IH t H) as [t' ->]; [simpl in Hl; lia|]. now exists (String c t').
Qed.

Section AttributeSearch.

(** The regex of an attribute: the name with its equals sign, a double
    quote, the value, a double quote. *)
Variable name : string.
Variable f : string -> option string.
Hypothesis Hf : forall s, startsWith_ci (name ++ DQ) s = false -> f s = None.
Hypothesis Hname : exists n, name = n ++ "=" /\ String.length n = 5.
Hypothesis Hmid :
  forall u,
    startsWith_ci (substringFrom 1 (name ++ DQ)) (String dquote u) = false
    /\ startsWith_ci (substringFrom 2 (name ++ DQ)) (String dquote u) = false
    /\ startsWith_ci (substringFrom 3 (name ++ DQ)) (String dquote u) = false
    /\ startsWith_ci (substringFrom 4 (name ++ DQ)) (String dquote u) = false
    /\ startsWith_ci (substringFrom 5 (name ++ DQ)) (String dquote u) = false.

(** No match begins inside a value that holds no double quote and does not
    end with an equals sign. *)
Lemma no_match_in_value c t u :
  lacks dquote (String c t) = true ->
  (forall t', String c t <> t' ++ "=") ->
  f (String c t ++ String dquote u) = None.
Proof.
  intros Hq Hlast. apply Hf.
  destruct (startsWith_ci (name ++ DQ) (String c t ++ String dquote u)) eqn:E;
    [exfalso|reflexivity].
  destruct Hname as (n & Hn & Hn5).
  assert (String.length (name ++ DQ) = 7) as Hl7
    by (rewrite Hn, !append_length, Hn5; reflexivity).
  assert (String.length name = 6) as Hl6
    by (rewrite Hn, append_length, Hn5; reflexivity).
  destruct (Nat.le_gt_cases 7 (String.length (String c t))) as [Hle|Hgt].
  - rewrite startsWith_ci_append_long in E by (rewrite Hl7; exact Hle).
    apply startsWith_ci_quoted in E. congruence.
  - pose proof E as E'. apply startsWith_ci_append_short in E'.
    destruct (Hmid u) as (M1 & M2 & M3 & M4 & M5).
    destruct t as [|c1 [|c2 [|c3 [|c4 [|c5 [|c6 t]]]]]];
      cbn [String.length] in E', Hgt; try congruence; [|lia].
    apply startsWith_ci_app in E.
    rewrite startsWith_ci_append_long in E by (rewrite Hl6; simpl; lia).
    rewrite Hn in E. apply startsWith_ci_whole in E; [|simpl; lia].
    destruct E as [t' Et]. now apply (Hlast t').
Qed.

Lemma search_past_value R u :
  lacks dquote R = true ->
  (forall R', R <> R' ++ "=") ->
  search f (R ++ String dquote u)
  = match search f (String dquote u) with
    | Some (k, a) => Some (String.length R + k, a)
    | None => None
    end.
Proof.
  set (r := search f (String dquote u)).
  induction R as [|c R IH]; intros Hq Hlast.
  - cbn [append String.length Nat.add]. fold r. now destruct r as [[k a]|].
  - change (String c R ++ String dquote u)
      with (String c (R ++ String dquote u)).
    cbn [search].
    change (String c (R ++ String dquote u))
      with (String c R ++ String dquote u).
    rewrite (no_match_in_value c R u Hq Hlast).
    rewrite IH.
    + cbn [String.length Nat.add]. now destruct r as [[k a]|].
    + rewrite lacks_cons in Hq. now apply andb_true_iff in Hq as [_ Hq].
    + intros R' ->. apply (Hlast (String c R')). reflexivity.
Qed.

End AttributeSearch.

Lemma search_style_past R u :
  lacks dquote R = true ->
  (forall R', R <> R' ++ "=") ->
  search styleRegexAt (R ++ String dquote u)
  = match search styleRegexAt (String dquote u) with
    | Some (k, a) => Some (String.length R + k, a)
    | None => None
    end.
Proof.
  apply (search_past_value "style=").
  - intros s H. unfold styleRegexAt. now rewrite H.
  - now exists "style".
  - intros u0. repeat split; reflexivity.
Qed.

Lemma search_class_past R u :
  lacks dquote R = true ->
  (forall R', R <> R' ++ "=") ->
  search classRegexAt (R ++ String dquote u)
  = match search classRegexAt (String dquote u) with
    | Some (k, a) => Some (String.length R + k, a)
    | None => None
    end.
Proof.
  apply (search_past_value "class=").
  - intros s H. unfold classRegexAt. now rewrite H.
  - now exists "class".
  - intros u0. repeat split; reflexivity.
Qed.

(** *** The declarations of a style attribute as it is written *)

Lemma plainDeclaration_parts k v :
  plainDeclaration (k, v) = true ->
  trim k = k /\ lacks ":" k = true /\ lacks ";" k = true
  /\ lacks dquote k = true /\ lacks ">" k = true
  /\ trim v = v /\ lacks ":" v = true /\ lacks ";" v = true
  /\ lacks dquote v = true /\ lacks ">" v = true.
Proof.
  unfold plainDeclaration. cbn [fst snd]. intros H.
  repeat (apply andb_true_iff in H as [H ?]).
  repeat match goal with
         | E : String.eqb _ _ = true |- _ => apply String.eqb_eq in E
         end.
  repeat split; assumption.
Qed.

Lemma readDeclaration_plain pre k v acc :
  pre = "" \/ pre = " " ->
  plainDeclaration (k, v) = true ->
  readDeclaration acc (pre ++ k ++ ": " ++ v)
  = if startsWith "--styler-" k then Vars.set k v acc else acc.
Proof.
  intros Hpre H.
  destruct (plainDeclaration_parts k v H)
    as (Hk & Hkc & _ & _ & _ & Hv & Hvc & _).
  unfold readDeclaration.
  assert (split ":" (pre ++ k ++ ": " ++ v) = [pre ++ k; " " ++ v]) as ->.
  { rewrite <- append_assoc. cbn [append].
    rewrite split_append.
    - f_equal. apply split_lacking. rewrite lacks_cons. now cbn.
    - rewrite lacks_append.
      destruct Hpre as [-> | ->]; cbn; assumption. }
  assert (trim (pre ++ k) = k) as ->.
  { destruct Hpre as [-> | ->]; cbn [append]; [assumption|].
    now rewrite trim_after_space. }
  cbn [append]. rewrite trim_after_space. now rewrite Hv.
Qed.

Lemma lacks_plain_body c pre k v :
  pre = "" \/ pre = " " ->
  c = ";"%char \/ c = dquote \/ c = ">"%char ->
  plainDeclaration (k, v) = true ->
  lacks c (pre ++ k ++ ": " ++ v) = true.
Proof.
  intros Hpre Hc H.
  destruct (plainDeclaration_parts k v H)
    as (_ & _ & K1 & K2 & K3 & _ & _ & V1 & V2 & V3).
  rewrite !lacks_append.
  destruct Hc as [-> | [-> | ->]]; destruct Hpre as [-> | ->];
    cbn [lacks indexOf Ascii.eqb];
    repeat match goal with E : lacks _ _ = true |- _ => rewrite E end;
    reflexivity.
Qed.

Lemma get_fresh_tail (k : string) (rest : Vars.t) (k' v' : string) :
  negb (isSome (Vars.get k rest)) = true -> In (k', v') rest -> k <> k'.
Proof.
  intros Hk Hin ->. apply negb_true_iff in Hk.
  induction rest as [|[k2 v2] rest IH]; [contradiction|].
  cbn [Vars.get] in Hk. destruct (String.eqb k2 k') eqn:E; [discriminate|].
  destruct Hin as [Hin|Hin]; [|auto].
  injection Hin as -> ->. now rewrite String.eqb_refl in E.
Qed.

Lemma readJoined_plain vars :
  forallb plainDeclaration vars = true ->
  distinctKeys vars = true ->
  forall pre acc,
    pre = "" \/ pre = " " ->
    (forall kv, In kv vars -> Vars.get (fst kv) acc = None) ->
    fold_left readDeclaration
      (split ";" (pre ++ join " " (map enc vars))) acc
    = (acc ++ filter stylerKey vars)%list.
Proof.
  induction vars as [|[k v] rest IH]; intros Hc Hd pre acc Hpre Hfresh.
  - cbn [map join filter]. rewrite append_nil_r, app_nil_r.
    destruct Hpre as [-> | ->]; reflexivity.
  - cbn [forallb] in Hc. apply andb_true_iff in Hc as [Hkv Hc].
    cbn [distinctKeys] in Hd. apply andb_true_iff in Hd as [Hk Hd].
    cbn [map]. rewrite join_cons.
    set (pre' := match map enc rest with [] => "" | _ => " " end).
    assert (pre' = "" \/ pre' = " ") as Hpre'
      by (subst pre'; destruct (map enc rest); auto).
    assert (match map enc rest with
            | [] => ""
            | _ => " " ++ join " " (map enc rest)
            end = pre' ++ join " " (map enc rest)) as ->
      by (subst pre'; now destruct (map enc rest)).
    unfold enc at 1. cbn [fst snd].
    replace (pre ++ (k ++ ": " ++ v ++ ";") ++ pre' ++ join " " (map enc rest))
      with ((pre ++ k ++ ": " ++ v)
            ++ String ";" (pre' ++ join " " (map enc rest)))
      by (rewrite !append_assoc; reflexivity).
    rewrite split_append by (apply lacks_plain_body; auto).
    cbn [fold_left]. rewrite readDeclaration_plain by assumption.
    cbn [filter]. unfold stylerKey at 1. cbn [fst].
    destruct (startsWith "--styler-" k).
    + rewrite set_fresh by (apply (Hfresh (k, v)); now left).
      rewrite IH; auto.
      * now rewrite <- app_assoc.
      * intros [k' v'] Hin. cbn [fst]. rewrite get_app.
        pose proof (Hfresh (k', v') (or_intror Hin)) as Hf. cbn [fst] in Hf.
        rewrite Hf. cbn [Vars.get].
        destruct (String.eqb k k') eqn:E; [|reflexivity].
        apply String.eqb_eq in E. exfalso.
        exact (get_fresh_tail k rest k' v' Hk Hin E).
    + apply IH; auto. intros kv Hin. apply Hfresh. now right.
Qed.

Lemma declarationsOf_joined vars :
  forallb plainDeclaration vars = true ->
  distinctKeys vars = true ->
  declarationsOf (join " " (map enc vars)) = filter stylerKey vars.
Proof.
  intros Hc Hd. unfold declarationsOf. rewrite <- fold_readDeclaration.
  change (join " " (map enc vars)) with ("" ++ join " " (map enc vars)).
  rewrite (readJoined_plain vars Hc Hd "" []); auto.
Qed.

Lemma joined_ends vars :
  vars <> [] -> exists t, join " " (map enc vars) = t ++ ";".
Proof.
  induction vars as [|kv l IH]; [congruence|]. intros _.
  destruct l as [|kv2 l].
  - exists (fst kv ++ ": " ++ snd kv). cbn [map join]. unfold enc.
    now rewrite !append_assoc.
  - destruct IH as [t Ht]; [congruence|].
    exists (enc kv ++ " " ++ t).
    cbn [map] in *. rewrite join_cons. cbv iota. rewrite Ht.
    now rewrite !append_assoc.
Qed.

Lemma lacks_joined c vars :
  c = dquote \/ c = ">"%char ->
  forallb plainDeclaration vars = true ->
  lacks c (join " " (map enc vars)) = true.
Proof.
  intros Hc. induction vars as [|[k v] l IH]; [reflexivity|].
  cbn [forallb]. intros H. apply andb_true_iff in H as [Hkv Hl].
  cbn [map]. rewrite join_cons.
  assert (lacks c (enc (k, v)) = true) as He.
  { unfold enc. cbn [fst snd].
    pose proof (lacks_plain_body c "" k v (or_introl eq_refl)
                  (or_intror Hc) Hkv) as Hb.
    change ("" ++ k ++ ": " ++ v) with (k ++ ": " ++ v) in Hb.
    replace (k ++ ": " ++ v ++ ";") with ((k ++ ": " ++ v) ++ ";")
      by now rewrite !append_assoc.
    rewrite lacks_append, Hb.
    destruct Hc as [-> | ->]; reflexivity. }
  rewrite lacks_append, He. specialize (IH Hl).
  destruct (map enc l) as [|e es]; [reflexivity|].
  rewrite lacks_append, IH.
  destruct Hc as [-> | ->]; reflexivity.
Qed.

(** *** The opening tag as the engine reads it *)

Lemma plainToken_parts cs :
  forallb plainToken cs = true ->
  forallb nonEmpty cs = true /\ forallb (lacks " ") cs = true
  /\ forallb (lacks dquote) cs = true /\ forallb (lacks "=") cs = true
  /\ forallb (lacks ">") cs = true.
Proof.
  unfold plainToken, cleanToken. rewrite !forallb_both. intros H.
  repeat (apply andb_true_iff in H as [H ?]). repeat split; assumption.
Qed.


Lemma openingTag_with_classes c cs ds :
  openingTag (c :: cs) ds
  = ("<span class=" ++ DQ) ++ join " " (c :: cs) ++ String dquote (styleTail ds).
Proof.
  unfold openingTag, styleTail, DQ.
  destruct ds; repeat (progress (rewrite ?append_assoc; cbn [append]));
    reflexivity.
Qed.

Lemma openingTag_without_classes kv ds :
  openingTag [] (kv :: ds)
  = ("<span style=" ++ DQ) ++ join " " (map enc (kv :: ds)) ++ String dquote ">".
Proof.
  unfold openingTag, DQ.
  repeat (progress (rewrite ?append_assoc; cbn [append])). reflexivity.
Qed.

Lemma attribute_at_six (f : string -> option string) name V tail :
  String.length name = 6 ->
  (forall j, j < 6 ->
     f (substringFrom j (("<span " ++ name ++ DQ) ++ V ++ String dquote tail))
     = None) ->
  f ((name ++ DQ) ++ V ++ String dquote tail) = Some V ->
  search f (("<span " ++ name ++ DQ) ++ V ++ String dquote tail) = Some (6, V).
Proof.
  intros Hl Hn Hf. apply search_found.
  - exact Hn.
  - rewrite !append_length. cbn [String.length]. lia.
  - rewrite append_assoc. cbn [append substringFrom]. exact Hf.
Qed.

Lemma styleRegexAt_value V tail :
  lacks dquote V = true ->
  styleRegexAt (("style=" ++ DQ) ++ V ++ String dquote tail) = Some V.
Proof.
  intros H. unfold styleRegexAt, DQ. cbn [append substringFrom].
  change (startsWith_ci _ _) with true. cbv iota. now apply upTo_append.
Qed.

Lemma classRegexAt_value V tail :
  lacks dquote V = true ->
  classRegexAt (("class=" ++ DQ) ++ V ++ String dquote tail) = Some V.
Proof.
  intros H. unfold classRegexAt, DQ. cbn [append substringFrom].
  change (startsWith_ci _ _) with true. cbv iota. now apply upTo_append.
Qed.

Lemma search_class_at_six V tail :
  lacks dquote V = true ->
  search classRegexAt (("<span class=" ++ DQ) ++ V ++ String dquote tail)
  = Some (6, V).
Proof.
  intros H. apply (attribute_at_six classRegexAt "class=" V tail eq_refl).
  - intros j Hj. do 6 (destruct j as [|j]; [reflexivity|]). lia.
  - now apply classRegexAt_value.
Qed.

Lemma search_style_at_six V tail :
  lacks dquote V = true ->
  search styleRegexAt (("<span style=" ++ DQ) ++ V ++ String dquote tail)
  = Some (6, V).
Proof.
  intros H. apply (attribute_at_six styleRegexAt "style=" V tail eq_refl).
  - intros j Hj. do 6 (destruct j as [|j]; [reflexivity|]). lia.
  - now apply styleRegexAt_value.
Qed.

(** The search for the other attribute goes past the first one. *)
Lemma search_style_past_class J tail :
  lacks dquote J = true ->
  (forall R', J <> R' ++ "=") ->
  search styleRegexAt (("<span class=" ++ DQ) ++ J ++ String dquote tail)
  = match search styleRegexAt (String dquote tail) with
    | Some (k, a) => Some (13 + (String.length J + k), a)
    | None => None
    end.
Proof.
  intros Hq Hlast. rewrite (search_from styleRegexAt _ 13).
  - unfold DQ. cbn [append substringFrom].
    rewrite (search_style_past J tail Hq Hlast).
    now destruct (search styleRegexAt (String dquote tail)) as [[k a]|].
  - intros j Hj. do 13 (destruct j as [|j]; [reflexivity|]). lia.
  - unfold DQ. rewrite !append_length. cbn [String.length]. lia.
Qed.

Lemma search_class_past_style D tail :
  lacks dquote D = true ->
  (forall R', D <> R' ++ "=") ->
  search classRegexAt (("<span style=" ++ DQ) ++ D ++ String dquote tail)
  = match search classRegexAt (String dquote tail) with
    | Some (k, a) => Some (13 + (String.length D + k), a)
    | None => None
    end.
Proof.
  intros Hq Hlast. rewrite (search_from classRegexAt _ 13).
  - unfold DQ. cbn [append substringFrom].
    rewrite (search_class_past D tail Hq Hlast).
    now destruct (search classRegexAt (String dquote tail)) as [[k a]|].
  - intros j Hj. do 13 (destruct j as [|j]; [reflexivity|]). lia.
  - unfold DQ. rewrite !append_length. cbn [String.length]. lia.
Qed.

Lemma search_style_after_class D tail :
  lacks dquote D = true ->
  search styleRegexAt
    (String dquote (" style=" ++ String dquote (D ++ String dquote tail)))
  = Some (2, D).
Proof.
  intros H. apply search_found.
  - intros j Hj. do 2 (destruct j as [|j]; [reflexivity|]). lia.
  - cbn [append String.length]. lia.
  - cbn [append substringFrom].
    apply (styleRegexAt_value D tail H).
Qed.

Lemma plainWrapper_parts cs ds :
  plainWrapper cs ds = true ->
  forallb plainToken cs = true /\ forallb plainDeclaration ds = true
  /\ distinctKeys ds = true /\ (cs <> [] \/ ds <> []).
Proof.
  unfold plainWrapper. intros H.
  repeat (apply andb_true_iff in H as [H ?]).
  repeat split; try assumption.
  destruct cs, ds; try discriminate; (now left) || (now right).
Qed.

Lemma joined_tokens cs :
  forallb plainToken cs = true ->
  lacks dquote (join " " cs) = true /\ lacks ">" (join " " cs) = true
  /\ (forall R', join " " cs <> R' ++ "=").
Proof.
  intros Ht.
  destruct (plainToken_parts cs Ht) as (_ & _ & Hq & He & Hg).
  split; [now apply lacks_join|]. split; [now apply lacks_join|].
  apply lacks_no_last. now apply lacks_join.
Qed.

Lemma joined_declarations ds :
  forallb plainDeclaration ds = true ->
  lacks dquote (join " " (map enc ds)) = true
  /\ lacks ">" (join " " (map enc ds)) = true
  /\ (forall R', join " " (map enc ds) <> R' ++ "=").
Proof.
  intros Hd.
  split; [apply lacks_joined; auto|]. split; [apply lacks_joined; auto|].
  intros R' E. destruct ds as [|kv l].
  - destruct R'; discriminate.
  - destruct (joined_ends (kv :: l)) as [t Ht]; [congruence|].
    rewrite Ht in E. apply append_last_inj in E. discriminate.
Qed.

(** The class tokens the segmenter takes from the opening tag. *)
Lemma extractClasses_openingTag cs ds :
  plainWrapper cs ds = true -> extractClasses (openingTag cs ds) = cs.
Proof.
  intros Hplain.
  destruct (plainWrapper_parts cs ds Hplain) as (Ht & Hd & _ & Hne).
  destruct (plainToken_parts cs Ht) as (Hn & Hsp & Hq & _).
  destruct (joined_declarations ds Hd) as (Dq & _ & Dlast).
  unfold extractClasses.
  destruct cs as [|c cs'].
  - destruct ds as [|kv l]; [destruct Hne; congruence|].
    rewrite openingTag_without_classes.
    rewrite (search_class_past_style _ ">" Dq Dlast). reflexivity.
  - rewrite openingTag_with_classes.
    rewrite search_class_at_six by (now apply lacks_join).
    assert (nonEmpty (join " " (c :: cs')) = true) as ->.
    { apply nonEmpty_join. cbn [forallb] in Hn.
      now apply andb_true_iff in Hn as [Hn _]. }
    rewrite (split_join " " c cs' Hsp). now apply filter_keeps_all.
Qed.

(** The value of the style attribute the reader takes from it. *)
Lemma styleAttrOf_openingTag cs ds :
  plainWrapper cs ds = true ->
  styleAttrOf (openingTag cs ds) = join " " (map enc ds).
Proof.
  intros Hplain.
  destruct (plainWrapper_parts cs ds Hplain) as (Ht & Hd & _ & Hne).
  destruct (joined_tokens cs Ht) as (Jq & _ & Jlast).
  destruct (joined_declarations ds Hd) as (Dq & _ & _).
  unfold styleAttrOf.
  destruct cs as [|c cs'].
  - destruct ds as [|kv l]; [destruct Hne; congruence|].
    rewrite openingTag_without_classes.
    now rewrite search_style_at_six.
  - rewrite openingTag_with_classes.
    rewrite (search_style_past_class _ _ Jq Jlast).
    destruct ds as [|kv l]; [reflexivity|].
    unfold styleTail. now rewrite search_style_after_class.
Qed.

(** The opening tag is a tag for the segmenter, and not a closing one. *)
Lemma isTag_openingTag cs ds :
  plainWrapper cs ds = true ->
  isTag (openingTag cs ds) = true
  /\ startsWith "</span" (openingTag cs ds) = false.
Proof.
  intros Hplain.
  destruct (plainWrapper_parts cs ds Hplain) as (Ht & Hd & _ & _).
  destruct (joined_tokens cs Ht) as (_ & Jg & _).
  destruct (joined_declarations ds Hd) as (_ & Dg & _).
  split; [|reflexivity].
  unfold isTag, tagRegexAt, openingTag.
  set (A := match cs with
            | [] => ""
            | _ :: _ => " class=" ++ DQ ++ join " " cs ++ DQ
            end).
  set (B := match ds with
            | [] => ""
            | _ :: _ => " style=" ++ DQ ++ join " " (map enc ds) ++ DQ
            end).
  assert (lacks ">" (A ++ B) = true) as Hb.
  { subst A B. rewrite lacks_append.
    destruct cs, ds; unfold DQ; rewrite ?lacks_append, ?Jg, ?Dg; reflexivity. }
  change (startsWith_ci "</span" ("<span" ++ A ++ B ++ ">")) with false.
  change (startsWith_ci "<span" ("<span" ++ A ++ B ++ ">")) with true.
  cbv iota.
  change (substringFrom 5 ("<span" ++ A ++ B ++ ">")) with (A ++ B ++ ">").
  change (substringTo 5 ("<span" ++ A ++ B ++ ">")) with "<span".
  rewrite <- (append_assoc A B ">").
  rewrite (upTo_append ">" (A ++ B) "" Hb).
  apply String.eqb_refl.
Qed.

(** What the reader takes from the opening tag. *)
Lemma openingTag_read cs ds :
  plainWrapper cs ds = true ->
  extractClasses (openingTag cs ds) = cs
  /\ declarationsOf (styleAttrOf (openingTag cs ds)) = filter stylerKey ds.
Proof.
  intros Hplain. split; [now apply extractClasses_openingTag|].
  destruct (plainWrapper_parts cs ds Hplain) as (_ & Hd & Hk & _).
  rewrite styleAttrOf_openingTag by exact Hplain.
  now apply declarationsOf_joined.
Qed.

Lemma wrapperText_openingTag cs ds text :
  plainWrapper cs ds = true ->
  wrapperText cs ds text = openingTag cs ds ++ text ++ "</span>".
Proof.
  intros H. destruct (plainWrapper_parts cs ds H) as (_ & _ & _ & Hne).
  unfold wrapperText, openingTag, enc.
  destruct cs, ds; try reflexivity. destruct Hne; congruence.
Qed.

(** A toggle on a selection made of one wrapper around a text. *)
Lemma toggle_one_wrapper settings tag styleType value text :
  isTag tag = true ->
  startsWith "</span" tag = false ->
  nonEmpty text = true ->
  noTagHead text = true ->
  exists classes declarations,
    toggleStyle settings (Some (tag ++ text ++ "</span>")) styleType value
    = [ ReplaceRange (wrapperText classes declarations text) ]
    /\ keepsForeign tag classes declarations.
Proof.
  intros Ht Hs Hn H. destruct text as [|a s]; [discriminate|].
  assert (exists c r, tag ++ String a s ++ "</span>" = String c r)
    as (c & r & Hshape).
  { apply isTag_match in Ht. destruct (tagRegexAt_angle _ _ Ht) as [u ->].
    now eexists _, _. }
  rewrite Hshape, toggleStyle_renders, <- Hshape.
  unfold reconciledRuns, renderRuns.
  rewrite (parseSelection_one_wrapper tag a s Ht Hs H).
  cbn [map text span fst snd String.concat].
  destruct (wrapper_passes_through settings (String a s) tag 0 styleType
              value
              (decideShouldApply
                 [ {| text := String a s; start := String.length tag;
                      finish := String.length tag
                                + String.length (String a s);
                      span := Some (wrapperOf tag 0) |} ] styleType value))
    as (classes & declarations & Hw & Hk).
  exists classes, declarations. split; [|exact Hk].
  unfold applyModificationToSegment in Hw. now rewrite Hw.
Qed.

(** C5, as amended.  Re-serializing a run never fails.  For a run inside
    the wrapper opened by a tag, what is written is a wrapper whose class
    attribute keeps, in their order and without repetition, the class
    tokens of the tag that are not among the eight recognized ones, and
    whose style attribute keeps the declarations of the tag whose key begins
    with [--styler-] and is not among the six recognized ones; every
    declaration written has a key that begins with [--styler-],
    declarations with any other key are left out.  This holds of
    [applyModificationToSegment] on every run, and of [toggleStyle] on a
    selection made of one such wrapper around a text that is not empty and
    in which no tag head begins.  Text to text: when the selection is the
    wrapper written with plain class tokens and plain declarations with
    distinct keys around such a text, [toggleStyle] replaces it by the
    wrapper written with class tokens and declarations of which the foreign
    tokens are the foreign tokens of the selection, in their order and
    without repetition, and the foreign declarations are the foreign
    declarations of the selection whose key begins with [--styler-]. *)
Theorem foreign_attributes_pass_through :
  forall settings styleType value,
    (forall tag text offset shouldApply,
        exists classes declarations,
          applyModificationToSegment settings text (Some (wrapperOf tag offset))
            styleType value shouldApply
          = wrapperText classes declarations text
          /\ keepsForeign tag classes declarations)
    /\ (forall tag text,
           isTag tag = true ->
           startsWith "</span" tag = false ->
           nonEmpty text = true ->
           noTagHead text = true ->
           exists classes declarations,
             toggleStyle settings (Some (tag ++ text ++ "</span>")) styleType
               value
             = [ ReplaceRange (wrapperText classes declarations text) ]
             /\ keepsForeign tag classes declarations)
    /\ (forall classes0 declarations0 text,
           plainWrapper classes0 declarations0 = true ->
           nonEmpty text = true ->
           noTagHead text = true ->
           exists classes declarations,
             toggleStyle settings
               (Some (wrapperText classes0 declarations0 text)) styleType value
             = [ ReplaceRange (wrapperText classes declarations text) ]
             /\ filter foreignClass classes
                = dedup (filter foreignClass classes0)
             /\ filter foreignKey declarations
                = filter foreignKey (filter stylerKey declarations0)
             /\ forallb stylerKey declarations = true).
Proof.
  intros settings styleType value. split; [|split].
  - intros tag text offset shouldApply. apply wrapper_passes_through.
  - intros tag text. apply toggle_one_wrapper.
  - intros cs ds text Hplain Hn H.
    destruct (isTag_openingTag cs ds Hplain) as [Ht Hs].
    destruct (openingTag_read cs ds Hplain) as [Rc Rd].
    destruct (toggle_one_wrapper settings _ styleType value text Ht Hs Hn H)
      as (classes & declarations & Hw & Hc & Hk & Hv).
    exists classes, declarations.
    rewrite (wrapperText_openingTag cs ds text Hplain), Hw.
    rewrite Rc in Hc. rewrite Rd in Hk. auto.
Qed.

Lemma foreign_attributes_pass_through_witness :
  let classes0 := ["foo"; "styler-bold"; "foo"; "bar"] in
  let declarations0 :=
    [ ("font-size", "12px"); ("--styler-x", "1");
      ("--styler-text-color", "red") ] in
  wrapperText classes0 declarations0 "X"
  = "<span class=" ++ DQ ++ "foo styler-bold foo bar" ++ DQ ++ " style=" ++ DQ
    ++ "font-size: 12px; --styler-x: 1; --styler-text-color: red;" ++ DQ
    ++ ">X</span>"
  /\ toggleStyle settings0 (Some (wrapperText classes0 declarations0 "X"))
       Bold None
     = [ ReplaceRange
           ("<span class=" ++ DQ ++ "foo bar" ++ DQ ++ " style=" ++ DQ
            ++ "--styler-x: 1; --styler-text-color: red;" ++ DQ
            ++ ">X</span>") ]
  /\ exists classes declarations,
       toggleStyle settings0 (Some (wrapperText classes0 declarations0 "X"))
         Bold None
       = [ ReplaceRange (wrapperText classes declarations "X") ]
       /\ filter foreignClass classes = ["foo"; "bar"]
       /\ filter foreignKey declarations = [("--styler-x", "1")].
Proof.
  intros classes0 declarations0. split; [reflexivity|]. split; [reflexivity|].
  destruct (proj2 (proj2 (foreign_attributes_pass_through settings0 Bold None))
              classes0 declarations0 "X" eq_refl eq_refl eq_refl)
    as (classes & declarations & H & Hc & Hk & _).
  exists classes, declarations. split; [exact H|].
  split; [rewrite Hc|rewrite Hk]; reflexivity.
Defined.

(** C5 as stated fails: the wrapper carries the declaration
    [font-size: 12px]; after toggling bold the class [foo] is still there
    and the declaration is gone. *)
Lemma font_size_dropped :
  occursIn "font-size: 12px" fontSized = true
  /\ toggleStyle settings0 (Some fontSized) Bold None
     = [ ReplaceRange
           ("<span class=" ++ DQ ++ "foo styler-bold" ++ DQ ++ ">X</span>") ]
  /\ occursIn "font-size"
       (rangeAfter fontSized (toggleStyle settings0 (Some fontSized) Bold None))
     = false.
Proof. repeat split. Qed.
